(** * Table builders of the visual-component-use plugin

    A shallow embedding of [Functions/uri_to_url.py],
    [Functions/most_used_bar.py], [Functions/most_used_by_type_bar.py] and
    [Functions/sankey.py].

    The SPARQL round trip is an input: every builder takes the query result
    as it is after the renaming and the drop of the unused columns, and is
    modelled from the line that follows.  Python strings are [string]s,
    Python integers are [Z], a pandas column is a list indexed by position
    (the source only uses frames under the default index 0..n-1, or indexes
    them by position), a null cell is [None], and an exception is the [None]
    of an [option] result.  The Series that [uri_to_url] updates in place
    lives in a store, so that the update is seen through every reference. *)

From Stdlib Require Import ZArith String Ascii List Lia QArith.
From stdpp Require Import base option list strings gmap.

Local Open Scope string_scope.
Local Open Scope list_scope.
Local Open Scope Z_scope.

(** ** Python string primitives used by the source *)

Module PyStr.

(** [s.find(c, start)] for a one-character needle: the least index
    [i >= start] with [s[i] = c], and [-1] when there is none.  [pos] is the
    index of the head of [s] in the whole string. *)
Fixpoint find_from (c : ascii) (start : nat) (pos : Z) (s : string) : Z :=
  match s with
  | EmptyString => -1
  | String a s' =>
      match start with
      | S k => find_from c k (pos + 1) s'
      | O => if Ascii.eqb a c then pos else find_from c 0 (pos + 1) s'
      end
  end.

Definition find (s : string) (c : ascii) (start : nat) : Z :=
  find_from c start 0 s.

(** The first [n] characters (all of [s] when it is shorter). *)
Fixpoint take (n : nat) (s : string) : string :=
  match n, s with
  | S k, String a s' => String a (take k s')
  | _, _ => EmptyString
  end.

(** [s[:stop]]: a negative [stop] counts from the end and is clipped at 0. *)
Definition slice_to (s : string) (stop : Z) : string :=
  let stop' :=
    if stop <? 0 then Z.max 0 (stop + Z.of_nat (String.length s)) else stop in
  take (Z.to_nat stop') s.

(** [s.replace("", new)]: [new] before every character and at the end. *)
Fixpoint interleave (new s : string) : string :=
  match s with
  | EmptyString => new
  | String a s' => new +:+ String a (interleave new s')
  end.

(** Left-to-right, non-overlapping replacement of a non-empty [old];
    [skip] counts the characters of a match still to be dropped. *)
Fixpoint replace_from (old new : string) (skip : nat) (s : string) : string :=
  match s with
  | EmptyString => EmptyString
  | String a s' =>
      match skip with
      | S k => replace_from old new k s'
      | O =>
          if String.prefix old s
          then new +:+ replace_from old new (String.length old - 1) s'
          else String a (replace_from old new 0 s')
      end
  end.

(** [s.replace(old, new)] *)
Definition replace (s old new : string) : string :=
  match old with
  | EmptyString => interleave new s
  | _ => replace_from old new 0 s
  end.

(** Whether [old] matches at some position of [s]. *)
Fixpoint occurs (old s : string) : bool :=
  String.prefix old s
  || match s with
     | EmptyString => false
     | String _ s' => occurs old s'
     end.

(** [s[n:]] for [n >= 0] *)
Fixpoint drop (n : nat) (s : string) : string :=
  match n, s with
  | S k, String _ s' => drop k s'
  | _, _ => s
  end.

End PyStr.

(** ** uri_to_url.py *)

(** [deff[:deff.find('/', 8)+1]] *)
Definition uri_instance (deff : string) : string :=
  PyStr.slice_to deff (PyStr.find deff "/"%char 8 + 1).

(** The [str] branch of [uri_to_url]. *)
Definition uri_to_url_str (data instance spoofed_instance : string) : string :=
  if negb (String.eqb spoofed_instance instance) then
    if String.eqb (uri_instance data) spoofed_instance
    then PyStr.replace data (uri_instance data) instance
    else data
  else data.

(** A pandas Series of strings under its default index: label = position. *)
Abbreviation series := (list string).

(** Python values that reach the [data] parameter, and the store holding
    the Series objects they may refer to. *)
Definition loc := positive.

Inductive pyval :=
| PStr (s : string)
| PSeries (l : loc)
| PInt (n : Z).

Abbreviation heap := (gmap loc series).

(** [data[idx] = v] on the Series object at [l]. *)
Definition series_setitem (l : loc) (idx : nat) (v : string) (h : heap) : heap :=
  alter (fun xs : series => <[idx := v]> xs) l h.

(** The body of [for idx, deff in data.items()], over the items still to
    be visited. *)
Fixpoint series_loop (l : loc) (instance spoofed_instance : string)
    (items : list (nat * string)) (h : heap) : heap :=
  match items with
  | [] => h
  | (idx, deff) :: rest =>
      let h' :=
        if String.eqb (uri_instance deff) spoofed_instance
        then series_setitem l idx
               (PyStr.replace deff (uri_instance deff) instance) h
        else h in
      series_loop l instance spoofed_instance rest h'
  end.

(** [uri_to_url(data, instance, spoofed_instance)]: the returned value and
    the store after the call.  A value that is neither a Series nor a [str]
    passes through both [if]s untouched. *)
Definition uri_to_url (data : pyval) (instance spoofed_instance : string)
    (h : heap) : pyval * heap :=
  if negb (String.eqb spoofed_instance instance) then
    match data with
    | PSeries l =>
        match h !! l with
        | Some xs =>
            (data, series_loop l instance spoofed_instance (imap pair xs) h)
        | None => (data, h)
        end
    | PStr s =>
        let data' :=
          if String.eqb (uri_instance s) spoofed_instance
          then PyStr.replace s (uri_instance s) instance
          else s in
        (PStr data', h)
    | PInt _ => (data, h)
    end
  else (data, h).

(** [df[col] = uri_to_url(df[col], instance, spoofed_instance)]: the column
    is handed over as a Series object and read back from what is returned. *)
Definition column_uri_to_url (col : series) (instance spoofed_instance : string)
    : series :=
  let h : heap := {[ 1%positive := col ]} in
  match uri_to_url (PSeries 1%positive) instance spoofed_instance h with
  | (PSeries l, h') => default col (h' !! l)
  | _ => col
  end.

(** *** The resolver as section 4.1 of the specification words it *)

(** The prefix "through the second '/' after position 8". *)
Definition spec_instance_prefix (v : string) : string :=
  let i1 := PyStr.find v "/"%char 9 in
  let i2 := if i1 <? 0 then -1 else PyStr.find v "/"%char (Z.to_nat i1 + 1) in
  PyStr.slice_to v (i2 + 1).

(** "If that prefix equals the spoofed instance, replace it with the
    canonical one; every character after the prefix is left unchanged." *)
Definition spec_resolve (v canonical spoofed : string) : string :=
  if String.eqb (spec_instance_prefix v) spoofed
  then canonical +:+ PyStr.drop (String.length (spec_instance_prefix v)) v
  else v.

(** ** Positional indexing of frames and lists *)

(** A Python index: negative values count from the end. *)
Definition norm_index (len i : Z) : Z := if i <? 0 then i + len else i.

(** A slice bound: as [norm_index], then clipped to [0, len]. *)
Definition clip_bound (len i : Z) : Z :=
  Z.max 0 (Z.min len (norm_index len i)).

(** [l[start:stop]] and [df.iloc[start:stop]] *)
Definition py_slice {A} (l : list A) (start stop : Z) : list A :=
  let len := Z.of_nat (length l) in
  let a := clip_bound len start in
  let b := clip_bound len stop in
  take (Z.to_nat (b - a)) (drop (Z.to_nat a) l).

(** [df.iloc[i] = row]: a position outside the frame raises [IndexError],
    which is [None] here. *)
Definition iloc_set {A} (l : list A) (i : Z) (x : A) : option (list A) :=
  let j := norm_index (Z.of_nat (length l)) i in
  if (0 <=? j) && (j <? Z.of_nat (length l))
  then Some (<[Z.to_nat j := x]> l)
  else None.

(** ** most_used_bar.py and most_used_by_type_bar.py *)

(** The [count] column holds the strings of the query result and, in the
    row of the part of interest, the integer passed by the caller. *)
Inductive count_cell :=
| CountStr (s : string)
| CountInt (n : Z).

(** A row of [bar_df] after the renaming and the drop of the unused
    columns; a missing [title] is [None]. *)
Record bar_row := {
  b_count : count_cell;
  b_deff : string;
  b_displayId : string;
  b_roletog : string;
  b_title : option string
}.

(** A row of the frame that is returned. *)
Record ranked_row := {
  r_count : count_cell;
  r_deff : string;
  r_displayId : string;
  r_roletog : string;
  r_title : string;
  r_color : string
}.

Definition colormap : gmap string string :=
  <["http://identifiers.org/so/SO:0000167" := "rgba(4,187,61,1)"]>
  (<["http://identifiers.org/so/SO:0000139" := "rgba(149,110,219,1)"]>
  (<["http://identifiers.org/so/SO:0000316" := "rgba(119,157,205,1)"]>
  (<["http://identifiers.org/so/SO:0000141" := "rgba(202,58,32,1)"]> ∅))).

(** The colour appended in the [except KeyError] branches. *)
Definition orange : string := "rgba(255, 128,0,1)".

(** [bar_df['deff'] = col] *)
Definition set_deff (bar_df : list bar_row) (col : series) : list bar_row :=
  zip_with (fun r d =>
    {| b_count := b_count r; b_deff := d; b_displayId := b_displayId r;
       b_roletog := b_roletog r; b_title := b_title r |}) bar_df col.

(** The row built from [poi_row]. *)
Definition poi_row (display_id title role : string) (count : Z)
    (part_url : string) : bar_row :=
  {| b_count := CountInt count;
     b_deff := part_url;
     b_displayId := display_id;
     b_roletog := "http://identifiers.org/so/SO:" +:+ role;
     b_title := Some title |}.

(** [bar_df[bar_df.displayId != display_id]], re-indexed: the candidates. *)
Definition candidate_pool (bindings : list bar_row) (display_id : string)
    : list bar_row :=
  filter (fun r => b_displayId r ≠ display_id) bindings.

(** [json_normalize] makes a column for every key that occurs in some
    binding: a result without rows has no column at all, and the columns of
    [title] ([tt] and [title] once renamed) exist when some row has a title,
    while the other keys are bound in every row.  The [drop] of the builders
    and of [sankey] names [tt] and raises [KeyError] when it is no column. *)
Definition has_tt {A} (title : A -> option string) (df : list A) : bool :=
  existsb (fun r => bool_decide (is_Some (title r))) df.

(** Everything up to and including [bar_df.iloc[robustness] = poi_row.iloc[0]],
    which the two builders share line for line.  [None] stands for the
    exception raised: the [KeyError] of the [drop], or the [IndexError] of
    the assignment. *)
Definition ranked_rows (bindings : list bar_row)
    (uri instance display_id title role : string) (count : Z)
    : option (list bar_row) :=
  let spoofed_instance := uri_instance uri in
  let part_url := uri_to_url_str uri instance spoofed_instance in
  (* bar_df.drop(['cd', 'ct', 'dt', 'dist', 'rt', 'tt'], axis=1) *)
  if negb (has_tt b_title bindings) then None else
  let bar_df := candidate_pool bindings display_id in
  let robustness := Z.min 10 (Z.of_nat (length bar_df) - 1) in
  let bar_df := py_slice bar_df 0 (robustness + 1) in
  let bar_df :=
    set_deff bar_df
      (column_uri_to_url (b_deff <$> bar_df) instance spoofed_instance) in
  iloc_set bar_df robustness (poi_row display_id title role count part_url).

(** [bar_df['color'] = colours], then the backfill of the null titles. *)
Definition add_color_and_title (bar_df : list bar_row) (colours : list string)
    : list ranked_row :=
  zip_with (fun r c =>
    {| r_count := b_count r; r_deff := b_deff r;
       r_displayId := b_displayId r; r_roletog := b_roletog r;
       r_title := default (b_displayId r) (b_title r);
       r_color := c |}) bar_df colours.

(** One pass of the colour loop of [most_used_bar]: both look-ups raise
    [KeyError] when they miss, and the handler appends orange. *)
Definition colour_at (bar_df : list bar_row) (index : nat) : string :=
  match bar_df !! index with
  | Some r => default orange (colormap !! b_roletog r)
  | None => orange
  end.

Definition most_used_bar (bindings : list bar_row)
    (uri instance display_id title role : string) (count : Z)
    : option (list ranked_row) :=
  bar_df ← ranked_rows bindings uri instance display_id title role count;
  let colours := colour_at bar_df <$> seq 0 (length bar_df) in
  Some (add_color_and_title bar_df colours).

Definition most_used_by_type_bar (bindings : list bar_row)
    (uri instance display_id title role : string) (count : Z)
    : option (list ranked_row) :=
  bar_df ← ranked_rows bindings uri instance display_id title role count;
  let part_role :=
    PyStr.replace "http://identifiers.org/so/SO:0000167" "0000167" role in
  let colours := [default orange (colormap !! part_role)] in
  let colours := mjoin (replicate (length bar_df) colours) in
  Some (add_color_and_title bar_df colours).

(** ** sankey.py *)

(** [list(range(a, b))] *)
Definition py_range (a b : Z) : list Z := seqZ a (b - a).

(** A [for] loop over [idxs] whose body may raise. *)
Fixpoint for_each {S} (body : nat -> S -> option S) (idxs : list nat) (st : S)
    : option S :=
  match idxs with
  | [] => Some st
  | i :: rest => st' ← body i st; for_each body rest st'
  end.

(** The numbers of the [count] and [centfol] columns after
    [pd.to_numeric], with the two operations the source applies to them. *)
Class PyNum (num : Type) := {
  num_one : num;
  num_sub : num -> num -> num;
  num_mul : num -> num -> num
}.

(** Exact rationals, for the worked examples. *)
#[export] Instance PyNum_Q : PyNum Q :=
  {| num_one := 1%Q; num_sub := Qminus; num_mul := Qmult |}.

Definition link_colours : list string :=
  [ "rgba(4,187,61,0.5)"; "rgba(149,110,219,0.5)"; "rgba(119,157,205,0.5)";
    "rgba(202,58,32,0.5)"; "rgba(255, 128,0,0.5)" ].

Definition node_colours : list string :=
  [ "#04BB3D"; "#956EDB"; "#779DCC"; "#CA3A20"; "#FF8000" ].

Definition part_colour : string := "#000000".

Definition role_prom : string := "http://identifiers.org/so/SO:0000167".
Definition role_rbs : string := "http://identifiers.org/so/SO:0000139".
Definition role_cds : string := "http://identifiers.org/so/SO:0000316".
Definition role_term : string := "http://identifiers.org/so/SO:0000141".

Section sankey_defs.
Context {num : Type} `{PyNum num}.

(** A row of [order_df] as the query returns it. *)
Record order_row := {
  o_centfol : num;
  o_count : num;
  o_deff : string;
  o_displayId : string;
  o_roletog : string;
  o_title : option string
}.

(** A row of [order_df] once the urls are resolved and the null titles
    are filled in. *)
Record part_row := {
  centfol : num;
  count : num;
  deff : string;
  displayId : string;
  roletog : string;
  title : string
}.

(** [order_df['deff'] = uri_to_url(...)] followed by the title backfill. *)
Definition prepare (order_df : list order_row) (instance spoofed_instance : string)
    : list part_row :=
  zip_with (fun r d =>
    {| centfol := o_centfol r; count := o_count r; deff := d;
       displayId := o_displayId r; roletog := o_roletog r;
       title := default (o_displayId r) (o_title r) |})
    order_df
    (column_uri_to_url (o_deff <$> order_df) instance spoofed_instance).

(** The lists (and the counter [target]) that the loops update. *)
Record lists := {
  source : list Z;
  list_target : list Z;
  value : list num;
  percent : list num;
  multiplier : list num;
  list_link_colour : list string;
  len_part_type : list Z;
  target : Z;
  list_node_colour : list string;
  node_label : list string;
  node_url : list string
}.

(** One pass of the inner loop.  [node_colours] and [list_node_colour] name
    one list object in the source, so [node_colours[part_type_index]] reads
    the list being extended. *)
Definition inner_body (part_array : list (list part_row))
    (part_type_index index : nat) (st : lists) : option lists :=
  lc ← link_colours !! part_type_index;
  nc ← list_node_colour st !! part_type_index;
  df ← part_array !! part_type_index;
  r ← df !! index;
  Some {|
    list_link_colour := list_link_colour st ++ [lc];
    list_node_colour := list_node_colour st ++ [nc];
    node_label := node_label st ++ [title r];
    node_url := node_url st ++ [deff r];
    percent := percent st ++ [centfol r];
    multiplier := multiplier st ++ [count r];
    value := value st ++ [num_mul (count r) (num_sub num_one (centfol r))];
    source := source st ++ [Z.of_nat part_type_index];
    list_target := list_target st ++ [target st];
    target := target st + 1;
    len_part_type := len_part_type st
  |}.

(** One pass of [for part_type_index in range(0, 5)]. *)
Definition outer_body (part_array : list (list part_row))
    (part_array_lengths : list Z) (part_type_index : nat) (st : lists)
    : option lists :=
  n ← part_array_lengths !! part_type_index;
  let st :=
    {| len_part_type := len_part_type st ++ [Z.min n 10];
       source := source st; list_target := list_target st;
       value := value st; percent := percent st;
       multiplier := multiplier st;
       list_link_colour := list_link_colour st; target := target st;
       list_node_colour := list_node_colour st;
       node_label := node_label st; node_url := node_url st |} in
  m ← len_part_type st !! part_type_index;
  for_each (inner_body part_array part_type_index) (seq 0 (Z.to_nat m)) st.

(** The state when the first loop is entered. *)
Definition initial_lists : lists :=
  {| source := []; list_target := []; value := []; percent := [];
     multiplier := []; list_link_colour := []; len_part_type := [];
     target := 5;
     list_node_colour := node_colours;
     node_label := [ "Preceeding Promoters"; "Preceeding RBS"; "Preceeding CDS";
                     "Preceeding Terminator"; "Preceeding Other" ];
     node_url := [ "NA"; "NA"; "NA"; "NA"; "NA" ] |}.

(** The five frames of [part_array]. *)
Definition split_by_role (order_df : list part_row) : list (list part_row) :=
  let prom := filter (fun r => roletog r = role_prom) order_df in
  let rbs := filter (fun r => roletog r = role_rbs) order_df in
  let cds := filter (fun r => roletog r = role_cds) order_df in
  let term := filter (fun r => roletog r = role_term) order_df in
  let other := filter (fun r => roletog r ≠ role_prom) order_df in
  let other := filter (fun r => roletog r ≠ role_rbs) other in
  let other := filter (fun r => roletog r ≠ role_cds) other in
  let other := filter (fun r => roletog r ≠ role_term) other in
  [prom; rbs; cds; term; other].

(** The seven lists handed to [pd.DataFrame]. *)
Record columns := {
  col_source : list Z;
  col_target : list Z;
  col_value : list num;
  col_color : list string;
  col_label : list string;
  col_link : list string;
  col_link_color : list string
}.

Definition sankey_lists (order_df : list order_row)
    (url uri title instance : string) : option columns :=
  (* order_df.drop(['ad', 'at', 'cd', 'ct', 'dt', 'dt1', 'rt', 'tt'], axis=1) *)
  if negb (has_tt o_title order_df) then None else
  let spoofed_instance := uri_instance uri in
  let order_df := prepare order_df instance spoofed_instance in
  let part_array := split_by_role order_df in
  let part_array_lengths := (fun df => Z.of_nat (length df)) <$> part_array in
  match for_each (outer_body part_array part_array_lengths) (seq 0 5)
          initial_lists with
  | None => None
  | Some (Build_lists source list_target value percent multiplier
            list_link_colour _ target list_node_colour node_label node_url) =>
      (* Preceding parts to POI *)
      let num_colocated_parts := Z.of_nat (length list_link_colour) in
      let list_link_colour := list_link_colour ++ list_link_colour in
      let value := value ++ value in
      let source := source ++ list_target in
      let list_target :=
        list_target ++ replicate (Z.to_nat num_colocated_parts) target in
      (* Add POI node *)
      let node_label := node_label ++ [title] in
      let node_url := node_url ++ [url] in
      let list_node_colour := list_node_colour ++ [part_colour] in
      (* POI to following *)
      let source := source ++ replicate (Z.to_nat num_colocated_parts) target in
      let list_target :=
        list_target
        ++ py_range (target + 1) (target + num_colocated_parts + 1) in
      let list_link_colour :=
        list_link_colour ++ py_slice list_link_colour 0 num_colocated_parts in
      let value := value ++ zip_with num_mul percent multiplier in
      let node_label := node_label ++ py_slice node_label 5 (-1) in
      let list_node_colour :=
        list_node_colour ++ py_slice list_node_colour 5 (-1) in
      let node_url := node_url ++ py_slice node_url 5 (-1) in
      (* Following to Following labels *)
      let source :=
        source ++ py_range (target + 1) (target + num_colocated_parts + 1) in
      let list_target :=
        list_target
        ++ ((fun x => x + target + num_colocated_parts + 1)
              <$> py_slice source 0 num_colocated_parts) in
      let list_link_colour :=
        list_link_colour ++ py_slice list_link_colour 0 num_colocated_parts in
      let value := value ++ zip_with num_mul percent multiplier in
      let node_label :=
        node_label ++ [ "Following Promoters"; "Following RBS"; "Following CDS";
                        "Following Terminator"; "Following Other" ] in
      let list_node_colour :=
        list_node_colour
        ++ [ "#04BB3D"; "#956EDB"; "#779DCC"; "#CA3A20"; "#FF8000" ] in
      let node_url := node_url ++ [ "NA"; "NA"; "NA"; "NA"; "NA" ] in
      Some {| col_source := source; col_target := list_target;
              col_value := value; col_color := list_node_colour;
              col_label := node_label; col_link := node_url;
              col_link_color := list_link_colour |}
  end.

(** A row of [skey]; a cell beyond the end of its list is null. *)
Record skey_row := {
  Source : option Z;
  Target : option Z;
  Value : option num;
  Color : option string;
  Node_Label : option string;
  Link : option string;
  Link_Color : option string
}.

(** [pd.DataFrame(data=[...], index=[...]).T]: one row per position, as
    many as the longest list has entries. *)
Definition data_frame_T (c : columns) : list skey_row :=
  let rows :=
    max_list [ length (col_source c); length (col_target c);
               length (col_value c); length (col_color c);
               length (col_label c); length (col_link c);
               length (col_link_color c) ] in
  (fun i : nat =>
     {| Source := col_source c !! i; Target := col_target c !! i;
        Value := col_value c !! i; Color := col_color c !! i;
        Node_Label := col_label c !! i; Link := col_link c !! i;
        Link_Color := col_link_color c !! i |}) <$> seq 0 rows.

Definition sankey (order_df : list order_row)
    (url uri title instance : string) : option (list skey_row) :=
  data_frame_T <$> sankey_lists order_df url uri title instance.

End sankey_defs.

(** ** Worked inputs *)

Definition mk_bar (c d i r : string) (t : option string) : bar_row :=
  {| b_count := CountStr c; b_deff := d; b_displayId := i; b_roletog := r;
     b_title := t |}.

(** Three candidates, none of them the part of interest. *)
Definition three_candidates : list bar_row :=
  [ mk_bar "12824" "https://synbiohub.org/public/igem/BBa_B0034/1"
      "BBa_B0034" "http://identifiers.org/so/SO:0000139" None;
    mk_bar "2550" "https://synbiohub.org/public/igem/BBa_J176041/1"
      "BBa_J176041" "http://identifiers.org/so/SO:0000110" (Some "scar");
    mk_bar "9052" "https://synbiohub.org/public/igem/BBa_B0012/1"
      "BBa_B0012" "http://identifiers.org/so/SO:0000141" None ].

(** A result table whose only row is the part of interest itself. *)
Definition only_poi : list bar_row :=
  [ mk_bar "2348" "https://synbiohub.org/public/igem/BBa_E0040/1"
      "BBa_E0040" "http://identifiers.org/so/SO:0000316" (Some "GFP") ].

Definition gfp_uri : string := "https://synbiohub.org/public/igem/BBa_E0040/1".
Definition gfp_url : string :=
  "https://dev.synbiohub.org/public/igem/BBa_E0040/1".
Definition dev_instance : string := "https://dev.synbiohub.org/".

Definition mk_order (p c : Q) (d i r : string) (t : option string)
    : @order_row Q :=
  {| o_centfol := p; o_count := c; o_deff := d; o_displayId := i;
     o_roletog := r; o_title := t |}.

(** Two promoters, no RBS, one CDS, no terminator, three other parts. *)
Definition six_preceding : list (@order_row Q) :=
  [ mk_order 0.25 8 "https://synbiohub.org/p1" "p1" role_prom None;
    mk_order 0.5 6 "https://synbiohub.org/o1" "o1"
      "http://identifiers.org/so/SO:0000110" (Some "O1");
    mk_order 0.5 4 "https://synbiohub.org/c1" "c1" role_cds (Some "C1");
    mk_order 0 4 "https://synbiohub.org/p2" "p2" role_prom (Some "P2");
    mk_order 1 2 "https://synbiohub.org/o2" "o2"
      "http://identifiers.org/so/SO:0000804" None;
    mk_order 1 1 "https://synbiohub.org/o3" "o3"
      "http://identifiers.org/so/SO:0000110" None ].

(** ** Quantities the properties are stated with *)

(** The rows of a frame with a value in column [F], in frame order. *)
Definition records {A B} (F : A -> option B) (df : list A) : list A :=
  filter (fun row => is_Some (F row)) df.

Section sankey_quantities.
Context {num : Type} `{PyNum num}.

(** One row of [order_df] after the two preparation steps. *)
Definition prepared (instance spoofed_instance : string) (r : @order_row num)
    : @part_row num :=
  {| centfol := o_centfol r; count := o_count r;
     deff := uri_to_url_str (o_deff r) instance spoofed_instance;
     displayId := o_displayId r; roletog := o_roletog r;
     title := default (o_displayId r) (o_title r) |}.

(** The rows the first loop visits: for each of the five frames, in order,
    its first ten rows, each with the index of its frame. *)
Definition kept (part_array : list (list (@part_row num)))
    : list (nat * @part_row num) :=
  mjoin (imap (fun i df => (fun r => (i, r)) <$> take 10 df) part_array).

Definition kept_rows (order_df : list (@order_row num))
    (uri instance : string) : list (nat * @part_row num) :=
  kept (split_by_role (prepare order_df instance (uri_instance uri))).

(** Sizes of the five role buckets of the query result. *)
Definition bucket_sizes (order_df : list (@order_row num)) : list nat :=
  [ length (filter (fun r => o_roletog r = role_prom) order_df);
    length (filter (fun r => o_roletog r = role_rbs) order_df);
    length (filter (fun r => o_roletog r = role_cds) order_df);
    length (filter (fun r => o_roletog r = role_term) order_df);
    length (filter (fun r => o_roletog r ∉ [role_prom; role_rbs; role_cds; role_term])
              order_df) ].

(** [P]: the number of preceding rows kept, at most ten per bucket. *)
Definition preceding_kept (order_df : list (@order_row num)) : nat :=
  sum_list ((fun n => n `min` 10)%nat <$> bucket_sizes order_df).

Definition bucket_node_colour (i : nat) : string :=
  default "" (node_colours !! i).

Definition bucket_link_colour (i : nat) : string :=
  default "" (link_colours !! i).

(** The lists once the first loop has visited the rows [K]. *)
Definition lists_after (K : list (nat * @part_row num)) (lens : list Z)
    : @lists num :=
  {| source := (fun p => Z.of_nat p.1) <$> K;
     list_target := py_range 5 (5 + Z.of_nat (length K));
     value :=
       (fun p => num_mul (count p.2) (num_sub num_one (centfol p.2))) <$> K;
     percent := (fun p => centfol p.2) <$> K;
     multiplier := (fun p => count p.2) <$> K;
     list_link_colour := (fun p => bucket_link_colour p.1) <$> K;
     len_part_type := lens;
     target := 5 + Z.of_nat (length K);
     list_node_colour :=
       node_colours ++ ((fun p => bucket_node_colour p.1) <$> K);
     node_label :=
       [ "Preceeding Promoters"; "Preceeding RBS"; "Preceeding CDS";
         "Preceeding Terminator"; "Preceeding Other" ]
       ++ ((fun p => title p.2) <$> K);
     node_url := [ "NA"; "NA"; "NA"; "NA"; "NA" ] ++ ((fun p => deff p.2) <$> K)
  |}.

(** The seven lists in closed form, for the kept rows [K]: with
    [P = length K], the nodes are 5 headers, [P] preceding parts, the part of
    interest, [P] following parts and 5 footers; the links come in four runs
    of [P]. *)
Definition flow_columns (K : list (nat * @part_row num))
    (poi_url poi_title : string)
    : @columns num :=
  let P := Z.of_nat (length K) in
  let buckets := (fun p => Z.of_nat p.1) <$> K in
  let width_in :=
    (fun p => num_mul (count p.2) (num_sub num_one (centfol p.2))) <$> K in
  let width_out := (fun p => num_mul (centfol p.2) (count p.2)) <$> K in
  let link_colour := (fun p => bucket_link_colour p.1) <$> K in
  let colour := (fun p => bucket_node_colour p.1) <$> K in
  {| col_source :=
       buckets ++ py_range 5 (5 + P) ++ replicate (length K) (5 + P)
       ++ py_range (6 + P) (6 + 2 * P);
     col_target :=
       py_range 5 (5 + P) ++ replicate (length K) (5 + P)
       ++ py_range (6 + P) (6 + 2 * P)
       ++ ((fun b => b + (6 + 2 * P)) <$> buckets);
     col_value := width_in ++ width_in ++ width_out ++ width_out;
     col_color :=
       node_colours ++ colour ++ [part_colour] ++ colour
       ++ [ "#04BB3D"; "#956EDB"; "#779DCC"; "#CA3A20"; "#FF8000" ];
     col_label :=
       [ "Preceeding Promoters"; "Preceeding RBS"; "Preceeding CDS";
         "Preceeding Terminator"; "Preceeding Other" ]
       ++ ((fun p => title p.2) <$> K) ++ [poi_title]
       ++ ((fun p => title p.2) <$> K)
       ++ [ "Following Promoters"; "Following RBS"; "Following CDS";
            "Following Terminator"; "Following Other" ];
     col_link :=
       [ "NA"; "NA"; "NA"; "NA"; "NA" ]
       ++ ((fun p => deff p.2) <$> K) ++ [poi_url]
       ++ ((fun p => deff p.2) <$> K)
       ++ [ "NA"; "NA"; "NA"; "NA"; "NA" ];
     col_link_color := link_colour ++ link_colour ++ link_colour ++ link_colour
  |}.

End sankey_quantities.

(** ** The assignment both branches of [uri_to_url] perform on one string *)

Definition rewrite_cell (instance spoofed_instance deff : string) : string :=
  if String.eqb (uri_instance deff) spoofed_instance
  then PyStr.replace deff (uri_instance deff) instance
  else deff.

(** ** capitalise_each_word.py *)

(** [c.capitalize()] for a one-character string [c].  Only ASCII is
    modelled: a lower-case letter becomes its upper-case letter and every
    other ASCII character is kept.  (Outside ASCII Python may answer with
    another code point, or with two; the properties below assume ASCII
    input.) *)
Definition capitalize_char (c : ascii) : ascii :=
  let n := nat_of_ascii c in
  if (97 <=? n)%nat && (n <=? 122)%nat then ascii_of_nat (n - 32) else c.

Definition ascii_only (s : string) : bool :=
  forallb (fun c => (nat_of_ascii c <? 128)%nat) (list_ascii_of_string s).

(** [[index for index, character in enumerate(str) if character == ' ']] *)
Definition space_indexes (s : string) : list Z :=
  omap (fun p : nat * ascii =>
          if Ascii.eqb p.2 " "%char then Some (Z.of_nat p.1) else None)
       (imap pair (list_ascii_of_string s)).

(** One pass of [for i in range(0, len(str))]; [str[i]] raises when [i] is
    not a position of [str]. *)
Definition capitalise_step (s : string) (a : list Z) (i : nat)
    (newstr : string) : option string :=
  c ← String.get i s;
  if bool_decide (Z.of_nat i - 1 ∈ a) || (i =? 0)%nat
  then Some (newstr +:+ String (capitalize_char c) "")
  else Some (newstr +:+ String c "").

Definition capitalise_each_word (s : string) : option string :=
  let a := space_indexes s in
  for_each (capitalise_step s a) (seq 0 (String.length s)) "".

(** What the loop computes, read from left to right: [fresh] tells whether
    the next character starts the string or follows a space. *)
Fixpoint capitalised (fresh : bool) (s : string) : string :=
  match s with
  | EmptyString => EmptyString
  | String c s' =>
      String (if fresh then capitalize_char c else c)
             (capitalised (Ascii.eqb c " "%char) s')
  end.

(** ** More Python string primitives *)

(** The double quote and the line feed, as one-character strings. *)
Definition dquote : string := String "034"%char "".
Definition newline : string := String "010"%char "".

(** The least position at or after [pos], the position of the head of [s],
    where [sub] matches; [-1] when there is none. *)
Fixpoint find_sub_from (sub : string) (pos : Z) (s : string) : Z :=
  if String.prefix sub s then pos
  else match s with
       | EmptyString => -1
       | String _ s' => find_sub_from sub (pos + 1) s'
       end.

(** [s.find(sub, start)]: a negative [start] counts from the end and is
    clipped at 0; a [start] beyond the end finds nothing. *)
Definition find_sub (s sub : string) (start : Z) : Z :=
  let len := Z.of_nat (String.length s) in
  let start' := if start <? 0 then Z.max 0 (start + len) else start in
  if len <? start' then -1
  else find_sub_from sub start' (PyStr.drop (Z.to_nat start') s).

(** [s[start:stop]] *)
Definition str_slice (s : string) (start stop : Z) : string :=
  string_of_list_ascii (py_slice (list_ascii_of_string s) start stop).

(** [s.split(sep)] for a non-empty [sep]: [cur] is the piece being read and
    [skip] counts the characters of a separator still to be dropped. *)
Fixpoint split_from (sep : string) (skip : nat) (cur : string) (s : string)
    : list string :=
  match s with
  | EmptyString => [cur]
  | String c s' =>
      match skip with
      | S k => split_from sep k cur s'
      | O =>
          if String.prefix sep s
          then cur :: split_from sep (String.length sep - 1) "" s'
          else split_from sep 0 (cur +:+ String c "") s'
      end
  end.

Definition str_split (s sep : string) : list string := split_from sep 0 "" s.

(** Whether [old] matches at a position inside [a] when [a] is followed by
    [b]. *)
Fixpoint starts_within (old a b : string) : bool :=
  match a with
  | EmptyString => false
  | String _ a' => String.prefix old (a +:+ b) || starts_within old a' b
  end.

(** Whether the character [c] occurs in [s]. *)
Fixpoint has_char (c : ascii) (s : string) : bool :=
  match s with
  | EmptyString => false
  | String a s' => Ascii.eqb a c || has_char c s'
  end.

(** ** find_role_name.py *)

(** Lines 90-107: the name of the role read from the ontology page, which is
    the [str] of the parsed response. *)
Definition role_name_of_page (page role_number : string) (plural : bool)
    : option string :=
  let a :=
    find_sub page
      ("<class rdf:about=" +:+ dquote
       +:+ "http://purl.obolibrary.org/obo/SO_" +:+ role_number
       +:+ dquote +:+ ">" +:+ newline +:+ "<rdfs:label") 0 in
  let b := find_sub page "</rdfs:label" a in
  let role_name := str_slice page (a + 129) b in
  let role_name := PyStr.replace role_name "_" " " in
  role_name ← capitalise_each_word role_name;
  Some (if plural then role_name +:+ "s" else role_name).

(** Lines 110-114: the link built around a role name. *)
Definition role_link_of (role_number role_name : string) : string :=
  let role_link :=
    "<a href='https://www.ebi.ac.uk/ols/ontologies/so/terms?obo_id=SO:0000167'>Role</a>" in
  let role_link := PyStr.replace role_link "0000167" role_number in
  PyStr.replace role_link "Role" role_name.

Definition find_role_name (page role_number : string) (plural : bool)
    : option string :=
  role_name ← role_name_of_page page role_number plural;
  Some (role_link_of role_number role_name).

(** A page cut down to the entry [find_role_name] reads. *)
Definition cds_page : string :=
  "<class rdf:about=" +:+ dquote
  +:+ "http://purl.obolibrary.org/obo/SO_0000316" +:+ dquote +:+ ">"
  +:+ newline +:+ "<rdfs:label rdf:datatype=" +:+ dquote
  +:+ "http://www.w3.org/2001/XMLSchema#string" +:+ dquote +:+ ">"
  +:+ "coding_sequence</rdfs:label>".

(** ** input_data.py *)

(** The exceptions the modelled lines raise. *)
Inductive exn :=
| AttributeError
| KeyError
| ValueError
| TypeError
| IndexError.

Inductive result (A : Type) :=
| Ok (a : A)
| Raise (e : exn).
Arguments Ok {A} a.
Arguments Raise {A} e.

(** A row of [self_df]: the columns [count], [deff], [displayId], [title]
    and [role] that are left after the drop. *)
Record self_row := {
  s_count : count_cell;
  s_deff : string;
  s_displayId : string;
  s_title : option string;
  s_role : option string
}.

(** What [input_data] returns; [self_df] keeps the index labels of the
    query result. *)
Record input_result := {
  i_self_df : list (nat * self_row);
  i_display_id : string;
  i_title : string;
  i_role : option string;
  i_count : count_cell
}.

(** [series[0]] on a column of [self_df]: the row labelled 0, not the
    first row. *)
Definition label_0 (self_df : list (nat * self_row)) : option self_row :=
  (fun q : nat * (nat * self_row) => q.2.2)
    <$> list_find (fun p : nat * self_row => p.1 = 0%nat) self_df.

(** [input_data] from the two responses: the status of the [get] and the
    bindings of the query, renamed (a frame without rows has no columns, and
    the columns of [title] exist when some row has a title). *)
Definition input_data (status_code : Z) (a : list bar_row) (uri : string)
    : result input_result :=
  if negb (status_code =? 200) then Raise AttributeError
  else
    match a with
    | [] => Raise AttributeError   (* a.roletog *)
    | _ :: _ =>
        (* a[['http', 'role']] = a.roletog.str.split("SO:", expand=True) *)
        let parts := (fun r => str_split (b_roletog r) "SO:") <$> a in
        if negb (max_list (length <$> parts) =? 2)%nat then Raise ValueError
        else if forallb (fun r => negb (bool_decide (is_Some (b_title r)))) a
        then Raise KeyError   (* a.drop([..., 'tt', ...]) *)
        else
          let a' :=
            zip_with (fun r p =>
              {| s_count := b_count r; s_deff := b_deff r;
                 s_displayId := b_displayId r; s_title := b_title r;
                 s_role := p !! 1%nat |}) a parts in
          (* self_df = a[a.deff == uri] *)
          let self_df :=
            filter (fun p : nat * self_row => s_deff p.2 = uri)
                   (imap pair a') in
          match label_0 self_df with
          | None => Raise KeyError   (* self_df['displayId'][0] *)
          | Some r0 =>
              let display_id := s_displayId r0 in
              let title := s_title r0 in
              (* str(title) == "nan" *)
              let title :=
                match title with
                | None => display_id
                | Some t => if String.eqb t "nan" then display_id else t
                end in
              Ok {| i_self_df := self_df; i_display_id := display_id;
                    i_title := title; i_role := s_role r0;
                    i_count := s_count r0 |}
          end
    end.

(** A query result whose first row is another part. *)
Definition poi_second : list bar_row :=
  [ mk_bar "12824" "https://synbiohub.org/public/igem/BBa_B0034/1"
      "BBa_B0034" "http://identifiers.org/so/SO:0000139" None;
    mk_bar "2348" "https://synbiohub.org/public/igem/BBa_E0040/1"
      "BBa_E0040" "http://identifiers.org/so/SO:0000316" (Some "GFP") ].

(** ** The buckets of the flow graph, read from the query result *)

(** The position in [part_array] of the frame a role goes to. *)
Definition bucket_of_role (role : string) : nat :=
  if String.eqb role role_prom then 0
  else if String.eqb role role_rbs then 1
  else if String.eqb role role_cds then 2
  else if String.eqb role role_term then 3
  else 4.

Section first_ten.
Context {num : Type} `{PyNum num}.

(** Bucket by bucket, the first ten rows of the query result with a role of
    that bucket, in the order of the result. *)
Definition first_ten_by_role (order_df : list (@order_row num))
    : list (nat * @order_row num) :=
  mjoin ((fun b =>
            (fun raw => (b, raw))
              <$> take 10 (filter (fun raw => bucket_of_role (o_roletog raw) = b)
                             order_df))
           <$> [0; 1; 2; 3; 4]%nat).

End first_ten.

(** ** bar_plot.py and sankey_graph.py: what is handed to plotly *)

(** [df[col].dropna(axis=0, how='any')]: the non-null cells of a column,
    each under the label of its row (its position, the frames being
    under the default index).  A column is given by its selector. *)
Definition dropna {A B} (col : A -> option B) (df : list A) : list (nat * B) :=
  omap (fun p : nat * A => (fun v => (p.1, v)) <$> col p.2) (imap pair df).

(** [xs + ys] for two Series of strings with increasing labels: the result
    is indexed by the union of the labels, and is null where one side has no
    entry or a null one. *)
Fixpoint series_add (xs : list (nat * option string))
    (ys : list (nat * option string)) : list (nat * option string) :=
  match xs with
  | [] => (fun q : nat * option string => (q.1, None)) <$> ys
  | (i, x) :: xs' =>
      (fix add_ys (ys : list (nat * option string)) :=
         match ys with
         | [] => (i, None) :: ((fun q : nat * option string => (q.1, None)) <$> xs')
         | (j, y) :: ys' =>
             if (i <? j)%nat then (i, None) :: series_add xs' ys
             else if (j <? i)%nat then (j, None) :: add_ys ys'
             else (i, match x, y with
                      | Some a, Some b => Some (a +:+ b)
                      | _, _ => None
                      end) :: series_add xs' ys'
         end) ys
  end.

(** [s + xs] and [xs + s] for a string [s]. *)
Definition str_add_series (s : string) (xs : list (nat * option string))
    : list (nat * option string) :=
  (fun q : nat * option string => (q.1, (fun v => s +:+ v) <$> q.2)) <$> xs.

Definition series_add_str (xs : list (nat * option string)) (s : string)
    : list (nat * option string) :=
  (fun q : nat * option string => (q.1, (fun v => v +:+ s) <$> q.2)) <$> xs.

(** A Series without null entries, seen as one that may have some. *)
Definition some_values (xs : list (nat * string)) : list (nat * option string) :=
  (fun q : nat * string => (q.1, Some q.2)) <$> xs.

(** The figure [bar_plot] passes to [plotly.offline.plot], with the file
    name it passes along. *)
Record bar_fig (num : Type) := {
  bf_x : list (nat * option string);
  bf_y : list (nat * num);
  bf_hoverinfo : string;
  bf_marker_color : list (nat * string);
  bf_title : string;
  bf_filename : string
}.
Arguments bf_x {num} _.
Arguments bf_y {num} _.
Arguments bf_hoverinfo {num} _.
Arguments bf_marker_color {num} _.
Arguments bf_title {num} _.
Arguments bf_filename {num} _.

Definition bar_plot {A num} (names : A -> option string)
    (freq : A -> option num) (colour : A -> option string) (bar_df : list A)
    (graph_title filename : string) (url_link : A -> option string)
    : bar_fig num :=
  let xnames := dropna names bar_df in
  let xlinks := dropna url_link bar_df in
  let sourcethings :=
    series_add_str
      (series_add
         (series_add_str
            (str_add_series ("<a href=" +:+ dquote) (some_values xlinks))
            (dquote +:+ " target=" +:+ dquote +:+ "_blank" +:+ dquote +:+ ">"))
         (some_values xnames))
      "</a>" in
  {| bf_x := sourcethings;
     bf_y := dropna freq bar_df;
     bf_hoverinfo := "y";
     bf_marker_color := dropna colour bar_df;
     bf_title := graph_title;
     bf_filename := filename |}.

(** The figure [sankey_graph] passes to [plotly.offline.plot]. *)
Record sankey_fig (num : Type) := {
  sf_orientation : string;
  sf_valueformat : string;
  sf_arrangement : string;
  sf_pad : Z;
  sf_thickness : Z;
  sf_line_color : string;
  sf_line_width : Q;
  sf_label : list (nat * option string);
  sf_node_color : list (nat * string);
  sf_source : list (nat * Z);
  sf_target : list (nat * Z);
  sf_value : list (nat * num);
  sf_link_color : list (nat * string);
  sf_title : string;
  sf_height : Z;
  sf_width : Z;
  sf_font_size : Z;
  sf_filename : string
}.
Arguments sf_label {num} _.
Arguments sf_node_color {num} _.
Arguments sf_source {num} _.
Arguments sf_target {num} _.
Arguments sf_value {num} _.
Arguments sf_link_color {num} _.

Definition sankey_graph {A num} (filename : string) (component_df : list A)
    (node_label_col url_col node_colour_col : A -> option string)
    (source_col target_col : A -> option Z) (value_col : A -> option num)
    (link_colour_col : A -> option string) (graph_title : string)
    (url_not_name : bool) : sankey_fig num :=
  let xnames := dropna node_label_col component_df in
  let xlinks := dropna url_col component_df in
  let sourcethings :=
    if url_not_name
    then series_add_str
           (series_add
              (series_add_str
                 (str_add_series ("<a xlink:href=" +:+ dquote)
                    (some_values xlinks))
                 (dquote +:+ ">"))
              (some_values xnames))
           "</a>"
    else some_values xnames in
  {| sf_orientation := "h";
     sf_valueformat := ".0f";
     sf_arrangement := "perpendicular";
     sf_pad := 10;
     sf_thickness := 30;
     sf_line_color := "black";
     sf_line_width := 0.5%Q;
     sf_label := sourcethings;
     sf_node_color := dropna node_colour_col component_df;
     sf_source := dropna source_col component_df;
     sf_target := dropna target_col component_df;
     sf_value := dropna value_col component_df;
     sf_link_color := dropna link_colour_col component_df;
     sf_title := graph_title;
     sf_height := 772;
     sf_width := 950;
     sf_font_size := 10;
     sf_filename := filename |}.

(** The anchors the two functions write. *)
Definition bar_anchor (link name : string) : string :=
  "<a href=" +:+ dquote +:+ link +:+ dquote +:+ " target=" +:+ dquote
  +:+ "_blank" +:+ dquote +:+ ">" +:+ name +:+ "</a>".

Definition node_anchor (link name : string) : string :=
  "<a xlink:href=" +:+ dquote +:+ link +:+ dquote +:+ ">" +:+ name +:+ "</a>".

(** ** toggle_bars.py *)

(** The wrapper plotly writes around a figure. *)
Definition html_footer : string :=
  "</div>" +:+ newline +:+ "</body>" +:+ newline +:+ "</html>".

Definition html_header : string :=
  "<html>" +:+ newline +:+ "<head><meta charset=" +:+ dquote +:+ "utf-8"
  +:+ dquote +:+ " /></head>" +:+ newline +:+ "<body>" +:+ newline
  +:+ "    <div>" +:+ newline +:+ "       ".

(** The two replacements of the loop body. *)
Definition strip_wrapper (bar_html : string) : string :=
  let bar_html := PyStr.replace bar_html html_footer "" in
  PyStr.replace bar_html html_header "".

(** [toggle_bars(bar1, bar2, save_html, filename)], with the text of
    [Toggle_Switch_html.txt] as [template]: the string returned and the files
    written, as (name, content) pairs. *)
Definition toggle_bars (bar1 bar2 : string) (save_html : bool)
    (filename : option string) (template : string)
    : result (string * list (string * string)) :=
  let htmls := [bar1; bar2] in
  let htmls :=
    foldl (fun (htmls : list string) (p : nat * string) =>
             <[p.1 := strip_wrapper p.2]> htmls)
          htmls (imap pair htmls) in
  let display := template in
  match htmls !! 0%nat, htmls !! 1%nat with
  | Some html0, Some html1 =>
      let display := PyStr.replace display "<h2>Frequency</h2>" html0 in
      let display := PyStr.replace display "<h2>By type</h2>" html1 in
      if save_html then
        match filename with
        | Some name => Ok (display, [(name, display)])
        | None => Raise TypeError   (* open(None, "w") *)
        end
      else Ok (display, [])
  | _, _ => Raise IndexError
  end.

(** * Properties *)

(** ** The examples of the docstrings *)

Example uri_to_url_doc :
  uri_to_url_str "https://synbiohub.org/public/igem/BBa_C0051/1"
    "https://dev.synbiohub.org/" "https://synbiohub.org/"
  = "https://dev.synbiohub.org/public/igem/BBa_C0051/1".
Proof. reflexivity. Qed.

Example column_uri_to_url_doc :
  column_uri_to_url
    [ "https://shouldnt_change.org/public/igem/BBa_E1010/1";
      "https://synbiohub.org/public/igem/BBa_C0051/1";
      "https://synbiohub.org/public/igem/BBa_C0040/1" ]
    "https://dev.synbiohub.org/" "https://synbiohub.org/"
  = [ "https://shouldnt_change.org/public/igem/BBa_E1010/1";
      "https://dev.synbiohub.org/public/igem/BBa_C0051/1";
      "https://dev.synbiohub.org/public/igem/BBa_C0040/1" ].
Proof. vm_compute. reflexivity. Qed.

(** ** Strings *)

#[local] Arguments String.append !_ _ / : simpl nomatch.

Lemma append_nil_r (s : string) : s +:+ "" = s.
Proof. induction s as [|a s IH]; simpl; [done|by rewrite IH]. Qed.

Lemma append_assoc (s t u : string) : (s +:+ t) +:+ u = s +:+ (t +:+ u).
Proof. induction s as [|a s IH]; simpl; [done|by rewrite IH]. Qed.

Lemma length_append (s t : string) :
  String.length (s +:+ t) = (String.length s + String.length t)%nat.
Proof. induction s as [|a s IH]; simpl; [done|by rewrite IH]. Qed.

Lemma prefix_append (s t : string) : String.prefix s (s +:+ t) = true.
Proof.
  induction s as [|a s IH]; simpl; [by destruct t|].
  destruct (ascii_dec a a); [done|congruence].
Qed.

Lemma prefix_split (s t : string) :
  String.prefix s t = true -> t = s +:+ PyStr.drop (String.length s) t.
Proof.
  revert t. induction s as [|a s IH]; intros [|b t]; simpl; try done.
  destruct (ascii_dec a b) as [->|]; [|done].
  intros Hp. by rewrite <- (IH _ Hp).
Qed.

Lemma take_drop_string (n : nat) (s : string) :
  PyStr.take n s +:+ PyStr.drop n s = s.
Proof.
  revert s. induction n as [|n IH]; intros [|a s]; simpl; try done.
  by rewrite IH.
Qed.

Lemma take_append_length (s t : string) :
  PyStr.take (String.length s) (s +:+ t) = s.
Proof. induction s as [|a s IH]; simpl; [by destruct t|by rewrite IH]. Qed.

Lemma drop_append_length (s t : string) :
  PyStr.drop (String.length s) (s +:+ t) = t.
Proof. induction s as [|a s IH]; simpl; [by destruct t|done]. Qed.

Lemma str_take_all (n : nat) (s : string) :
  (String.length s <= n)%nat -> PyStr.take n s = s.
Proof.
  revert s. induction n as [|n IH]; intros [|a s]; simpl; try done; [lia|].
  intros Hn. rewrite IH; [done|lia].
Qed.

Lemma str_drop_all (n : nat) (s : string) :
  (String.length s <= n)%nat -> PyStr.drop n s = "".
Proof.
  revert s. induction n as [|n IH]; intros [|a s]; simpl; try done; [lia|].
  intros Hn. apply IH. lia.
Qed.

Lemma str_length_take (n : nat) (s : string) :
  String.length (PyStr.take n s) = (n `min` String.length s)%nat.
Proof.
  revert s. induction n as [|n IH]; intros [|a s]; simpl; try done.
  by rewrite IH.
Qed.

(** *** [find] *)

Lemma find_from_range (c : ascii) (start : nat) (pos : Z) (s : string) :
  PyStr.find_from c start pos s = -1
  ∨ pos + Z.of_nat start <= PyStr.find_from c start pos s
      < pos + Z.of_nat (String.length s).
Proof.
  revert start pos. induction s as [|a s IH]; intros start pos; simpl.
  - by left.
  - destruct start as [|k].
    + destruct (Ascii.eqb a c); [right; lia|].
      destruct (IH 0%nat (pos + 1)) as [->|Hr]; [by left|right; lia].
    + destruct (IH k (pos + 1)) as [->|Hr]; [by left|right; lia].
Qed.

Lemma find_range (s : string) (c : ascii) (start : nat) :
  PyStr.find s c start = -1
  ∨ Z.of_nat start <= PyStr.find s c start < Z.of_nat (String.length s).
Proof.
  unfold PyStr.find.
  destruct (find_from_range c start 0 s) as [?|?]; [by left|right; lia].
Qed.

(** What [find] returns is the least position from [start] on that holds
    the character, and [-1] exactly when there is none. *)
Lemma find_from_spec (c : ascii) (start : nat) (pos : Z) (s : string) :
  0 <= pos ->
  let i := PyStr.find_from c start pos s in
  (i = -1 -> forall j : nat, (start <= j)%nat -> String.get j s ≠ Some c)
  ∧ (i ≠ -1 ->
       String.get (Z.to_nat (i - pos)) s = Some c
       ∧ forall j : nat, (start <= j)%nat -> Z.of_nat j < i - pos ->
           String.get j s ≠ Some c).
Proof.
  revert start pos. induction s as [|a s IH]; intros start pos Hpos; simpl.
  - split; [by intros _ j _; destruct j|done].
  - destruct start as [|k].
    + destruct (Ascii.eqb_spec a c) as [->|Hne].
      * split; [lia|]. intros _. rewrite Z.sub_diag. simpl.
        split; [done|]. intros j _ Hj. lia.
      * destruct (IH 0%nat (pos + 1)) as [IH1 IH2]; [lia|].
        pose proof (find_from_range c 0 (pos + 1) s) as Hr.
        split.
        -- intros Hi [|j] _; simpl; [congruence|]. apply IH1; [done|lia].
        -- intros Hi. destruct Hr as [?|Hr]; [done|].
           destruct IH2 as [Hget Hmin]; [done|].
           replace (Z.to_nat (PyStr.find_from c 0 (pos + 1) s - pos))
             with (S (Z.to_nat (PyStr.find_from c 0 (pos + 1) s - (pos + 1))))
             by lia.
           split; [done|]. intros [|j] _ Hj; simpl; [congruence|].
           apply Hmin; lia.
    + destruct (IH k (pos + 1)) as [IH1 IH2]; [lia|].
      pose proof (find_from_range c k (pos + 1) s) as Hr.
      split.
      * intros Hi [|j] Hj; simpl; [lia|]. apply IH1; [done|lia].
      * intros Hi. destruct Hr as [?|Hr]; [done|].
        destruct IH2 as [Hget Hmin]; [done|].
        replace (Z.to_nat (PyStr.find_from c k (pos + 1) s - pos))
          with (S (Z.to_nat (PyStr.find_from c k (pos + 1) s - (pos + 1))))
          by lia.
        split; [done|]. intros [|j] Hj1 Hj; simpl; [lia|].
        apply Hmin; lia.
Qed.

Lemma find_spec (s : string) (c : ascii) (start : nat) :
  (PyStr.find s c start = -1 ->
     forall j : nat, (start <= j)%nat -> String.get j s ≠ Some c)
  ∧ (PyStr.find s c start ≠ -1 ->
       String.get (Z.to_nat (PyStr.find s c start)) s = Some c
       ∧ forall j : nat, (start <= j)%nat -> Z.of_nat j < PyStr.find s c start ->
           String.get j s ≠ Some c).
Proof.
  unfold PyStr.find.
  destruct (find_from_spec c start 0 s) as [H1 H2]; [lia|]. split; [done|].
  intros Hi. destruct H2 as [Hg Hm]; [done|].
  rewrite Z.sub_0_r in Hg. split; [done|].
  intros j Hj Hlt. apply Hm; [done|lia].
Qed.

(** A hit inside [s] is still the hit when [s] is extended. *)
Lemma find_from_append (c : ascii) (start : nat) (pos : Z) (s t : string) :
  PyStr.find_from c start pos s ≠ -1 ->
  PyStr.find_from c start pos (s +:+ t) = PyStr.find_from c start pos s.
Proof.
  revert start pos. induction s as [|a s IH]; intros start pos; simpl.
  - done.
  - destruct start as [|k].
    + destruct (Ascii.eqb a c); [done|]. apply IH.
    + apply IH.
Qed.

Lemma slice_to_nonneg (s : string) (stop : Z) :
  0 <= stop -> PyStr.slice_to s stop = PyStr.take (Z.to_nat stop) s.
Proof.
  intros Hs. unfold PyStr.slice_to.
  destruct (Z.ltb_spec stop 0); [lia|done].
Qed.

Lemma uri_instance_take (deff : string) :
  uri_instance deff
  = PyStr.take (Z.to_nat (PyStr.find deff "/"%char 8 + 1)) deff.
Proof.
  unfold uri_instance. apply slice_to_nonneg.
  destruct (find_range deff "/"%char 8) as [->|?]; lia.
Qed.

Lemma uri_instance_split (deff : string) :
  deff = uri_instance deff
         +:+ PyStr.drop (String.length (uri_instance deff)) deff.
Proof.
  rewrite uri_instance_take.
  set (n := Z.to_nat _).
  rewrite <- (take_drop_string n deff) at 1.
  f_equal. rewrite str_length_take.
  destruct (Nat.le_ge_cases n (String.length deff)) as [Hle|Hge].
  - by rewrite Nat.min_l.
  - rewrite Nat.min_r by done. by rewrite !str_drop_all.
Qed.

(** An instance of the documented shape, [https://host/]: its only ['/']
    from index 8 on is its last character. *)
Lemma uri_instance_append (instance t : string) :
  instance ≠ "" -> uri_instance instance = instance ->
  uri_instance (instance +:+ t) = instance.
Proof.
  intros Hne Hwf. rewrite uri_instance_take in *.
  unfold PyStr.find in *.
  destruct (find_from_range "/"%char 8 0 instance) as [Hm|Hr].
  - rewrite Hm in Hwf. simpl in Hwf. destruct instance; done.
  - rewrite find_from_append by lia.
    set (i := PyStr.find_from _ _ _ _) in *.
    assert (Z.to_nat (i + 1) = String.length instance) as ->.
    { apply (f_equal String.length) in Hwf. rewrite str_length_take in Hwf. lia. }
    apply take_append_length.
Qed.

(** *** [replace] *)

Lemma replace_from_skip (old new x rest : string) :
  PyStr.replace_from old new (String.length x) (x +:+ rest)
  = PyStr.replace_from old new 0 rest.
Proof.
  induction x as [|a x IH]; simpl; [|done].
  destruct rest; done.
Qed.

Lemma replace_from_prefix (old new rest : string) :
  old ≠ "" ->
  PyStr.replace_from old new 0 (old +:+ rest)
  = new +:+ PyStr.replace_from old new 0 rest.
Proof.
  destruct old as [|a old]; [done|]. intros _.
  change (String a old +:+ rest) with (String a (old +:+ rest)).
  cbn [PyStr.replace_from].
  change (String a (old +:+ rest)) with (String a old +:+ rest).
  rewrite prefix_append. f_equal.
  cbn [String.length]. rewrite Nat.sub_1_r. cbn [Nat.pred].
  apply replace_from_skip.
Qed.

Lemma replace_from_absent (old new s : string) :
  PyStr.occurs old s = false -> PyStr.replace_from old new 0 s = s.
Proof.
  induction s as [|a s IH]; [done|].
  cbn [PyStr.occurs PyStr.replace_from].
  intros [Hp Ho]%orb_false_elim. rewrite Hp. by rewrite IH.
Qed.

Lemma interleave_begins (new s : string) :
  String.prefix new (PyStr.interleave new s) = true.
Proof.
  destruct s as [|a s]; simpl.
  - pose proof (prefix_append new "") as Hp. by rewrite append_nil_r in Hp.
  - apply prefix_append.
Qed.

(** Replacing a leading match puts [new] in front. *)
Lemma replace_begins (s old new : string) :
  String.prefix old s = true ->
  String.prefix new (PyStr.replace s old new) = true.
Proof.
  intros Hp. unfold PyStr.replace. destruct old as [|a old].
  - apply interleave_begins.
  - rewrite (prefix_split _ _ Hp). rewrite replace_from_prefix by done.
    apply prefix_append.
Qed.

Lemma replace_prefix_once (s old new : string) :
  old ≠ "" -> String.prefix old s = true ->
  PyStr.occurs old (PyStr.drop (String.length old) s) = false ->
  PyStr.replace s old new = new +:+ PyStr.drop (String.length old) s.
Proof.
  intros Hne Hp Ho. unfold PyStr.replace.
  destruct old as [|a old]; [done|].
  rewrite (prefix_split _ _ Hp) at 1. rewrite replace_from_prefix by done.
  by rewrite replace_from_absent.
Qed.

Lemma uri_instance_prefix (deff : string) :
  String.prefix (uri_instance deff) deff = true.
Proof. rewrite (uri_instance_split deff) at 2. apply prefix_append. Qed.

(** ** uri_to_url *)

Lemma uri_to_url_str_cell (data instance spoofed_instance : string) :
  spoofed_instance ≠ instance ->
  uri_to_url_str data instance spoofed_instance
  = rewrite_cell instance spoofed_instance data.
Proof.
  intros Hne. unfold uri_to_url_str, rewrite_cell.
  by apply String.eqb_neq in Hne as ->.
Qed.

Lemma uri_to_url_str_same (data instance : string) :
  uri_to_url_str data instance instance = data.
Proof. unfold uri_to_url_str. by rewrite String.eqb_refl. Qed.

(** The loop leaves the Series at [l] with every visited entry rewritten;
    [done] are the entries already visited. *)
Lemma series_loop_spec (l : loc) (instance spoofed_instance : string)
    (rest done : series) (h : heap) :
  h !! l = Some (done ++ rest) ->
  series_loop l instance spoofed_instance
    (imap (fun i x => (length done + i, x)%nat) rest) h
  = <[l := done ++ (rewrite_cell instance spoofed_instance <$> rest)]> h.
Proof.
  revert done h. induction rest as [|y rest IH]; intros done h Hl.
  - simpl. rewrite insert_id; [done|]. by rewrite app_nil_r in *.
  - rewrite imap_cons. cbn [series_loop].
    set (h' := if String.eqb (uri_instance y) spoofed_instance then _ else h).
    assert (h' = <[l := (done ++ [rewrite_cell instance spoofed_instance y])
                        ++ rest]> h) as Hh'.
    { subst h'. unfold rewrite_cell.
      destruct (String.eqb (uri_instance y) spoofed_instance).
      - unfold series_setitem. rewrite (alter_alt_Some _ _ _ _ Hl).
        rewrite insert_app_r. simpl. by rewrite <- app_assoc.
      - rewrite <- app_assoc. simpl. by rewrite insert_id. }
    rewrite (imap_ext _ (fun i x =>
      (length (done ++ [rewrite_cell instance spoofed_instance y]) + i, x)%nat)).
    2:{ intros i x _. simpl. rewrite length_app. simpl. f_equal. lia. }
    rewrite IH.
    + rewrite Hh', insert_insert_eq. rewrite <- app_assoc. done.
    + rewrite Hh'. by rewrite lookup_insert_eq.
Qed.

(** What a call on a Series leaves in the store. *)
Lemma uri_to_url_series (h : heap) (l : loc) (xs : series)
    (instance spoofed_instance : string) :
  h !! l = Some xs ->
  uri_to_url (PSeries l) instance spoofed_instance h
  = (PSeries l,
     <[l := (fun d => uri_to_url_str d instance spoofed_instance) <$> xs]> h).
Proof.
  intros Hl. unfold uri_to_url.
  destruct (String.eqb_spec spoofed_instance instance) as [->|Hne]; simpl.
  - f_equal. rewrite insert_id; [done|]. rewrite Hl. f_equal.
    rewrite <- (list_fmap_id xs) at 1. apply list_fmap_ext.
    intros i x _. by rewrite uri_to_url_str_same.
  - rewrite Hl. f_equal.
    etrans; [exact (series_loop_spec l instance spoofed_instance xs [] h Hl)|].
    simpl. f_equal. apply list_fmap_ext.
    intros i x _. by rewrite uri_to_url_str_cell.
Qed.

Lemma uri_to_url_string (h : heap) (s instance spoofed_instance : string) :
  uri_to_url (PStr s) instance spoofed_instance h
  = (PStr (uri_to_url_str s instance spoofed_instance), h).
Proof.
  unfold uri_to_url, uri_to_url_str.
  by destruct (negb (String.eqb spoofed_instance instance)).
Qed.

Lemma column_uri_to_url_fmap (col : series) (instance spoofed_instance : string) :
  column_uri_to_url col instance spoofed_instance
  = (fun d => uri_to_url_str d instance spoofed_instance) <$> col.
Proof.
  unfold column_uri_to_url.
  rewrite (uri_to_url_series _ _ col) by apply lookup_singleton_eq.
  by rewrite lookup_insert_eq.
Qed.

Lemma uri_to_url_str_other (data instance spoofed_instance : string) :
  uri_instance data ≠ spoofed_instance ->
  uri_to_url_str data instance spoofed_instance = data.
Proof.
  intros Hne. unfold uri_to_url_str.
  apply String.eqb_neq in Hne as ->. by destruct (negb _).
Qed.

Lemma uri_to_url_str_match (data instance spoofed_instance : string) :
  spoofed_instance ≠ instance -> uri_instance data = spoofed_instance ->
  uri_to_url_str data instance spoofed_instance
  = PyStr.replace data spoofed_instance instance.
Proof.
  intros Hne He. rewrite uri_to_url_str_cell by done. unfold rewrite_cell.
  rewrite He. by rewrite String.eqb_refl.
Qed.

(** With a canonical instance of the documented shape, a rewritten string
    is not rewritten again. *)
Lemma uri_to_url_str_twice (data instance spoofed_instance : string) :
  instance ≠ "" -> uri_instance instance = instance ->
  uri_to_url_str (uri_to_url_str data instance spoofed_instance)
    instance spoofed_instance
  = uri_to_url_str data instance spoofed_instance.
Proof.
  intros Hne Hwf.
  destruct (decide (spoofed_instance = instance)) as [->|Hd].
  { by rewrite !uri_to_url_str_same. }
  destruct (decide (uri_instance data = spoofed_instance)) as [He|Hn].
  2:{ by rewrite !(uri_to_url_str_other data). }
  rewrite (uri_to_url_str_match data) by done.
  apply uri_to_url_str_other.
  pose proof (uri_instance_prefix data) as Hp. rewrite He in Hp.
  pose proof (replace_begins data spoofed_instance instance Hp) as Hb.
  rewrite (prefix_split _ _ Hb).
  rewrite uri_instance_append by done. congruence.
Qed.

(** C6 (as stated, refuted).  The prefix the code compares with the spoofed
    instance ends at the first ['/'] found from index 8 on, not at the second
    one: the documented example is rewritten by the code, and left alone by
    the resolver of section 4.1, whose prefix [https://synbiohub.org/public/]
    is not the spoofed instance. *)
Lemma uri_to_url_differs_from_spec_resolve :
  uri_to_url_str "https://synbiohub.org/public/igem/BBa_C0051/1"
      "https://dev.synbiohub.org/" "https://synbiohub.org/"
  = "https://dev.synbiohub.org/public/igem/BBa_C0051/1"
  ∧ spec_instance_prefix "https://synbiohub.org/public/igem/BBa_C0051/1"
    = "https://synbiohub.org/public/"
  ∧ spec_resolve "https://synbiohub.org/public/igem/BBa_C0051/1"
      "https://dev.synbiohub.org/" "https://synbiohub.org/"
    = "https://synbiohub.org/public/igem/BBa_C0051/1"
  ∧ uri_to_url_str "https://synbiohub.org/public/igem/BBa_C0051/1"
      "https://dev.synbiohub.org/" "https://synbiohub.org/"
    ≠ spec_resolve "https://synbiohub.org/public/igem/BBa_C0051/1"
        "https://dev.synbiohub.org/" "https://synbiohub.org/".
Proof. vm_compute. repeat split; discriminate. Qed.

(** C6 (amended).  [uri_to_url] takes as instance prefix the characters up
    to and including the first ['/'] at index 8 or later (the empty string
    when there is none).  When the spoofed and the canonical instance differ
    and the prefix equals the spoofed instance, the result begins with the
    canonical instance; and for a value that holds the (non-empty) spoofed
    instance at its start only, the result is the canonical instance followed
    by the characters after the prefix, unchanged.  Every other value (prefix
    not the spoofed instance, or equal instances) is returned unchanged.  A
    Series is rewritten entry by entry in the same way. *)
Theorem uri_to_url_rewrites_first_slash_prefix
    (data instance spoofed_instance : string) :
  let i := PyStr.find data "/"%char 8 in
  uri_instance data = PyStr.take (Z.to_nat (i + 1)) data
  ∧ (i = -1 ->
       uri_instance data = ""
       ∧ forall j : nat, (8 <= j)%nat -> String.get j data ≠ Some "/"%char)
  ∧ (i ≠ -1 ->
       8 <= i
       ∧ String.get (Z.to_nat i) data = Some "/"%char
       ∧ forall j : nat, (8 <= j)%nat -> Z.of_nat j < i ->
           String.get j data ≠ Some "/"%char)
  ∧ (spoofed_instance ≠ instance -> uri_instance data = spoofed_instance ->
       String.prefix instance
         (uri_to_url_str data instance spoofed_instance) = true
       ∧ (spoofed_instance ≠ "" ->
          PyStr.occurs spoofed_instance
            (PyStr.drop (String.length spoofed_instance) data) = false ->
          uri_to_url_str data instance spoofed_instance
          = instance +:+ PyStr.drop (String.length spoofed_instance) data))
  ∧ (spoofed_instance = instance ∨ uri_instance data ≠ spoofed_instance ->
       uri_to_url_str data instance spoofed_instance = data)
  ∧ (forall h : heap,
       uri_to_url (PStr data) instance spoofed_instance h
       = (PStr (uri_to_url_str data instance spoofed_instance), h))
  ∧ (forall (h : heap) (l : loc) (xs : series), h !! l = Some xs ->
       uri_to_url (PSeries l) instance spoofed_instance h
       = (PSeries l,
          <[l := (fun d => uri_to_url_str d instance spoofed_instance) <$> xs]>
            h)).
Proof.
  intros i. subst i.
  destruct (find_spec data "/"%char 8) as [Hnone Hsome].
  pose proof (find_range data "/"%char 8) as Hr.
  split; [apply uri_instance_take|].
  split.
  { intros Hi. split; [|by apply Hnone].
    rewrite uri_instance_take, Hi. by destruct data. }
  split.
  { intros Hi. destruct Hr as [?|Hr]; [done|].
    destruct (Hsome Hi) as [Hg Hm]. split; [lia|done]. }
  split.
  { intros Hne He.
    pose proof (uri_instance_prefix data) as Hp. rewrite He in Hp.
    rewrite (uri_to_url_str_match _ _ _ Hne He).
    split; [by apply replace_begins|].
    intros Hsp Ho. by apply replace_prefix_once. }
  split.
  { intros [->|Hn]; [apply uri_to_url_str_same|by apply uri_to_url_str_other]. }
  split; [intros h; apply uri_to_url_string|].
  intros h l xs Hl. by apply uri_to_url_series.
Qed.

Lemma uri_to_url_rewrites_first_slash_prefix_witness :
  uri_to_url_str "https://synbiohub.org/public/igem/BBa_C0051/1"
    "https://dev.synbiohub.org/" "https://synbiohub.org/"
  = "https://dev.synbiohub.org/public/igem/BBa_C0051/1"
  ∧ uri_to_url_str "https://shouldnt_change.org/public/igem/BBa_E1010/1"
      "https://dev.synbiohub.org/" "https://synbiohub.org/"
    = "https://shouldnt_change.org/public/igem/BBa_E1010/1".
Proof.
  split.
  - destruct (uri_to_url_rewrites_first_slash_prefix
                "https://synbiohub.org/public/igem/BBa_C0051/1"
                "https://dev.synbiohub.org/" "https://synbiohub.org/")
      as (_ & _ & _ & Hrw & _).
    destruct Hrw as (_ & Honce); [discriminate|reflexivity|].
    rewrite Honce; [reflexivity|discriminate|reflexivity].
  - destruct (uri_to_url_rewrites_first_slash_prefix
                "https://shouldnt_change.org/public/igem/BBa_E1010/1"
                "https://dev.synbiohub.org/" "https://synbiohub.org/")
      as (_ & _ & _ & _ & Hsame & _).
    apply Hsame. right. discriminate.
Defined.

(** C8 (as stated, refuted).  Two distinct instances for which a second
    application rewrites again: the canonical instance extends the spoofed
    one, so the rewritten value still has the spoofed prefix. *)
Lemma uri_to_url_twice_differs :
  "https://synbiohub.org/" ≠ "https://synbiohub.org/dev/"
  ∧ uri_to_url_str
      (uri_to_url_str "https://synbiohub.org/public/x"
         "https://synbiohub.org/dev/" "https://synbiohub.org/")
      "https://synbiohub.org/dev/" "https://synbiohub.org/"
    ≠ uri_to_url_str "https://synbiohub.org/public/x"
        "https://synbiohub.org/dev/" "https://synbiohub.org/".
Proof. vm_compute. split; discriminate. Qed.

(** C8 (amended).  When the canonical instance is non-empty and is its own
    instance prefix (the [https://host/] shape the docstring requires),
    applying [uri_to_url] to what a first application returned, in the store
    that application left, changes nothing: for a string, for a Series and
    for any other value. *)
Theorem uri_to_url_idempotent (data : pyval) (instance spoofed_instance : string)
    (h : heap) :
  instance ≠ "" -> uri_instance instance = instance ->
  uri_to_url (uri_to_url data instance spoofed_instance h).1
    instance spoofed_instance
    (uri_to_url data instance spoofed_instance h).2
  = uri_to_url data instance spoofed_instance h.
Proof.
  intros Hne Hwf. destruct data as [s|l|n].
  - rewrite !uri_to_url_string. simpl. rewrite uri_to_url_string.
    by rewrite uri_to_url_str_twice.
  - destruct (h !! l) as [xs|] eqn:Hl.
    + rewrite (uri_to_url_series h l xs) by done. simpl.
      erewrite uri_to_url_series by apply lookup_insert_eq.
      rewrite insert_insert_eq. do 2 f_equal.
      rewrite <- list_fmap_compose. apply list_fmap_ext.
      intros i x _. simpl. by apply uri_to_url_str_twice.
    + assert (forall h', h' !! l = None ->
                uri_to_url (PSeries l) instance spoofed_instance h'
                = (PSeries l, h')) as Hnone.
      { intros h' Hl'. unfold uri_to_url. rewrite Hl'. by destruct (negb _). }
      rewrite !Hnone by done. simpl. by rewrite ?Hnone.
  - assert (forall h', uri_to_url (PInt n) instance spoofed_instance h'
                       = (PInt n, h')) as Hint.
    { intros h'. unfold uri_to_url. by destruct (negb _). }
    rewrite !Hint. simpl. by rewrite ?Hint.
Qed.

Lemma uri_to_url_idempotent_witness :
  uri_to_url
    (uri_to_url (PSeries 1%positive) "https://dev.synbiohub.org/"
       "https://synbiohub.org/"
       {[ 1%positive := [ "https://synbiohub.org/public/igem/BBa_C0051/1" ] ]}).1
    "https://dev.synbiohub.org/" "https://synbiohub.org/"
    (uri_to_url (PSeries 1%positive) "https://dev.synbiohub.org/"
       "https://synbiohub.org/"
       {[ 1%positive := [ "https://synbiohub.org/public/igem/BBa_C0051/1" ] ]}).2
  = uri_to_url (PSeries 1%positive) "https://dev.synbiohub.org/"
      "https://synbiohub.org/"
      {[ 1%positive := [ "https://synbiohub.org/public/igem/BBa_C0051/1" ] ]}.
Proof.
  apply (uri_to_url_idempotent (PSeries 1%positive)
           "https://dev.synbiohub.org/" "https://synbiohub.org/").
  - discriminate.
  - reflexivity.
Defined.

(** C10.  Called on a Series, [uri_to_url] returns the reference it was
    given; the store afterwards holds, at that same location, a Series of the
    same length in which every entry is the rewritten entry, entries whose
    prefix is not the spoofed instance keep their string, and no other object
    of the store is touched. *)
Theorem uri_to_url_mutates_series_in_place (h : heap) (l : loc) (xs : series)
    (instance spoofed_instance : string) :
  h !! l = Some xs ->
  exists (h' : heap) (ys : series),
    uri_to_url (PSeries l) instance spoofed_instance h = (PSeries l, h')
    ∧ h' !! l = Some ys
    ∧ (forall l' : loc, l' ≠ l -> h' !! l' = h !! l')
    ∧ length ys = length xs
    ∧ (forall (i : nat) (x : string), xs !! i = Some x ->
         ys !! i = Some (uri_to_url_str x instance spoofed_instance))
    ∧ (forall (i : nat) (x : string), xs !! i = Some x ->
         uri_instance x ≠ spoofed_instance -> ys !! i = Some x).
Proof.
  intros Hl. eexists _, _. split; [by apply uri_to_url_series|].
  split; [apply lookup_insert_eq|].
  split; [by intros l' Hne; rewrite lookup_insert_ne|].
  split; [apply length_fmap|].
  split.
  - intros i x Hx. by rewrite list_lookup_fmap, Hx.
  - intros i x Hx Hne. rewrite list_lookup_fmap, Hx. simpl.
    by rewrite uri_to_url_str_other.
Qed.

Lemma uri_to_url_mutates_series_in_place_witness :
  exists (h' : heap) (ys : series),
    uri_to_url (PSeries 1%positive) "https://dev.synbiohub.org/"
      "https://synbiohub.org/"
      {[ 1%positive :=
           [ "https://shouldnt_change.org/public/igem/BBa_E1010/1";
             "https://synbiohub.org/public/igem/BBa_C0051/1" ] ]}
    = (PSeries 1%positive, h')
    ∧ h' !! 1%positive = Some ys
    ∧ ys !! 0%nat = Some "https://shouldnt_change.org/public/igem/BBa_E1010/1"
    ∧ ys !! 1%nat = Some "https://dev.synbiohub.org/public/igem/BBa_C0051/1".
Proof.
  destruct (uri_to_url_mutates_series_in_place
              {[ 1%positive :=
                   [ "https://shouldnt_change.org/public/igem/BBa_E1010/1";
                     "https://synbiohub.org/public/igem/BBa_C0051/1" ] ]}
              1%positive
              [ "https://shouldnt_change.org/public/igem/BBa_E1010/1";
                "https://synbiohub.org/public/igem/BBa_C0051/1" ]
              "https://dev.synbiohub.org/" "https://synbiohub.org/")
    as (h' & ys & Hret & Hys & _ & _ & Hall & Hkeep).
  { reflexivity. }
  exists h', ys. split; [exact Hret|]. split; [exact Hys|]. split.
  - apply Hkeep; [reflexivity|discriminate].
  - apply (Hall 1%nat "https://synbiohub.org/public/igem/BBa_C0051/1").
    reflexivity.
Defined.

(** ** Positional indexing *)

Lemma clip_bound_nonneg (len i : Z) :
  0 <= len -> 0 <= i -> clip_bound len i = Z.min len i.
Proof.
  intros Hl Hi. unfold clip_bound, norm_index.
  destruct (Z.ltb_spec i 0); lia.
Qed.

Lemma clip_bound_neg (len i : Z) :
  0 <= len -> i < 0 -> clip_bound len i = Z.max 0 (len + i).
Proof.
  intros Hl Hi. unfold clip_bound, norm_index.
  destruct (Z.ltb_spec i 0); lia.
Qed.

Lemma py_slice_from_0 {A} (l : list A) (stop : Z) :
  0 <= stop -> py_slice l 0 stop = take (Z.to_nat stop) l.
Proof.
  intros Hs. unfold py_slice. cbv zeta.
  rewrite !clip_bound_nonneg by lia.
  rewrite (Z.min_r _ 0) by lia. rewrite Z.sub_0_r. cbn [Z.to_nat].
  rewrite drop_0.
  destruct (Z.le_ge_cases stop (Z.of_nat (length l))).
  - by rewrite Z.min_r by lia.
  - rewrite Z.min_l by lia. rewrite Nat2Z.id.
    rewrite !take_ge; [done|lia|lia].
Qed.

(** [l[a:-1]]: from position [a] up to, not including, the last entry. *)
Lemma py_slice_middle {A} (pre mid : list A) (x : A) :
  py_slice (pre ++ mid ++ [x]) (Z.of_nat (length pre)) (-1) = mid.
Proof.
  unfold py_slice. cbv zeta.
  rewrite (clip_bound_nonneg _ (Z.of_nat (length pre))) by lia.
  rewrite (clip_bound_neg _ (-1)) by lia.
  rewrite !length_app. cbn [length].
  rewrite Z.min_r by lia. rewrite Z.max_r by lia.
  rewrite Nat2Z.id, drop_app_length.
  replace (Z.to_nat _) with (length mid) by lia.
  apply take_app_length.
Qed.

Lemma py_slice_5 {A} (pre mid : list A) (x : A) :
  length pre = 5%nat -> py_slice (pre ++ mid ++ [x]) 5 (-1) = mid.
Proof.
  intros Hl. pose proof (py_slice_middle pre mid x) as Hm.
  rewrite Hl in Hm. exact Hm.
Qed.

Lemma py_slice_prefix {A} (a b : list A) (n : nat) :
  length a = n -> py_slice (a ++ b) 0 (Z.of_nat n) = a.
Proof.
  intros Hl. rewrite py_slice_from_0 by lia.
  rewrite Nat2Z.id. by apply take_app_length'.
Qed.

Lemma snoc_of_length {A} (l : list A) (m : nat) :
  length l = S m -> exists l' x, l = l' ++ [x] ∧ length l' = m.
Proof.
  destruct l as [|x l' _] using rev_ind; [done|].
  rewrite length_app. simpl. intros Hl. exists l', x. split; [done|lia].
Qed.

Lemma iloc_set_last {A} (l : list A) (y x : A) :
  iloc_set (l ++ [y]) (Z.of_nat (length l)) x = Some (l ++ [x]).
Proof.
  unfold iloc_set, norm_index. rewrite length_app. cbn [length].
  destruct (Z.ltb_spec (Z.of_nat (length l)) 0); [lia|].
  destruct (Z.leb_spec 0 (Z.of_nat (length l))); [|lia].
  destruct (Z.ltb_spec (Z.of_nat (length l)) (Z.of_nat (length l + 1)));
    [|lia].
  cbn [andb]. rewrite Nat2Z.id. f_equal.
  rewrite <- (Nat.add_0_r (length l)). by rewrite insert_app_r.
Qed.

Lemma iloc_set_empty {A} (i : Z) (x : A) : iloc_set [] i x = None.
Proof.
  unfold iloc_set, norm_index. cbn [length].
  set (j := if i <? 0 then i + Z.of_nat 0 else i).
  destruct (Z.leb_spec 0 j); [|done].
  destruct (Z.ltb_spec j (Z.of_nat 0)); [lia|done].
Qed.

(** ** The ranked tables *)

(** A candidate row once its url is resolved. *)
Lemma set_deff_resolved (bar_df : list bar_row) (instance spoofed_instance : string) :
  set_deff bar_df
    (column_uri_to_url (b_deff <$> bar_df) instance spoofed_instance)
  = (fun r =>
       {| b_count := b_count r;
          b_deff := uri_to_url_str (b_deff r) instance spoofed_instance;
          b_displayId := b_displayId r; b_roletog := b_roletog r;
          b_title := b_title r |}) <$> bar_df.
Proof.
  rewrite column_uri_to_url_fmap. unfold set_deff.
  rewrite !zip_with_fmap_r. by rewrite zip_with_diag.
Qed.

(** The frame before colouring: the candidates but the last one kept, then
    the row of the part of interest.  Without any title in the result the
    [drop] raises, and with no candidate the assignment to [iloc[-1]] of an
    empty frame does. *)
Lemma ranked_rows_spec (bindings : list bar_row)
    (uri instance display_id title role : string) (count : Z) :
  let pool := candidate_pool bindings display_id in
  ranked_rows bindings uri instance display_id title role count
  = if has_tt b_title bindings then
      match pool with
      | [] => None
      | _ :: _ =>
          Some (((fun r =>
                    {| b_count := b_count r;
                       b_deff := uri_to_url_str (b_deff r) instance
                                   (uri_instance uri);
                       b_displayId := b_displayId r; b_roletog := b_roletog r;
                       b_title := b_title r |})
                   <$> take (length pool `min` 11 - 1) pool)
                ++ [poi_row display_id title role count
                      (uri_to_url_str uri instance (uri_instance uri))])
      end
    else None.
Proof.
  intros pool. unfold ranked_rows. fold pool. clearbody pool.
  destruct (has_tt b_title bindings); [cbn [negb]|done].
  rewrite py_slice_from_0 by lia.
  rewrite set_deff_resolved.
  destruct pool as [|r0 pool'].
  { apply iloc_set_empty. }
  set (p := r0 :: pool').
  assert (1 <= length p)%nat as Hk by (simpl; lia).
  clearbody p. clear r0 pool'. rename p into pool.
  remember (length pool `min` 11)%nat as n eqn:Hn.
  assert (Z.to_nat (Z.min 10 (Z.of_nat (length pool) - 1) + 1) = S (n - 1))
    as -> by lia.
  assert (Z.min 10 (Z.of_nat (length pool) - 1) = Z.of_nat (n - 1)) as ->
    by lia.
  destruct (snoc_of_length (take (S (n - 1)) pool) (n - 1))
    as (l & x & Ht & Hl).
  { rewrite length_take. lia. }
  assert (take (n - 1) pool = l) as ->.
  { transitivity (take (n - 1) (take (S (n - 1)) pool)).
    - rewrite take_take. f_equal. lia.
    - rewrite Ht, <- Hl. apply take_app_length. }
  rewrite Ht, fmap_app. simpl. rewrite <- Hl.
  rewrite <- (length_fmap (fun r =>
    {| b_count := b_count r;
       b_deff := uri_to_url_str (b_deff r) instance (uri_instance uri);
       b_displayId := b_displayId r; b_roletog := b_roletog r;
       b_title := b_title r |}) l) at 1.
  apply iloc_set_last.
Qed.

Lemma add_color_and_title_length (bar_df : list bar_row) (colours : list string) :
  length colours = length bar_df ->
  length (add_color_and_title bar_df colours) = length bar_df.
Proof.
  intros Hl. unfold add_color_and_title. rewrite length_zip_with. lia.
Qed.

Lemma add_color_and_title_displayId (bar_df : list bar_row)
    (colours : list string) :
  length colours = length bar_df ->
  r_displayId <$> add_color_and_title bar_df colours = b_displayId <$> bar_df.
Proof.
  revert colours. induction bar_df as [|r l IH]; intros [|c cs]; simpl;
    try done.
  intros Hl. f_equal. apply IH. lia.
Qed.

Lemma length_join_replicate_singleton {A} (n : nat) (x : A) :
  length (mjoin (replicate n [x])) = n.
Proof. induction n as [|n IH]; simpl; [done|by rewrite IH]. Qed.

Lemma colours_length (bar_df : list bar_row) :
  length (colour_at bar_df <$> seq 0 (length bar_df)) = length bar_df.
Proof. by rewrite length_fmap, length_seq. Qed.

(** Both builders succeed exactly when the shared part does, with a frame of
    the same height and the same [displayId] column. *)
Lemma builders_shape (bindings : list bar_row)
    (uri instance display_id title role : string) (count : Z)
    (t : list ranked_row) :
  most_used_bar bindings uri instance display_id title role count = Some t
  ∨ most_used_by_type_bar bindings uri instance display_id title role count
    = Some t ->
  exists bar_df,
    ranked_rows bindings uri instance display_id title role count = Some bar_df
    ∧ length t = length bar_df
    ∧ r_displayId <$> t = b_displayId <$> bar_df.
Proof.
  unfold most_used_bar, most_used_by_type_bar.
  destruct (ranked_rows _ _ _ _ _ _ _) as [bar_df|]; simpl.
  2:{ intros [?|?]; done. }
  intros [Ht|Ht]; injection Ht as <-; exists bar_df; split; try done.
  - pose proof (colours_length bar_df).
    by rewrite add_color_and_title_length, add_color_and_title_displayId.
  - pose proof (length_join_replicate_singleton (length bar_df)
                  (default orange (colormap !!
                     PyStr.replace "http://identifiers.org/so/SO:0000167"
                       "0000167" role))).
    by rewrite add_color_and_title_length, add_color_and_title_displayId.
Qed.

Lemma builders_succeed (bindings : list bar_row)
    (uri instance display_id title role : string) (count : Z)
    (bar_df : list bar_row) :
  ranked_rows bindings uri instance display_id title role count = Some bar_df ->
  exists t1 t2,
    most_used_bar bindings uri instance display_id title role count = Some t1
    ∧ most_used_by_type_bar bindings uri instance display_id title role count
      = Some t2.
Proof.
  intros Hr. unfold most_used_bar, most_used_by_type_bar. rewrite Hr. simpl.
  by eexists _, _.
Qed.

Lemma no_candidate_raises (bindings : list bar_row)
    (uri instance display_id title role : string) (count : Z) :
  candidate_pool bindings display_id = [] ->
  most_used_bar bindings uri instance display_id title role count = None
  ∧ most_used_by_type_bar bindings uri instance display_id title role count
    = None.
Proof.
  intros Hp. unfold most_used_bar, most_used_by_type_bar.
  rewrite ranked_rows_spec, Hp. by destruct (has_tt b_title bindings).
Qed.

(** C1 (as stated, refuted).  Three candidates, none of them the part of
    interest: both builders return three rows, where [min(3, 10) + 1] is
    four.  The last candidate has been overwritten by the part of
    interest. *)
Lemma three_candidates_give_three_rows :
  length (candidate_pool three_candidates "BBa_E0040") = 3%nat
  ∧ length <$> most_used_bar three_candidates gfp_uri dev_instance
                 "BBa_E0040" "GFP" "0000316" 2348
    = Some 3%nat
  ∧ length <$> most_used_by_type_bar three_candidates gfp_uri dev_instance
                 "BBa_E0040" "GFP" "0000316" 2348
    = Some 3%nat
  ∧ (3 ≠ 3 `min` 10 + 1)%nat.
Proof. vm_compute. repeat split; discriminate. Qed.

(** C1 (amended).  For a query result in which some row has a title (the
    [drop] raises [KeyError] otherwise), with [k >= 1] candidate rows left
    once the rows of the part of interest are removed, [most_used_bar] and
    [most_used_by_type_bar] return a table of exactly [min(k, 11)] rows, that
    is [min(10, k - 1) + 1]: eleven rows from eleven candidates on, and [k]
    rows below that. *)
Theorem ranked_table_row_count (bindings : list bar_row)
    (uri instance display_id title role : string) (count : Z) :
  let k := length (candidate_pool bindings display_id) in
  has_tt b_title bindings = true ->
  (1 <= k)%nat ->
  exists t1 t2,
    most_used_bar bindings uri instance display_id title role count = Some t1
    ∧ most_used_by_type_bar bindings uri instance display_id title role count
      = Some t2
    ∧ length t1 = (k `min` 11)%nat
    ∧ length t2 = (k `min` 11)%nat
    ∧ (k `min` 11 = 10 `min` (k - 1) + 1)%nat.
Proof.
  intros k Htt Hk. subst k.
  pose proof (ranked_rows_spec bindings uri instance display_id title role
                count) as Hr.
  cbv zeta in Hr. rewrite Htt in Hr.
  remember (candidate_pool bindings display_id) as pool0 eqn:Hpool.
  destruct pool0 as [|r0 pool]; [simpl in Hk; lia|].
  destruct (builders_succeed _ _ _ _ _ _ _ _ Hr) as (t1 & t2 & H1 & H2).
  exists t1, t2. split; [done|]. split; [done|].
  destruct (builders_shape _ _ _ _ _ _ _ t1 (or_introl H1))
    as (df1 & Hdf1 & Hlen1 & _).
  destruct (builders_shape _ _ _ _ _ _ _ t2 (or_intror H2))
    as (df2 & Hdf2 & Hlen2 & _).
  rewrite Hr in Hdf1, Hdf2.
  injection Hdf1 as <-. injection Hdf2 as <-.
  rewrite Hlen1, Hlen2.
  rewrite length_app, length_fmap, length_take. cbn [length]. lia.
Qed.

Lemma ranked_table_row_count_witness :
  exists t1 t2,
    most_used_bar three_candidates gfp_uri dev_instance "BBa_E0040" "GFP"
      "0000316" 2348 = Some t1
    ∧ most_used_by_type_bar three_candidates gfp_uri dev_instance "BBa_E0040"
        "GFP" "0000316" 2348 = Some t2
    ∧ length t1 = 3%nat ∧ length t2 = 3%nat.
Proof.
  destruct (ranked_table_row_count three_candidates gfp_uri dev_instance
              "BBa_E0040" "GFP" "0000316" 2348)
    as (t1 & t2 & H1 & H2 & Hl1 & Hl2 & _).
  { reflexivity. }
  { vm_compute. lia. }
  exists t1, t2. repeat split; assumption.
Defined.

(** C3 (the code at the failing input).  The query returned the part of
    interest only: no candidate is left, [robustness] is [-1], the frame is
    empty and the assignment to its row [-1] raises; neither builder returns
    a table. *)
Theorem no_candidate_left_raises :
  candidate_pool only_poi "BBa_E0040" = []
  ∧ most_used_bar only_poi gfp_uri dev_instance "BBa_E0040" "GFP" "0000316"
      2348 = None
  ∧ most_used_by_type_bar only_poi gfp_uri dev_instance "BBa_E0040" "GFP"
      "0000316" 2348 = None.
Proof. vm_compute. done. Qed.

(** C4.  Whenever some row of the query result has a title (the [drop]
    raises [KeyError] otherwise) and at least one candidate is left, both
    builders return a table; and in every table that [most_used_bar] or [most_used_by_type_bar]
    returns, the [displayId] of the last row is the one of the part of
    interest, and the [displayId] column holds it exactly once, whether or not
    the query result contained the part. *)
Theorem focal_part_last_and_once (bindings : list bar_row)
    (uri instance display_id title role : string) (count : Z) :
  (has_tt b_title bindings = true ->
   (1 <= length (candidate_pool bindings display_id))%nat ->
   exists t1 t2,
     most_used_bar bindings uri instance display_id title role count = Some t1
     ∧ most_used_by_type_bar bindings uri instance display_id title role count
       = Some t2)
  ∧ forall t : list ranked_row,
      most_used_bar bindings uri instance display_id title role count = Some t
      ∨ most_used_by_type_bar bindings uri instance display_id title role count
        = Some t ->
      last (r_displayId <$> t) = Some display_id
      ∧ length (filter (fun d => d = display_id) (r_displayId <$> t)) = 1%nat.
Proof.
  split.
  { intros Htt Hk.
    pose proof (ranked_rows_spec bindings uri instance display_id title role
                  count) as Hr.
    cbv zeta in Hr. rewrite Htt in Hr.
    destruct (candidate_pool bindings display_id) as [|r0 pool];
      [simpl in Hk; lia|].
    apply (builders_succeed _ _ _ _ _ _ _ _ Hr). }
  intros t Ht.
  destruct (builders_shape _ _ _ _ _ _ _ t Ht) as (df & Hdf & _ & ->).
  rewrite ranked_rows_spec in Hdf. cbv zeta in Hdf.
  destruct (has_tt b_title bindings); [|done].
  pose proof (fun r => proj1 (list_elem_of_filter
    (fun r => b_displayId r ≠ display_id) bindings r)) as Hpool.
  fold (candidate_pool bindings display_id) in Hpool.
  destruct (candidate_pool bindings display_id) as [|r0 pool]; [done|].
  injection Hdf as <-.
  rewrite fmap_app. simpl. split; [apply last_snoc|].
  rewrite filter_app, filter_cons_True, filter_nil by done.
  rewrite length_app. simpl.
  rewrite <- list_fmap_compose.
  set (ids := _ <$> take _ _).
  assert (filter (fun d => d = display_id) ids = []) as ->; [|done].
  apply elem_of_nil_inv. intros d [Hd Hin]%list_elem_of_filter.
  subst ids. apply list_elem_of_fmap in Hin as (r & -> & Hin).
  simpl in Hd. apply elem_of_take in Hin as (i & Hi & _).
  apply list_elem_of_lookup_2 in Hi.
  by destruct (Hpool r Hi).
Qed.

Lemma focal_part_last_and_once_witness :
  exists t,
    most_used_bar three_candidates gfp_uri dev_instance "BBa_E0040" "GFP"
      "0000316" 2348 = Some t
    ∧ last (r_displayId <$> t) = Some "BBa_E0040"
    ∧ length (filter (fun d => d = "BBa_E0040") (r_displayId <$> t)) = 1%nat.
Proof.
  destruct (focal_part_last_and_once three_candidates gfp_uri dev_instance
              "BBa_E0040" "GFP" "0000316" 2348) as [Hret Hlast].
  destruct Hret as (t & _ & Ht & _); [reflexivity|vm_compute; lia|].
  exists t. split; [exact Ht|]. apply Hlast. left. exact Ht.
Defined.

(** *** Colours *)

Lemma colormap_other (role : string) :
  role ∉ [ "http://identifiers.org/so/SO:0000167";
           "http://identifiers.org/so/SO:0000139";
           "http://identifiers.org/so/SO:0000316";
           "http://identifiers.org/so/SO:0000141" ] ->
  colormap !! role = None.
Proof.
  intros Hn. unfold colormap.
  rewrite !lookup_insert_ne; [apply lookup_empty|..];
    intros <-; apply Hn; set_solver.
Qed.

(** The colour [most_used_bar] gives the row at position [i] is the one its
    loop computes from the role of that row. *)
Lemma most_used_bar_colour (bindings : list bar_row)
    (uri instance display_id title role : string) (count : Z)
    (t : list ranked_row) (i : nat) (r : ranked_row) :
  most_used_bar bindings uri instance display_id title role count = Some t ->
  t !! i = Some r ->
  r_color r = default orange (colormap !! r_roletog r).
Proof.
  unfold most_used_bar.
  destruct (ranked_rows _ _ _ _ _ _ _) as [df|]; [simpl|done].
  intros [= <-] Hr. unfold add_color_and_title in Hr.
  apply lookup_zip_with_Some in Hr as (br & c & -> & Hbr & Hc). simpl.
  rewrite list_lookup_fmap in Hc.
  destruct (seq 0 (length df) !! i) as [j|] eqn:Hj; [|done].
  apply lookup_seq in Hj as [-> _]. simpl in Hc. injection Hc as <-.
  unfold colour_at. by rewrite Hbr.
Qed.

(** C9 (as stated, refuted).  The candidate with role [SO:0000110] is
    coloured by the [except KeyError] branch, whose string has a blank after
    the first comma: it is not [rgba(255,128,0,1)]. *)
Lemma unknown_role_colour_has_a_blank :
  exists t r,
    most_used_bar three_candidates gfp_uri dev_instance "BBa_E0040" "GFP"
      "0000316" 2348 = Some t
    ∧ t !! 1%nat = Some r
    ∧ r_roletog r = "http://identifiers.org/so/SO:0000110"
    ∧ r_color r ≠ "rgba(255,128,0,1)".
Proof.
  eexists _, _. split; [vm_compute; reflexivity|].
  split; [reflexivity|]. split; [reflexivity|]. discriminate.
Qed.

(** C9 (amended).  Every row of the table [most_used_bar] returns has the
    colour its role is mapped to: [rgba(4,187,61,1)] for [SO:0000167],
    [rgba(149,110,219,1)] for [SO:0000139], [rgba(119,157,205,1)] for
    [SO:0000316], [rgba(202,58,32,1)] for [SO:0000141], the role being the
    full [http://identifiers.org/so/] identifier; a row with any other role
    has exactly the string [rgba(255, 128,0,1)], written with a blank after
    the first comma. *)
Theorem most_used_bar_role_colours (bindings : list bar_row)
    (uri instance display_id title role : string) (count : Z)
    (t : list ranked_row) (i : nat) (r : ranked_row) :
  most_used_bar bindings uri instance display_id title role count = Some t ->
  t !! i = Some r ->
  (r_roletog r = "http://identifiers.org/so/SO:0000167" ->
     r_color r = "rgba(4,187,61,1)")
  ∧ (r_roletog r = "http://identifiers.org/so/SO:0000139" ->
       r_color r = "rgba(149,110,219,1)")
  ∧ (r_roletog r = "http://identifiers.org/so/SO:0000316" ->
       r_color r = "rgba(119,157,205,1)")
  ∧ (r_roletog r = "http://identifiers.org/so/SO:0000141" ->
       r_color r = "rgba(202,58,32,1)")
  ∧ (r_roletog r ∉ [ "http://identifiers.org/so/SO:0000167";
                     "http://identifiers.org/so/SO:0000139";
                     "http://identifiers.org/so/SO:0000316";
                     "http://identifiers.org/so/SO:0000141" ] ->
       r_color r = "rgba(255, 128,0,1)").
Proof.
  intros Ht Hr.
  rewrite (most_used_bar_colour _ _ _ _ _ _ _ t i r Ht Hr).
  repeat split; try (intros ->; reflexivity).
  intros Hn. by rewrite colormap_other.
Qed.

Lemma most_used_bar_role_colours_witness :
  exists t r0 r1,
    most_used_bar three_candidates gfp_uri dev_instance "BBa_E0040" "GFP"
      "0000316" 2348 = Some t
    ∧ t !! 0%nat = Some r0 ∧ r_color r0 = "rgba(149,110,219,1)"
    ∧ t !! 1%nat = Some r1 ∧ r_color r1 = "rgba(255, 128,0,1)".
Proof.
  destruct (most_used_bar three_candidates gfp_uri dev_instance "BBa_E0040"
              "GFP" "0000316" 2348) as [t|] eqn:Ht; [|vm_compute in Ht; done].
  assert (exists r0 r1,
            t !! 0%nat = Some r0 ∧ t !! 1%nat = Some r1
            ∧ r_roletog r0 = "http://identifiers.org/so/SO:0000139"
            ∧ r_roletog r1 = "http://identifiers.org/so/SO:0000110")
    as (r0 & r1 & H0 & H1 & Hrole0 & Hrole1).
  { vm_compute in Ht. injection Ht as <-. eexists _, _.
    repeat split; reflexivity. }
  exists t, r0, r1. split; [done|]. split; [done|]. split.
  - apply (most_used_bar_role_colours three_candidates gfp_uri dev_instance
             "BBa_E0040" "GFP" "0000316" 2348 t 0%nat r0 Ht H0).
    exact Hrole0.
  - split; [done|].
    apply (most_used_bar_role_colours three_candidates gfp_uri dev_instance
             "BBa_E0040" "GFP" "0000316" 2348 t 1%nat r1 Ht H1).
    rewrite Hrole1. vm_compute. intros H.
    repeat (apply elem_of_cons in H as [H|H]; [discriminate H|]).
    by apply elem_of_nil in H.
Defined.

(** ** The flow graph *)

Lemma py_range_snoc (a b : Z) :
  a <= b -> py_range a (b + 1) = py_range a b ++ [b].
Proof.
  intros Hab. unfold py_range.
  replace (b + 1 - a) with ((b - a) + 1) by lia.
  rewrite seqZ_app by lia. f_equal.
  rewrite seqZ_cons by lia. rewrite seqZ_nil by lia. f_equal. lia.
Qed.

Lemma length_py_range (a b : Z) : length (py_range a b) = Z.to_nat (b - a).
Proof. apply length_seqZ. Qed.

Lemma bucket_colours_lookup (part_type_index : nat) (l : list string) :
  (part_type_index < 5)%nat ->
  link_colours !! part_type_index = Some (bucket_link_colour part_type_index)
  ∧ (node_colours ++ l) !! part_type_index
    = Some (bucket_node_colour part_type_index).
Proof.
  intros Hlt.
  do 5 (destruct part_type_index as [|part_type_index]; [done|]). lia.
Qed.

Section sankey_proofs.
Context {num : Type} `{PyNum num}.

Implicit Types (K : list (nat * @part_row num)) (df : list (@part_row num)).

Lemma initial_lists_after : initial_lists = lists_after (num:=num) [] [].
Proof. reflexivity. Qed.

(** One pass of the inner loop appends the visited row. *)
Lemma inner_body_spec (part_array : list (list (@part_row num)))
    (part_type_index index : nat) df (r : @part_row num) K (lens : list Z) :
  (part_type_index < 5)%nat ->
  part_array !! part_type_index = Some df ->
  df !! index = Some r ->
  inner_body part_array part_type_index index (lists_after K lens)
  = Some (lists_after (K ++ [(part_type_index, r)]) lens).
Proof.
  intros Hlt Hpa Hr. unfold inner_body.
  destruct (bucket_colours_lookup part_type_index
              ((fun p => bucket_node_colour p.1) <$> K) Hlt) as [Hlc Hnc].
  rewrite Hlc. cbn [mbind option_bind].
  change (list_node_colour (lists_after K lens))
    with (node_colours ++ ((fun p => bucket_node_colour p.1) <$> K)).
  rewrite Hnc. cbn [mbind option_bind]. rewrite Hpa. cbn [mbind option_bind].
  rewrite Hr. cbn [mbind option_bind]. f_equal.
  unfold lists_after. cbn [source list_target value percent multiplier
    list_link_colour len_part_type target list_node_colour node_label node_url].
  rewrite !fmap_app, length_app. cbn [fmap list_fmap length fst snd].
  rewrite <- !app_assoc.
  replace (5 + Z.of_nat (length K + 1)) with (5 + Z.of_nat (length K) + 1)
    by lia.
  rewrite py_range_snoc by lia. reflexivity.
Qed.

Lemma inner_loop_spec (part_array : list (list (@part_row num)))
    (part_type_index : nat) df K (lens : list Z) (n a : nat) :
  (part_type_index < 5)%nat ->
  part_array !! part_type_index = Some df ->
  (a + n <= length df)%nat ->
  for_each (inner_body part_array part_type_index) (seq a n)
    (lists_after (K ++ ((fun r => (part_type_index, r)) <$> take a df)) lens)
  = Some (lists_after
            (K ++ ((fun r => (part_type_index, r)) <$> take (a + n) df)) lens).
Proof.
  intros Hlt Hpa. revert a. induction n as [|n IH]; intros a Han.
  - by rewrite Nat.add_0_r.
  - cbn [seq for_each].
    destruct (lookup_lt_is_Some_2 df a) as [r Hr]; [lia|].
    rewrite (inner_body_spec part_array part_type_index a df r) by done.
    cbn [mbind option_bind].
    rewrite <- app_assoc.
    replace (((fun r => (part_type_index, r)) <$> take a df)
             ++ [(part_type_index, r)])
      with ((fun r => (part_type_index, r)) <$> take (S a) df).
    2:{ rewrite (take_S_r _ _ _ Hr), fmap_app. done. }
    rewrite IH by lia.
    by replace (S a + n)%nat with (a + S n)%nat by lia.
Qed.

(** One pass of the outer loop appends the first ten rows of its frame. *)
Lemma outer_body_spec (part_array : list (list (@part_row num)))
    (part_array_lengths : list Z) (part_type_index : nat) df K
    (lens : list Z) :
  (part_type_index < 5)%nat ->
  part_array !! part_type_index = Some df ->
  part_array_lengths !! part_type_index = Some (Z.of_nat (length df)) ->
  length lens = part_type_index ->
  outer_body part_array part_array_lengths part_type_index (lists_after K lens)
  = Some (lists_after (K ++ ((fun r => (part_type_index, r)) <$> take 10 df))
            (lens ++ [Z.min (Z.of_nat (length df)) 10])).
Proof.
  intros Hlt Hpa Hlen Hlens. unfold outer_body.
  rewrite Hlen. cbn [mbind option_bind].
  cbn [len_part_type lists_after].
  rewrite list_lookup_middle by done. cbn [mbind option_bind].
  pose proof (inner_loop_spec part_array part_type_index df K
                (lens ++ [Z.min (Z.of_nat (length df)) 10])
                (Z.to_nat (Z.min (Z.of_nat (length df)) 10)) 0 Hlt Hpa) as Hin.
  rewrite take_0, fmap_nil, app_nil_r, Nat.add_0_l in Hin.
  etrans; [apply Hin; lia|].
  destruct (Nat.le_ge_cases (length df) 10).
  - rewrite !(take_ge df); [done|lia|lia].
  - by replace (Z.to_nat (Z.min (Z.of_nat (length df)) 10)) with 10%nat by lia.
Qed.

Lemma first_loop_spec (b0 b1 b2 b3 b4 : list (@part_row num)) :
  exists lens,
    for_each
      (outer_body [b0; b1; b2; b3; b4]
         ((fun df => Z.of_nat (length df)) <$> [b0; b1; b2; b3; b4]))
      (seq 0 5) initial_lists
    = Some (lists_after (kept [b0; b1; b2; b3; b4]) lens).
Proof.
  eexists. rewrite initial_lists_after. cbn [seq for_each].
  rewrite (outer_body_spec _ _ 0 b0) by (done || lia).
  cbn [mbind option_bind].
  rewrite (outer_body_spec _ _ 1 b1) by (done || lia).
  cbn [mbind option_bind].
  rewrite (outer_body_spec _ _ 2 b2) by (done || lia).
  cbn [mbind option_bind].
  rewrite (outer_body_spec _ _ 3 b3) by (done || lia).
  cbn [mbind option_bind].
  rewrite (outer_body_spec _ _ 4 b4) by (done || lia).
  cbn [mbind option_bind]. f_equal. f_equal.
  unfold kept. cbn. rewrite app_nil_r, <- !app_assoc. reflexivity.
Qed.

Lemma first_loop_split (order_df : list (@part_row num)) :
  exists lens,
    for_each
      (outer_body (split_by_role order_df)
         ((fun df => Z.of_nat (length df)) <$> split_by_role order_df))
      (seq 0 5) initial_lists
    = Some (lists_after (kept (split_by_role order_df)) lens).
Proof. apply first_loop_spec. Qed.

(** The lists [sankey] hands to [pd.DataFrame], in closed form, when the
    [drop] does not raise. *)
Lemma sankey_lists_spec (order_df : list (@order_row num))
    (url uri title instance : string) :
  has_tt o_title order_df = true ->
  sankey_lists order_df url uri title instance
  = Some (flow_columns (kept_rows order_df uri instance) url title).
Proof.
  intros Htt. unfold sankey_lists, kept_rows. rewrite Htt. cbn [negb].
  cbv zeta.
  destruct (first_loop_split (prepare order_df instance (uri_instance uri)))
    as (lens & ->).
  set (K := kept _). unfold lists_after, flow_columns. cbv zeta.
  rewrite !length_fmap, !Nat2Z.id.
  f_equal. f_equal.
  - rewrite <- !app_assoc. do 3 f_equal. f_equal; lia.
  - rewrite <- !app_assoc.
    rewrite (py_slice_prefix _ _ (length K)) by by rewrite length_fmap.
    do 2 f_equal. f_equal; [f_equal; lia|].
    apply list_fmap_ext. intros i x _. lia.
  - rewrite !zip_with_fmap_l, !zip_with_fmap_r, zip_with_diag.
    by rewrite <- !app_assoc.
  - rewrite <- !app_assoc.
    by rewrite (py_slice_5 node_colours) by done.
  - rewrite <- !app_assoc.
    by rewrite (py_slice_5 [_; _; _; _; _]) by done.
  - rewrite <- !app_assoc.
    by rewrite (py_slice_5 [_; _; _; _; _]) by done.
  - rewrite (py_slice_prefix _ _ (length K)) by by rewrite length_fmap.
    rewrite <- !app_assoc.
    rewrite (py_slice_prefix _ _ (length K)) by by rewrite length_fmap.
    done.
Qed.

Lemma prepare_fmap (order_df : list (@order_row num))
    (instance spoofed_instance : string) :
  prepare order_df instance spoofed_instance
  = prepared instance spoofed_instance <$> order_df.
Proof.
  unfold prepare. rewrite column_uri_to_url_fmap.
  rewrite !zip_with_fmap_r. by rewrite zip_with_diag.
Qed.

Lemma length_filter_fmap {A B} (g : A -> B) (P : B -> Prop)
    `{!forall y, Decision (P y)} (l : list A) :
  length (filter P (g <$> l)) = length (filter (fun x => P (g x)) l).
Proof.
  induction l as [|x l IH]; [done|].
  rewrite fmap_cons, !filter_cons.
  destruct (decide (P (g x))); simpl; by rewrite IH.
Qed.

(** [P] counted on the query result equals the number of rows the loop
    visits. *)
Lemma kept_five (b0 b1 b2 b3 b4 : list (@part_row num)) :
  kept [b0; b1; b2; b3; b4]
  = ((fun r => (0%nat, r)) <$> take 10 b0)
    ++ ((fun r => (1%nat, r)) <$> take 10 b1)
    ++ ((fun r => (2%nat, r)) <$> take 10 b2)
    ++ ((fun r => (3%nat, r)) <$> take 10 b3)
    ++ ((fun r => (4%nat, r)) <$> take 10 b4).
Proof. unfold kept. cbn. by rewrite app_nil_r. Qed.

Lemma length_filter_iff {A} (P1 P2 : A -> Prop)
    `{!forall x, Decision (P1 x), !forall x, Decision (P2 x)} (l : list A) :
  (forall x, P1 x <-> P2 x) -> length (filter P1 l) = length (filter P2 l).
Proof. intros Hiff. f_equal. by apply list_filter_iff. Qed.

Lemma bucket_length {A B} (g : A -> B) (P : B -> Prop) (Q : A -> Prop)
    `{!forall y, Decision (P y), !forall x, Decision (Q x)} (l : list A) :
  (forall x, P (g x) <-> Q x) ->
  length (filter P (g <$> l)) = length (filter Q l).
Proof. intros Hiff. rewrite length_filter_fmap. by apply length_filter_iff. Qed.

Lemma other_length {A B} (g : A -> B) (P1 P2 P3 P4 : B -> Prop) (Q : A -> Prop)
    `{!forall y, Decision (P1 y), !forall y, Decision (P2 y),
      !forall y, Decision (P3 y), !forall y, Decision (P4 y),
      !forall x, Decision (Q x)} (l : list A) :
  (forall x, (P1 (g x) ∧ P2 (g x) ∧ P3 (g x) ∧ P4 (g x)) <-> Q x) ->
  length (filter P4 (filter P3 (filter P2 (filter P1 (g <$> l)))))
  = length (filter Q l).
Proof.
  intros Hiff. rewrite !list_filter_filter, length_filter_fmap.
  apply length_filter_iff. intros x. rewrite <- Hiff. tauto.
Qed.

Lemma kept_rows_length (order_df : list (@order_row num))
    (uri instance : string) :
  length (kept_rows order_df uri instance) = preceding_kept order_df.
Proof.
  unfold kept_rows, split_by_role, preceding_kept, bucket_sizes. cbv zeta.
  rewrite kept_five, prepare_fmap.
  rewrite !length_app, !length_fmap, !length_take.
  rewrite (bucket_length _ (fun r => roletog r = role_prom)
             (fun r => o_roletog r = role_prom)) by done.
  rewrite (bucket_length _ (fun r => roletog r = role_rbs)
             (fun r => o_roletog r = role_rbs)) by done.
  rewrite (bucket_length _ (fun r => roletog r = role_cds)
             (fun r => o_roletog r = role_cds)) by done.
  rewrite (bucket_length _ (fun r => roletog r = role_term)
             (fun r => o_roletog r = role_term)) by done.
  rewrite (other_length _ (fun r => roletog r ≠ role_prom)
             (fun r => roletog r ≠ role_rbs) (fun r => roletog r ≠ role_cds)
             (fun r => roletog r ≠ role_term)
             (fun r => o_roletog r ∉ [role_prom; role_rbs; role_cds; role_term])).
  2:{ intros r. rewrite !not_elem_of_cons.
      pose proof (not_elem_of_nil (o_roletog r)). cbn [roletog prepared].
      tauto. }
  cbn [fmap list_fmap sum_list sum_list_with]. unfold id. lia.
Qed.

(** *** From the lists to the rows of [skey] *)

Lemma data_frame_T_lookup (c : @columns num) (i : nat) :
  data_frame_T c !! i
  = if decide (i < max_list [ length (col_source c); length (col_target c);
                              length (col_value c); length (col_color c);
                              length (col_label c); length (col_link c);
                              length (col_link_color c) ])%nat
    then Some {| Source := col_source c !! i; Target := col_target c !! i;
                 Value := col_value c !! i; Color := col_color c !! i;
                 Node_Label := col_label c !! i; Link := col_link c !! i;
                 Link_Color := col_link_color c !! i |}
    else None.
Proof.
  unfold data_frame_T. cbv zeta. rewrite list_lookup_fmap.
  case_decide as Hi.
  - by rewrite lookup_seq_lt.
  - rewrite lookup_seq_ge; [done|lia].
Qed.

Lemma data_frame_T_cells (c : @columns num) (i : nat) :
  data_frame_T c !! i ≫= Source = col_source c !! i
  ∧ data_frame_T c !! i ≫= Target = col_target c !! i
  ∧ data_frame_T c !! i ≫= Value = col_value c !! i
  ∧ data_frame_T c !! i ≫= Color = col_color c !! i
  ∧ data_frame_T c !! i ≫= Node_Label = col_label c !! i
  ∧ data_frame_T c !! i ≫= Link = col_link c !! i
  ∧ data_frame_T c !! i ≫= Link_Color = col_link_color c !! i.
Proof.
  rewrite data_frame_T_lookup. case_decide as Hi; [done|].
  cbn [mbind option_bind].
  repeat split; symmetry; apply lookup_ge_None_2;
    (etrans; [|apply Nat.nlt_ge, Hi]);
    apply max_list_elem_of_le; set_solver.
Qed.

(** The non-null cells of a column of the frame are as many as the list
    the column was built from has entries. *)
Lemma records_length {A B} (F : A -> option B) (df : list A) (col : list B) :
  (forall i : nat, df !! i ≫= F = col !! i) ->
  length (records F df) = length col.
Proof.
  unfold records. revert col. induction df as [|x df IH]; intros col Hc.
  - destruct col as [|b col]; [done|]. by specialize (Hc 0%nat).
  - rewrite filter_cons. pose proof (Hc 0%nat) as H0. simpl in H0.
    destruct (F x) as [b|] eqn:HF.
    + destruct col as [|b' col]; [done|].
      rewrite decide_True by done. simpl. f_equal.
      apply IH. intros i. apply (Hc (S i)).
    + destruct col as [|b' col]; [|done].
      rewrite decide_False by (by intros [? ?]).
      apply (IH []). intros i. apply (Hc (S i)).
Qed.

(** *** The kept rows *)

Lemma kept_rows_origin (order_df : list (@order_row num))
    (uri instance : string) (j b : nat) (r : @part_row num) :
  kept_rows order_df uri instance !! j = Some (b, r) ->
  (b < 5)%nat
  ∧ exists raw, raw ∈ order_df ∧ r = prepared instance (uri_instance uri) raw.
Proof.
  intros Hj. apply list_elem_of_lookup_2 in Hj.
  unfold kept_rows, split_by_role in Hj. cbv zeta in Hj.
  rewrite kept_five, prepare_fmap in Hj.
  assert (forall (i : nat) (P : @part_row num -> Prop)
                 `{!forall y, Decision (P y)},
            (b, r) ∈ (fun r => (i, r))
                       <$> take 10 (filter P (prepared instance
                                                (uri_instance uri) <$> order_df)) ->
            b = i
            ∧ exists raw,
                raw ∈ order_df ∧ r = prepared instance (uri_instance uri) raw)
    as Hbucket.
  { intros i P ? Hin. apply list_elem_of_fmap in Hin as (r' & [= -> ->] & Hin).
    split; [done|].
    apply elem_of_take in Hin as (k & Hk & _).
    apply list_elem_of_lookup_2, list_elem_of_filter in Hk as [_ Hk].
    apply list_elem_of_fmap in Hk as (raw & -> & Hraw). by exists raw. }
  rewrite !elem_of_app in Hj.
  destruct Hj as [Hj|[Hj|[Hj|[Hj|Hj]]]].
  - apply Hbucket in Hj as [-> ?]. split; [lia|done].
  - apply Hbucket in Hj as [-> ?]. split; [lia|done].
  - apply Hbucket in Hj as [-> ?]. split; [lia|done].
  - apply Hbucket in Hj as [-> ?]. split; [lia|done].
  - rewrite !list_filter_filter in Hj.
    apply Hbucket in Hj as [-> ?]. split; [lia|done].
Qed.

Lemma four_runs_lookup {A} (a b c d : list A) (P j : nat) :
  length a = P -> length b = P -> length c = P -> (j < P)%nat ->
  (a ++ b ++ c ++ d) !! j = a !! j
  ∧ (a ++ b ++ c ++ d) !! (P + j)%nat = b !! j
  ∧ (a ++ b ++ c ++ d) !! (2 * P + j)%nat = c !! j
  ∧ (a ++ b ++ c ++ d) !! (3 * P + j)%nat = d !! j.
Proof.
  intros Ha Hb Hc Hj. split; [by rewrite lookup_app_l by lia|].
  split.
  { rewrite lookup_app_r by lia. rewrite lookup_app_l by lia. f_equal. lia. }
  split.
  { rewrite lookup_app_r by lia. rewrite lookup_app_r by lia.
    rewrite lookup_app_l by lia. f_equal. lia. }
  rewrite lookup_app_r by lia. rewrite lookup_app_r by lia.
  rewrite lookup_app_r by lia. f_equal. lia.
Qed.

End sankey_proofs.

Section sankey_claims.
Context {num : Type} `{PyNum num}.

Lemma sankey_spec (order_df : list (@order_row num))
    (url uri title instance : string) :
  has_tt o_title order_df = true ->
  sankey order_df url uri title instance
  = Some (data_frame_T
            (flow_columns (kept_rows order_df uri instance) url title)).
Proof. intros Htt. unfold sankey. by rewrite sankey_lists_spec. Qed.

(** Without any title in the query result, and so for a result without
    rows, the [drop] of [sankey] raises. *)
Lemma sankey_no_title (order_df : list (@order_row num))
    (url uri title instance : string) :
  has_tt o_title order_df = false ->
  sankey order_df url uri title instance = None.
Proof. intros Htt. unfold sankey, sankey_lists. by rewrite Htt. Qed.

Lemma preceding_kept_bound (order_df : list (@order_row num)) :
  (preceding_kept order_df <= 50)%nat.
Proof.
  unfold preceding_kept, bucket_sizes.
  cbn [fmap list_fmap sum_list sum_list_with]. unfold id. lia.
Qed.

(** C2 (amended).  For a query result in which some row has a title (the
    [drop] raises [KeyError] otherwise), with [P] the number of preceding rows
    kept, at most ten from each of the five role buckets, the table [sankey]
    builds has exactly
    [11 + 2*P] node records (rows with a node label, colour and link) and
    exactly [4*P] link records (rows with a source, target, value and link
    colour): one run of [P] links for each of the four tiers. *)
Theorem flow_graph_record_counts (order_df : list (@order_row num))
    (url uri title instance : string) :
  let P := preceding_kept order_df in
  has_tt o_title order_df = true ->
  exists skey,
    sankey order_df url uri title instance = Some skey
    ∧ (P <= 50)%nat
    ∧ length (records Node_Label skey) = (11 + 2 * P)%nat
    ∧ length (records Color skey) = (11 + 2 * P)%nat
    ∧ length (records Link skey) = (11 + 2 * P)%nat
    ∧ length (records Source skey) = (4 * P)%nat
    ∧ length (records Target skey) = (4 * P)%nat
    ∧ length (records Value skey) = (4 * P)%nat
    ∧ length (records Link_Color skey) = (4 * P)%nat.
Proof.
  intros P Htt. eexists. split; [by apply sankey_spec|].
  split; [apply preceding_kept_bound|].
  set (c := flow_columns _ _ _).
  pose proof (data_frame_T_cells c) as Hc.
  rewrite (records_length Node_Label _ (col_label c)) by apply Hc.
  rewrite (records_length Color _ (col_color c)) by apply Hc.
  rewrite (records_length Link _ (col_link c)) by apply Hc.
  rewrite (records_length Source _ (col_source c)) by apply Hc.
  rewrite (records_length Target _ (col_target c)) by apply Hc.
  rewrite (records_length Value _ (col_value c)) by apply Hc.
  rewrite (records_length Link_Color _ (col_link_color c)) by apply Hc.
  subst c P. rewrite <- (kept_rows_length order_df uri instance).
  unfold flow_columns. cbv zeta.
  cbn [col_source col_target col_value col_color col_label col_link
       col_link_color].
  rewrite !length_app, !length_fmap, !length_replicate, !length_py_range.
  unfold node_colours. cbn [length]. repeat split; lia.
Qed.

(** C5.  For a query result in which some row has a title (the [drop]
    raises [KeyError] otherwise), the node records of the table [sankey]
    builds sit at rows
    [0 .. 10 + 2*P] in construction order: the five bucket headers at 0-4,
    the kept preceding parts from row 5 on, one node for the part of
    interest, the same parts again as following nodes, and the five bucket
    footers.  Every source and every target of a row refers to a row that
    holds a node. *)
Theorem flow_graph_node_order (order_df : list (@order_row num))
    (url uri poi_title instance : string) :
  let K := kept_rows order_df uri instance in
  has_tt o_title order_df = true ->
  exists skey,
    sankey order_df url uri poi_title instance = Some skey
    ∧ length K = preceding_kept order_df
    ∧ (forall i : nat,
         skey !! i ≫= Node_Label
         = ([ "Preceeding Promoters"; "Preceeding RBS"; "Preceeding CDS";
              "Preceeding Terminator"; "Preceeding Other" ]
            ++ ((fun p => title p.2) <$> K) ++ [poi_title]
            ++ ((fun p => title p.2) <$> K)
            ++ [ "Following Promoters"; "Following RBS"; "Following CDS";
                 "Following Terminator"; "Following Other" ]) !! i)
    ∧ (forall i : nat,
         skey !! i ≫= Link
         = ([ "NA"; "NA"; "NA"; "NA"; "NA" ]
            ++ ((fun p => deff p.2) <$> K) ++ [url]
            ++ ((fun p => deff p.2) <$> K)
            ++ [ "NA"; "NA"; "NA"; "NA"; "NA" ]) !! i)
    ∧ (forall i : nat,
         skey !! i ≫= Color
         = ([ "#04BB3D"; "#956EDB"; "#779DCC"; "#CA3A20"; "#FF8000" ]
            ++ ((fun p => bucket_node_colour p.1) <$> K) ++ [ "#000000" ]
            ++ ((fun p => bucket_node_colour p.1) <$> K)
            ++ [ "#04BB3D"; "#956EDB"; "#779DCC"; "#CA3A20"; "#FF8000" ]) !! i)
    ∧ (forall (i : nat) (row : @skey_row num) (s : Z),
         skey !! i = Some row ->
         Source row = Some s ∨ Target row = Some s ->
         0 <= s < 11 + 2 * Z.of_nat (length K)
         ∧ exists node,
             skey !! Z.to_nat s = Some node ∧ is_Some (Node_Label node)).
Proof.
  intros K Htt. eexists. split; [by apply sankey_spec|].
  split; [apply kept_rows_length|].
  fold K. set (c := flow_columns K url poi_title).
  pose proof (data_frame_T_cells c) as Hc.
  split; [intros i; apply Hc|].
  split; [intros i; apply Hc|].
  split; [intros i; apply Hc|].
  assert (Forall (fun p => (p.1 < 5)%nat) K) as HK.
  { apply Forall_lookup. intros j [b r] Hj.
    by destruct (kept_rows_origin _ _ _ _ _ _ Hj). }
  assert (Forall (fun s => 0 <= s < 11 + 2 * Z.of_nat (length K))
            (col_source c ++ col_target c)) as Hends.
  { subst c. unfold flow_columns. cbv zeta. cbn [col_source col_target].
    unfold py_range.
    rewrite !Forall_app, !Forall_fmap, !Forall_seqZ.
    repeat split; try (apply Forall_replicate); try (intros; lia);
      (eapply Forall_impl; [exact HK|]); intros [b r]; simpl; lia. }
  intros i row s Hrow Hs.
  assert (0 <= s < 11 + 2 * Z.of_nat (length K)) as Hrange.
  { apply Forall_app in Hends as [Hsrc Htgt].
    destruct (Hc i) as (Hcs & Hct & _). rewrite Hrow in Hcs, Hct.
    simpl in Hcs, Hct. destruct Hs as [Hs|Hs]; rewrite Hs in *.
    - by apply (Forall_lookup_1 _ _ i s Hsrc).
    - by apply (Forall_lookup_1 _ _ i s Htgt). }
  split; [done|].
  destruct (Hc (Z.to_nat s)) as (_ & _ & _ & _ & Hlabel & _).
  destruct (lookup_lt_is_Some_2 (col_label c) (Z.to_nat s)) as [x Hx].
  { subst c. unfold flow_columns. cbv zeta. cbn [col_label].
    rewrite !length_app, !length_fmap. cbn [length]. lia. }
  rewrite Hx in Hlabel.
  destruct (data_frame_T c !! Z.to_nat s) as [node|]; [|done].
  exists node. split; [done|]. simpl in Hlabel. by rewrite Hlabel.
Qed.

(** C7.  For a query result in which some row has a title (the [drop]
    raises [KeyError] otherwise) and the [j]-th kept preceding row, a row of
    the query result in
    bucket [b] with count [count] and fraction [centfol]: the link from the
    bucket header to the part node (row [j]) and the link from the part node
    to the part of interest (row [P + j]) both have width
    [count * (1 - centfol)] and the link colour of bucket [b]; the link from
    the part of interest to the following node (row [2*P + j]) and the link
    from there to the bucket footer (row [3*P + j]) have width
    [centfol * count] and that same colour. *)
Theorem flow_graph_link_widths (order_df : list (@order_row num))
    (url uri title instance : string) :
  let K := kept_rows order_df uri instance in
  let P := length K in
  has_tt o_title order_df = true ->
  exists skey,
    sankey order_df url uri title instance = Some skey
    ∧ forall (j b : nat) (r : @part_row num),
        K !! j = Some (b, r) ->
        (exists raw, raw ∈ order_df
                     ∧ count r = o_count raw ∧ centfol r = o_centfol raw)
        ∧ (exists colour, link_colours !! b = Some colour
             ∧ skey !! j ≫= Link_Color = Some colour
             ∧ skey !! (P + j)%nat ≫= Link_Color = Some colour
             ∧ skey !! (2 * P + j)%nat ≫= Link_Color = Some colour
             ∧ skey !! (3 * P + j)%nat ≫= Link_Color = Some colour)
        ∧ skey !! j ≫= Source = Some (Z.of_nat b)
        ∧ skey !! j ≫= Target = Some (5 + Z.of_nat j)
        ∧ skey !! j ≫= Value
          = Some (num_mul (count r) (num_sub num_one (centfol r)))
        ∧ skey !! (P + j)%nat ≫= Source = Some (5 + Z.of_nat j)
        ∧ skey !! (P + j)%nat ≫= Target = Some (5 + Z.of_nat P)
        ∧ skey !! (P + j)%nat ≫= Value
          = Some (num_mul (count r) (num_sub num_one (centfol r)))
        ∧ skey !! (2 * P + j)%nat ≫= Source = Some (5 + Z.of_nat P)
        ∧ skey !! (2 * P + j)%nat ≫= Target
          = Some (6 + Z.of_nat P + Z.of_nat j)
        ∧ skey !! (2 * P + j)%nat ≫= Value
          = Some (num_mul (centfol r) (count r))
        ∧ skey !! (3 * P + j)%nat ≫= Source
          = Some (6 + Z.of_nat P + Z.of_nat j)
        ∧ skey !! (3 * P + j)%nat ≫= Target
          = Some (6 + 2 * Z.of_nat P + Z.of_nat b)
        ∧ skey !! (3 * P + j)%nat ≫= Value
          = Some (num_mul (centfol r) (count r)).
Proof.
  intros K P Htt. eexists. split; [by apply sankey_spec|].
  fold K. set (c := flow_columns K url title).
  intros j b r Hj.
  destruct (kept_rows_origin _ _ _ _ _ _ Hj) as (Hb & raw & Hraw & ->).
  split; [by exists raw|].
  assert (j < P)%nat as HjP by (by apply lookup_lt_Some in Hj).
  destruct (bucket_colours_lookup b [] Hb) as [Hlc _].
  assert (forall k, data_frame_T c !! k ≫= Link_Color = col_link_color c !! k)
    as Hcolour by (intros k; apply (data_frame_T_cells c k)).
  assert (forall k, data_frame_T c !! k ≫= Source = col_source c !! k)
    as Hsource by (intros k; apply (data_frame_T_cells c k)).
  assert (forall k, data_frame_T c !! k ≫= Target = col_target c !! k)
    as Htarget by (intros k; apply (data_frame_T_cells c k)).
  assert (forall k, data_frame_T c !! k ≫= Value = col_value c !! k)
    as Hvalue by (intros k; apply (data_frame_T_cells c k)).
  rewrite !Hcolour, !Hsource, !Htarget, !Hvalue.
  subst c. unfold flow_columns. cbv zeta.
  cbn [col_source col_target col_value col_link_color]. fold P.
  assert (py_range 5 (5 + Z.of_nat P) !! j = Some (5 + Z.of_nat j)) as Hr1.
  { unfold py_range. apply lookup_seqZ_lt. lia. }
  assert (py_range (6 + Z.of_nat P) (6 + 2 * Z.of_nat P) !! j
          = Some (6 + Z.of_nat P + Z.of_nat j)) as Hr2.
  { unfold py_range. apply lookup_seqZ_lt. lia. }
  assert (replicate P (5 + Z.of_nat P) !! j = Some (5 + Z.of_nat P)) as Hrep
    by (by apply lookup_replicate_2).
  assert (forall {B} (f : nat * @part_row num -> B), length (f <$> K) = P)
    as HlenK by (intros B f; apply length_fmap).
  assert (length (py_range 5 (5 + Z.of_nat P)) = P) as Hlen1
    by (rewrite length_py_range; lia).
  assert (length (replicate P (5 + Z.of_nat P)) = P) as Hlen2
    by apply length_replicate.
  assert (length (py_range (6 + Z.of_nat P) (6 + 2 * Z.of_nat P)) = P)
    as Hlen3 by (rewrite length_py_range; lia).
  destruct (four_runs_lookup
              ((fun p : nat * @part_row num => bucket_link_colour p.1) <$> K)
              ((fun p : nat * @part_row num => bucket_link_colour p.1) <$> K)
              ((fun p : nat * @part_row num => bucket_link_colour p.1) <$> K)
              ((fun p : nat * @part_row num => bucket_link_colour p.1) <$> K)
              P j (HlenK _ _) (HlenK _ _) (HlenK _ _) HjP)
    as (-> & -> & -> & ->).
  destruct (four_runs_lookup
              ((fun p : nat * @part_row num => Z.of_nat p.1) <$> K)
              (py_range 5 (5 + Z.of_nat P))
              (replicate P (5 + Z.of_nat P))
              (py_range (6 + Z.of_nat P) (6 + 2 * Z.of_nat P)) P j
              (HlenK _ _) Hlen1 Hlen2 HjP)
    as (-> & -> & -> & ->).
  destruct (four_runs_lookup
              (py_range 5 (5 + Z.of_nat P))
              (replicate P (5 + Z.of_nat P))
              (py_range (6 + Z.of_nat P) (6 + 2 * Z.of_nat P))
              ((fun b => b + (6 + 2 * Z.of_nat P))
                 <$> ((fun p : nat * @part_row num => Z.of_nat p.1) <$> K))
              P j Hlen1 Hlen2 Hlen3 HjP)
    as (-> & -> & -> & ->).
  destruct (four_runs_lookup
              ((fun p : nat * @part_row num =>
                  num_mul (count p.2) (num_sub num_one (centfol p.2))) <$> K)
              ((fun p : nat * @part_row num =>
                  num_mul (count p.2) (num_sub num_one (centfol p.2))) <$> K)
              ((fun p : nat * @part_row num =>
                  num_mul (centfol p.2) (count p.2)) <$> K)
              ((fun p : nat * @part_row num =>
                  num_mul (centfol p.2) (count p.2)) <$> K)
              P j (HlenK _ _) (HlenK _ _) (HlenK _ _) HjP)
    as (-> & -> & -> & ->).
  rewrite !list_lookup_fmap, !Hj, Hr1, Hr2, Hrep.
  cbn [fmap option_fmap option_map fst snd].
  split; [by exists (bucket_link_colour b)|].
  repeat split; f_equal; lia.
Qed.

End sankey_claims.

(** C2 (as stated, refuted).  Two promoters, one CDS and three other parts
    precede the part of interest: six rows are kept, and the table has 24
    link records, four per kept row, not [3 * 6 = 18]. *)
Lemma six_preceding_rows_give_24_links :
  preceding_kept six_preceding = 6%nat
  ∧ exists skey,
      sankey six_preceding gfp_url gfp_uri "GFP" dev_instance = Some skey
      ∧ length (records Node_Label skey) = 23%nat
      ∧ length (records Source skey) = 24%nat
      ∧ (24 ≠ 3 * 6)%nat.
Proof.
  split; [by vm_compute|]. eexists. split; [vm_compute; reflexivity|].
  split; [by vm_compute|]. split; [by vm_compute|]. lia.
Qed.

Lemma flow_graph_record_counts_witness :
  exists skey,
    sankey six_preceding gfp_url gfp_uri "GFP" dev_instance = Some skey
    ∧ length (records Node_Label skey) = 23%nat
    ∧ length (records Source skey) = 24%nat.
Proof.
  destruct (flow_graph_record_counts six_preceding gfp_url gfp_uri "GFP"
              dev_instance)
    as (skey & Hs & _ & Hn & _ & _ & Hl & _); [reflexivity|].
  exists skey. split; [exact Hs|]. split; [exact Hn|exact Hl].
Defined.

Lemma flow_graph_node_order_witness :
  exists skey,
    sankey six_preceding gfp_url gfp_uri "GFP" dev_instance = Some skey
    ∧ skey !! 5%nat ≫= Node_Label = Some "p1"
    ∧ skey !! 11%nat ≫= Node_Label = Some "GFP"
    ∧ skey !! 12%nat ≫= Node_Label = Some "p1"
    ∧ skey !! 22%nat ≫= Node_Label = Some "Following Other".
Proof.
  destruct (flow_graph_node_order six_preceding gfp_url gfp_uri "GFP"
              dev_instance)
    as (skey & Hs & _ & Hlabel & _); [reflexivity|].
  exists skey. split; [exact Hs|].
  repeat split; rewrite Hlabel; reflexivity.
Defined.

Lemma flow_graph_link_widths_witness :
  exists skey,
    sankey six_preceding gfp_url gfp_uri "GFP" dev_instance = Some skey
    ∧ skey !! 0%nat ≫= Value = Some (num_mul 8 (num_sub num_one 0.25))%Q
    ∧ skey !! 6%nat ≫= Value = Some (num_mul 8 (num_sub num_one 0.25))%Q
    ∧ skey !! 12%nat ≫= Value = Some (num_mul 0.25 8)%Q
    ∧ skey !! 18%nat ≫= Value = Some (num_mul 0.25 8)%Q.
Proof.
  destruct (flow_graph_link_widths six_preceding gfp_url gfp_uri "GFP"
              dev_instance)
    as (skey & Hs & Hrows); [reflexivity|].
  exists skey. split; [exact Hs|].
  destruct (Hrows 0%nat 0%nat
              (prepared dev_instance (uri_instance gfp_uri)
                 (mk_order 0.25 8 "https://synbiohub.org/p1" "p1" role_prom
                    None)))
    as (_ & _ & _ & _ & Hv1 & _ & _ & Hv2 & _ & _ & Hv3 & _ & _ & Hv4).
  { vm_compute. reflexivity. }
  repeat split; assumption.
Defined.

(** * Further properties *)

(** ** capitalise_each_word *)

Example capitalise_each_word_doc :
  capitalise_each_word "hello world. how are you today?"
  = Some "Hello World. How Are You Today?".
Proof. vm_compute. reflexivity. Qed.

Lemma get_list_ascii (s : string) (j : nat) :
  list_ascii_of_string s !! j = String.get j s.
Proof.
  revert j. induction s as [|c s IH]; intros [|j]; simpl; try done.
Qed.

Lemma space_indexes_spec (s : string) (z : Z) :
  z ∈ space_indexes s
  <-> exists j : nat, z = Z.of_nat j ∧ String.get j s = Some " "%char.
Proof.
  unfold space_indexes. rewrite list_elem_of_omap. split.
  - intros ([j c] & Hin & Hz). simpl in Hz.
    apply list_elem_of_lookup in Hin as (k & Hk).
    rewrite list_lookup_imap in Hk.
    destruct (list_ascii_of_string s !! k) as [c'|] eqn:Hc; [|done].
    simpl in Hk. injection Hk as <- <-.
    destruct (Ascii.eqb_spec c' " "%char) as [->|]; [|done].
    injection Hz as <-. exists k. by rewrite <- get_list_ascii.
  - intros (j & -> & Hj). exists (j, " "%char). split; [|done].
    apply list_elem_of_lookup. exists j.
    by rewrite list_lookup_imap, get_list_ascii, Hj.
Qed.

Lemma for_each_snoc {S} (body : nat -> S -> option S) (l : list nat) (i : nat)
    (st : S) :
  for_each body (l ++ [i]) st = for_each body l st ≫= body i.
Proof.
  revert st. induction l as [|j l IH]; intros st; simpl.
  - by destruct (body i st).
  - destruct (body j st); [apply IH|done].
Qed.

Lemma take_S_get (n : nat) (t : string) (c : ascii) :
  String.get n t = Some c ->
  PyStr.take (S n) t = PyStr.take n t +:+ String c "".
Proof.
  revert t. induction n as [|n IH]; intros [|a t]; simpl; try done.
  - by intros [= ->].
  - intros Hg. by rewrite <- (IH _ Hg).
Qed.

Lemma length_capitalised (fresh : bool) (s : string) :
  String.length (capitalised fresh s) = String.length s.
Proof.
  revert fresh. induction s as [|c s IH]; intros fresh; simpl; [done|].
  by rewrite IH.
Qed.

(** The character at position [i] of the result. *)
Lemma get_capitalised (fresh : bool) (s : string) (i : nat) :
  String.get i (capitalised fresh s)
  = (fun c =>
       if match i with
          | O => fresh
          | S j => bool_decide (String.get j s = Some " "%char)
          end
       then capitalize_char c else c) <$> String.get i s.
Proof.
  revert fresh i. induction s as [|c s IH]; intros fresh [|i]; simpl;
    try done.
  rewrite IH. destruct i as [|i]; simpl; [|done].
  destruct (Ascii.eqb_spec c " "%char) as [->|Hne].
  - by rewrite bool_decide_eq_true_2.
  - rewrite bool_decide_eq_false_2; [done|congruence].
Qed.

Lemma get_is_Some (s : string) (i : nat) :
  (i < String.length s)%nat -> is_Some (String.get i s).
Proof.
  revert i. induction s as [|c s IH]; intros i; simpl; [lia|].
  destruct i as [|i]; [by eexists|]. intros Hi. apply IH. lia.
Qed.

(** The test of the loop: [i - 1 in a or i == 0]. *)
Lemma capitalise_test (s : string) (i : nat) :
  bool_decide (Z.of_nat i - 1 ∈ space_indexes s) || (i =? 0)%nat
  = match i with
    | O => true
    | S j => bool_decide (String.get j s = Some " "%char)
    end.
Proof.
  destruct i as [|j].
  - by rewrite orb_true_r.
  - rewrite orb_false_r. apply bool_decide_ext.
    rewrite space_indexes_spec. split.
    + intros (k & Hk & Hg). by replace j with k by lia.
    + intros Hg. exists j. split; [lia|done].
Qed.

Lemma capitalise_loop (s : string) (n : nat) :
  (n <= String.length s)%nat ->
  for_each (capitalise_step s (space_indexes s)) (seq 0 n) ""
  = Some (PyStr.take n (capitalised true s)).
Proof.
  induction n as [|n IH]; intros Hn; [by destruct s|].
  rewrite seq_S, for_each_snoc, IH by lia. cbn [mbind option_bind Nat.add].
  unfold capitalise_step.
  destruct (get_is_Some s n) as [c Hc]; [lia|].
  rewrite Hc. cbn [mbind option_bind]. rewrite capitalise_test.
  rewrite (take_S_get n (capitalised true s)
             (if match n with
                 | O => true
                 | S j => bool_decide (String.get j s = Some " "%char)
                 end
              then capitalize_char c else c)).
  - by destruct (match n with O => true | S j => _ end).
  - by rewrite get_capitalised, Hc.
Qed.

Lemma capitalise_each_word_spec (s : string) :
  capitalise_each_word s = Some (capitalised true s).
Proof.
  unfold capitalise_each_word. rewrite capitalise_loop by done.
  f_equal. apply str_take_all. by rewrite length_capitalised.
Qed.

Lemma capitalize_char_idem (c : ascii) :
  capitalize_char (capitalize_char c) = capitalize_char c.
Proof. destruct c as [[] [] [] [] [] [] [] []]; reflexivity. Qed.

Lemma capitalize_char_space (c : ascii) :
  Ascii.eqb (capitalize_char c) " "%char = Ascii.eqb c " "%char.
Proof. destruct c as [[] [] [] [] [] [] [] []]; reflexivity. Qed.

Lemma capitalised_idem (fresh : bool) (s : string) :
  capitalised fresh (capitalised fresh s) = capitalised fresh s.
Proof.
  revert fresh. induction s as [|c s IH]; intros fresh; simpl; [done|].
  destruct fresh.
  - by rewrite capitalize_char_idem, capitalize_char_space, IH.
  - by rewrite IH.
Qed.

Lemma capitalised_words (fresh : bool) (s t : string) :
  capitalised fresh (s +:+ " " +:+ t)
  = capitalised fresh s +:+ " " +:+ capitalised true t.
Proof.
  revert fresh. induction s as [|c s IH]; intros fresh; simpl.
  - by destruct fresh.
  - by rewrite IH.
Qed.

(** X1.  [capitalise_each_word] returns on every (ASCII) string; the result
    has the length of the argument, its first character and every character
    that follows a space are capitalised, and every other character is the
    one of the argument. *)
Theorem capitalise_each_word_characters (s : string) :
  ascii_only s = true ->
  exists t,
    capitalise_each_word s = Some t
    ∧ String.length t = String.length s
    ∧ forall (i : nat) (c : ascii),
        String.get i s = Some c ->
        String.get i t
        = Some (if bool_decide (i = 0%nat
                                ∨ String.get (i - 1) s = Some " "%char)
                then capitalize_char c else c).
Proof.
  intros _. exists (capitalised true s).
  split; [apply capitalise_each_word_spec|].
  split; [apply length_capitalised|].
  intros i c Hc. rewrite get_capitalised, Hc. simpl. f_equal.
  destruct i as [|j].
  - by rewrite bool_decide_eq_true_2 by by left.
  - replace (S j - 1)%nat with j by lia.
    destruct (decide (String.get j s = Some " "%char)) as [Hs|Hs].
    + by rewrite !bool_decide_eq_true_2 by (done || by right).
    + rewrite !bool_decide_eq_false_2; [done| |done]. intros [?|?]; done.
Qed.

Lemma capitalise_each_word_characters_witness :
  exists t,
    capitalise_each_word "gfp generator" = Some t
    ∧ String.get 0 t = Some "G"%char
    ∧ String.get 4 t = Some "G"%char
    ∧ String.get 5 t = Some "e"%char.
Proof.
  destruct (capitalise_each_word_characters "gfp generator")
    as (t & Ht & _ & Hget); [reflexivity|].
  exists t. split; [exact Ht|].
  split; [apply (Hget 0%nat "g"%char); reflexivity|].
  split; [apply (Hget 4%nat "g"%char); reflexivity|].
  apply (Hget 5%nat "e"%char); reflexivity.
Defined.

(** X2.  Capitalising twice is capitalising once. *)
Theorem capitalise_each_word_idempotent (s t : string) :
  ascii_only s = true ->
  capitalise_each_word s = Some t -> capitalise_each_word t = Some t.
Proof.
  intros _. rewrite !capitalise_each_word_spec. intros [= <-].
  by rewrite capitalised_idem.
Qed.

Lemma capitalise_each_word_idempotent_witness :
  capitalise_each_word "Ribosome Binding Site" = Some "Ribosome Binding Site".
Proof.
  apply (capitalise_each_word_idempotent "ribosome binding site").
  - reflexivity.
  - vm_compute. reflexivity.
Defined.

(** X3.  Words are capitalised independently: the result for two strings
    joined by a space is the two results joined by a space. *)
Theorem capitalise_each_word_join (s t s' t' : string) :
  ascii_only s = true -> ascii_only t = true ->
  capitalise_each_word s = Some s' -> capitalise_each_word t = Some t' ->
  capitalise_each_word (s +:+ " " +:+ t) = Some (s' +:+ " " +:+ t').
Proof.
  intros _ _. rewrite !capitalise_each_word_spec. intros [= <-] [= <-].
  by rewrite capitalised_words.
Qed.

Lemma capitalise_each_word_join_witness :
  capitalise_each_word ("five prime" +:+ " " +:+ "utr")
  = Some ("Five Prime" +:+ " " +:+ "Utr").
Proof.
  apply capitalise_each_word_join; vm_compute; reflexivity.
Defined.

(** ** find_role_name *)

#[local] Arguments String.append !_ _ / : simpl nomatch.

Example find_role_name_cds :
  find_role_name cds_page "0000316" true
  = Some "<a href='https://www.ebi.ac.uk/ols/ontologies/so/terms?obo_id=SO:0000316'>Coding Sequences</a>".
Proof. vm_compute. reflexivity. Qed.

Lemma has_char_append (c : ascii) (s t : string) :
  has_char c (s +:+ t) = has_char c s || has_char c t.
Proof.
  induction s as [|a s IH]; simpl; [done|]. by rewrite IH, orb_assoc.
Qed.

Lemma prefix_head_differs (c x : ascii) (old s : string) :
  Ascii.eqb x c = false -> String.prefix (String c old) (String x s) = false.
Proof.
  intros Hx. simpl. destruct (ascii_dec c x) as [->|]; [|done].
  by rewrite Ascii.eqb_refl in Hx.
Qed.

(** Text without the first character of [old] is copied. *)
Lemma replace_from_pass (c : ascii) (old new a b : string) :
  has_char c a = false ->
  PyStr.replace_from (String c old) new 0 (a +:+ b)
  = a +:+ PyStr.replace_from (String c old) new 0 b.
Proof.
  intros Ha. induction a as [|x a IH]; [done|].
  simpl in Ha. apply orb_false_elim in Ha as [Hx Ha].
  change (String x a +:+ b) with (String x (a +:+ b)).
  cbn [PyStr.replace_from]. rewrite prefix_head_differs by done.
  rewrite IH by done. done.
Qed.

Lemma role_link_of_spec (role_number role_name : string) :
  has_char "R"%char role_number = false ->
  role_link_of role_number role_name
  = "<a href='https://www.ebi.ac.uk/ols/ontologies/so/terms?obo_id=SO:"
    +:+ role_number +:+ "'>" +:+ role_name +:+ "</a>".
Proof.
  intros HR. unfold role_link_of. cbv zeta.
  assert (PyStr.replace
            "<a href='https://www.ebi.ac.uk/ols/ontologies/so/terms?obo_id=SO:0000167'>Role</a>"
            "0000167" role_number
          = ("<a href='https://www.ebi.ac.uk/ols/ontologies/so/terms?obo_id=SO:"
             +:+ role_number +:+ "'>") +:+ "Role" +:+ "</a>") as ->.
  { rewrite !append_assoc. reflexivity. }
  unfold PyStr.replace.
  rewrite replace_from_pass.
  2:{ rewrite !has_char_append, HR. reflexivity. }
  rewrite replace_from_prefix by done.
  rewrite !append_assoc. reflexivity.
Qed.

Lemma replace_underscore (s : string) :
  has_char "_"%char (PyStr.replace s "_" " ") = false.
Proof.
  unfold PyStr.replace. induction s as [|c s IH]; [done|].
  cbn [PyStr.replace_from String.prefix String.length Nat.sub].
  destruct (ascii_dec "_"%char c) as [<-|Hne].
  - destruct s; simpl; simpl in IH; by rewrite ?IH.
  - simpl. rewrite IH, orb_false_r.
    apply Ascii.eqb_neq. congruence.
Qed.

Lemma capitalize_char_underscore (c : ascii) :
  Ascii.eqb (capitalize_char c) "_"%char = Ascii.eqb c "_"%char.
Proof. destruct c as [[] [] [] [] [] [] [] []]; reflexivity. Qed.

Lemma has_underscore_capitalised (fresh : bool) (s : string) :
  has_char "_"%char (capitalised fresh s) = has_char "_"%char s.
Proof.
  revert fresh. induction s as [|c s IH]; intros fresh; simpl; [done|].
  rewrite IH. destruct fresh; [|done]. by rewrite capitalize_char_underscore.
Qed.

(** X4.  For a role number without the letter [R] (it is a string of
    digits), [find_role_name] returns the anchor whose address ends with that
    number and whose text is the role name read from the page. *)
Theorem find_role_name_link (page role_number : string) (plural : bool) :
  has_char "R"%char role_number = false ->
  exists role_name,
    role_name_of_page page role_number plural = Some role_name
    ∧ find_role_name page role_number plural
      = Some ("<a href='https://www.ebi.ac.uk/ols/ontologies/so/terms?obo_id=SO:"
              +:+ role_number +:+ "'>" +:+ role_name +:+ "</a>").
Proof.
  intros HR. unfold find_role_name.
  destruct (role_name_of_page page role_number plural) as [name|] eqn:Hn.
  - exists name. split; [done|]. simpl. by rewrite role_link_of_spec.
  - unfold role_name_of_page in Hn. cbv zeta in Hn.
    rewrite capitalise_each_word_spec in Hn. done.
Qed.

Lemma find_role_name_link_witness :
  find_role_name cds_page "0000316" false
  = Some ("<a href='https://www.ebi.ac.uk/ols/ontologies/so/terms?obo_id=SO:"
          +:+ "0000316" +:+ "'>" +:+ "Coding Sequence" +:+ "</a>").
Proof.
  destruct (find_role_name_link cds_page "0000316" false)
    as (name & Hname & ->); [reflexivity|].
  vm_compute in Hname. injection Hname as <-. reflexivity.
Defined.

(** X5.  The role name read from an (ASCII) page has no underscore, is
    already capitalised, and the plural form is that name followed by one
    [s]. *)
Theorem role_name_of_page_text (page role_number : string) :
  ascii_only page = true ->
  exists role_name,
    role_name_of_page page role_number false = Some role_name
    ∧ role_name_of_page page role_number true = Some (role_name +:+ "s")
    ∧ has_char "_"%char role_name = false
    ∧ capitalise_each_word role_name = Some role_name.
Proof.
  intros _. unfold role_name_of_page. cbv zeta.
  rewrite !capitalise_each_word_spec. cbn [mbind option_bind].
  eexists. split; [reflexivity|]. split; [reflexivity|].
  split.
  - by rewrite has_underscore_capitalised, replace_underscore.
  - rewrite capitalise_each_word_spec. f_equal. apply capitalised_idem.
Qed.

Lemma role_name_of_page_text_witness :
  role_name_of_page cds_page "0000316" false = Some "Coding Sequence"
  ∧ role_name_of_page cds_page "0000316" true = Some "Coding Sequences".
Proof.
  destruct (role_name_of_page_text cds_page "0000316")
    as (name & Hname & Hplural & _); [reflexivity|].
  assert (name = "Coding Sequence") as ->.
  { vm_compute in Hname. by injection Hname as <-. }
  split; [exact Hname|exact Hplural].
Defined.

(** ** input_data *)

Example input_data_gfp :
  input_data 200 only_poi gfp_uri
  = Ok {| i_self_df :=
            [ (0%nat,
               {| s_count := CountStr "2348"; s_deff := gfp_uri;
                  s_displayId := "BBa_E0040"; s_title := Some "GFP";
                  s_role := Some "0000316" |}) ];
          i_display_id := "BBa_E0040"; i_title := "GFP";
          i_role := Some "0000316"; i_count := CountStr "2348" |}.
Proof. vm_compute. reflexivity. Qed.

Example input_data_poi_second : input_data 200 poi_second gfp_uri = Raise KeyError.
Proof. vm_compute. reflexivity. Qed.

(** Only the first row of the query result carries the label 0. *)
Lemma label_0_filter (P : nat * self_row -> Prop)
    `{!forall p, Decision (P p)} (x0 : self_row) (rest : list self_row) :
  label_0 (filter P (imap pair (x0 :: rest)))
  = if decide (P (0%nat, x0)) then Some x0 else None.
Proof.
  rewrite imap_cons, filter_cons. unfold label_0.
  destruct (decide (P (0%nat, x0))) as [HP|HP].
  - cbn. by rewrite decide_True.
  - assert (list_find (fun p : nat * self_row => p.1 = 0%nat)
              (filter P (imap (pair ∘ S) rest)) = None) as ->; [|done].
    apply list_find_None, Forall_forall.
    intros [i r] [_ Hin]%list_elem_of_filter.
    apply elem_of_lookup_imap in Hin as (j & y & [= -> ->] & _). simpl. lia.
Qed.

Lemma self_df_rows (a : list bar_row) (uri : string) (i : nat) (row : self_row) :
  (i, row)
    ∈ filter (fun p : nat * self_row => s_deff p.2 = uri)
        (imap pair
           (zip_with (fun r p =>
              {| s_count := b_count r; s_deff := b_deff r;
                 s_displayId := b_displayId r; s_title := b_title r;
                 s_role := p !! 1%nat |}) a
              ((fun r => str_split (b_roletog r) "SO:") <$> a)))
  <-> exists r, a !! i = Some r ∧ b_deff r = uri
                ∧ row = {| s_count := b_count r; s_deff := b_deff r;
                           s_displayId := b_displayId r; s_title := b_title r;
                           s_role := str_split (b_roletog r) "SO:" !! 1%nat |}.
Proof.
  rewrite zip_with_fmap_r, zip_with_diag.
  rewrite list_elem_of_filter, elem_of_lookup_imap. simpl. split.
  - intros (Hd & j & y & [= -> ->] & Hy).
    rewrite list_lookup_fmap in Hy.
    destruct (a !! j) as [r|]; [|done]. simpl in Hy. injection Hy as <-.
    exists r. by simpl in Hd.
  - intros (r & Hr & Hd & ->). split; [done|].
    exists i. eexists. split; [done|]. by rewrite list_lookup_fmap, Hr.
Qed.

(** What a returned value of [input_data] says about its arguments. *)
Lemma input_data_inv (status_code : Z) (a : list bar_row)
    (uri : string) (res : input_result) :
  input_data status_code a uri = Ok res ->
  status_code = 200
  ∧ exists r0 rest,
      a = r0 :: rest
      ∧ b_deff r0 = uri
      ∧ i_display_id res = b_displayId r0
      ∧ i_count res = b_count r0
      ∧ i_role res = str_split (b_roletog r0) "SO:" !! 1%nat
      ∧ i_title res
        = match b_title r0 with
          | None => b_displayId r0
          | Some t => if String.eqb t "nan" then b_displayId r0 else t
          end
      ∧ forall (i : nat) (row : self_row),
          (i, row) ∈ i_self_df res
          <-> exists r, a !! i = Some r ∧ b_deff r = uri
                ∧ row = {| s_count := b_count r; s_deff := b_deff r;
                           s_displayId := b_displayId r;
                           s_title := b_title r;
                           s_role := str_split (b_roletog r) "SO:" !! 1%nat |}.
Proof.
  unfold input_data.
  destruct (Z.eqb_spec status_code 200) as [->|]; [|done]. cbn [negb].
  destruct a as [|r0 rest]; [done|].
  destruct (negb _); [done|]. destruct (forallb _ _); [done|].
  cbv zeta. pose proof (self_df_rows (r0 :: rest) uri) as Hrows.
  revert Hrows. set (self_df := filter _ _). intros Hrows.
  assert (label_0 self_df
          = if decide (b_deff r0 = uri)
            then Some {| s_count := b_count r0; s_deff := b_deff r0;
                         s_displayId := b_displayId r0;
                         s_title := b_title r0;
                         s_role := str_split (b_roletog r0) "SO:" !! 1%nat |}
            else None) as ->.
  { subst self_df. cbn [fmap list_fmap zip_with].
    rewrite label_0_filter. simpl. by destruct (decide (b_deff r0 = uri)). }
  destruct (decide (b_deff r0 = uri)) as [Hd|]; [|done].
  intros [= <-]. split; [done|]. exists r0, rest. simpl.
  repeat split; try done; apply Hrows.
Qed.

(** X6.  When [input_data] returns, the instance answered with status 200
    and the first row of the query result is the part itself: the display
    id, the count and the role are read from that first row, the title is
    the title of that row unless it is null or the string [nan], in which
    case it is the display id, and [self_df] holds exactly the rows of the
    result whose [deff] is the uri, under their original labels. *)
Theorem input_data_returns_first_row (status_code : Z) (a : list bar_row)
    (uri : string) (res : input_result) :
  input_data status_code a uri = Ok res ->
  status_code = 200
  ∧ exists r0 rest,
      a = r0 :: rest
      ∧ b_deff r0 = uri
      ∧ i_display_id res = b_displayId r0
      ∧ i_count res = b_count r0
      ∧ i_role res = str_split (b_roletog r0) "SO:" !! 1%nat
      ∧ i_title res
        = match b_title r0 with
          | None => b_displayId r0
          | Some t => if String.eqb t "nan" then b_displayId r0 else t
          end
      ∧ forall (i : nat) (row : self_row),
          (i, row) ∈ i_self_df res
          <-> exists r, a !! i = Some r ∧ b_deff r = uri
                ∧ row = {| s_count := b_count r; s_deff := b_deff r;
                           s_displayId := b_displayId r;
                           s_title := b_title r;
                           s_role := str_split (b_roletog r) "SO:" !! 1%nat |}.
Proof. exact (input_data_inv status_code a uri res). Qed.

Lemma input_data_returns_first_row_witness :
  exists res,
    input_data 200 only_poi gfp_uri = Ok res
    ∧ i_display_id res = "BBa_E0040" ∧ i_role res = Some "0000316".
Proof.
  destruct (input_data 200 only_poi gfp_uri) as [res|e] eqn:Hres;
    [|vm_compute in Hres; discriminate Hres].
  exists res. split; [done|].
  destruct (input_data_returns_first_row 200 only_poi gfp_uri res Hres)
    as (_ & r0 & rest & Ha & _ & Hid & _ & Hrole & _).
  injection Ha as <- <-. split; [exact Hid|exact Hrole].
Defined.

(** X7.  [input_data] returns whenever the instance answers with status
    200, the first row of the query result is the part itself, every role
    splits at [SO:] into at most two pieces and some role into exactly two,
    and some row has a title. *)
Theorem input_data_succeeds (status_code : Z) (r0 : bar_row)
    (rest : list bar_row) (uri : string) :
  status_code = 200 ->
  b_deff r0 = uri ->
  max_list (length <$> ((fun r => str_split (b_roletog r) "SO:")
                          <$> r0 :: rest)) = 2%nat ->
  (exists r, r ∈ r0 :: rest ∧ is_Some (b_title r)) ->
  exists res, input_data status_code (r0 :: rest) uri = Ok res.
Proof.
  intros -> Hd Hmax (r & Hin & Ht). unfold input_data.
  cbn [negb Z.eqb Pos.eqb].
  rewrite Hmax. cbn [Nat.eqb negb].
  destruct (forallb _ _) eqn:Hall.
  { rewrite forallb_forall in Hall.
    specialize (Hall r (proj1 (list_elem_of_In _ _) Hin)).
    by rewrite bool_decide_eq_true_2 in Hall. }
  cbv zeta. cbn [fmap list_fmap zip_with].
  rewrite label_0_filter. simpl. rewrite decide_True by done. by eexists.
Qed.

Lemma input_data_succeeds_witness :
  exists res, input_data 200 only_poi gfp_uri = Ok res.
Proof.
  apply (input_data_succeeds 200
           (mk_bar "2348" "https://synbiohub.org/public/igem/BBa_E0040/1"
              "BBa_E0040" "http://identifiers.org/so/SO:0000316" (Some "GFP"))
           [] gfp_uri).
  - reflexivity.
  - reflexivity.
  - vm_compute. reflexivity.
  - eexists. split; [apply list_elem_of_here|]. by eexists.
Defined.

(** *** The role number *)

Lemma split_from_skip (sep cur x rest : string) :
  split_from sep (String.length x) cur (x +:+ rest)
  = split_from sep 0 cur rest.
Proof.
  induction x as [|a x IH]; simpl; [|done]. by destruct rest.
Qed.

Lemma split_from_pass (c : ascii) (sep cur a b : string) :
  has_char c a = false ->
  split_from (String c sep) 0 cur (a +:+ b)
  = split_from (String c sep) 0 (cur +:+ a) b.
Proof.
  revert cur. induction a as [|x a IH]; intros cur Ha.
  - by rewrite append_nil_r.
  - simpl in Ha. apply orb_false_elim in Ha as [Hx Ha].
    change (String x a +:+ b) with (String x (a +:+ b)).
    cbn [split_from]. rewrite prefix_head_differs by done.
    rewrite IH by done. f_equal. rewrite append_assoc. done.
Qed.

Lemma split_from_sep (sep cur rest : string) :
  sep ≠ "" ->
  split_from sep 0 cur (sep +:+ rest) = cur :: split_from sep 0 "" rest.
Proof.
  destruct sep as [|c sep]; [done|]. intros _.
  change (String c sep +:+ rest) with (String c (sep +:+ rest)).
  cbn [split_from].
  change (String c (sep +:+ rest)) with (String c sep +:+ rest).
  rewrite prefix_append. f_equal.
  cbn [String.length]. rewrite Nat.sub_1_r. cbn [Nat.pred].
  apply split_from_skip.
Qed.

(** A role identifier splits into what precedes [SO:] and the number. *)
Lemma str_split_role (pre n : string) :
  has_char "S"%char pre = false -> has_char "S"%char n = false ->
  str_split (pre +:+ "SO:" +:+ n) "SO:" = [pre; n].
Proof.
  intros Hpre Hn. unfold str_split.
  rewrite split_from_pass by done.
  rewrite split_from_sep by done. f_equal.
  pose proof (split_from_pass "S" "O:" "" n "" Hn) as Hs.
  rewrite append_nil_r in Hs. exact Hs.
Qed.

(** X8.  When the role of the part is [http://identifiers.org/so/SO:]
    followed by a number (a string without the letter [S]), the role
    [input_data] returns is that number, and the row the ranked-table
    builders make from it carries the original role identifier again. *)
Theorem input_data_role_round_trip (status_code : Z) (r0 : bar_row)
    (rest : list bar_row) (uri n : string) (res : input_result) :
  input_data status_code (r0 :: rest) uri = Ok res ->
  b_roletog r0 = "http://identifiers.org/so/SO:" +:+ n ->
  has_char "S"%char n = false ->
  i_role res = Some n
  ∧ forall (display_id title part_url : string) (count : Z),
      b_roletog (poi_row display_id title n count part_url) = b_roletog r0.
Proof.
  intros Hres Hrole Hn.
  destruct (input_data_inv _ _ _ _ Hres)
    as (_ & r0' & rest' & [= <- <-] & _ & _ & _ & -> & _).
  rewrite Hrole. split; [|done].
  change ("http://identifiers.org/so/SO:" +:+ n)
    with ("http://identifiers.org/so/" +:+ "SO:" +:+ n).
  by rewrite str_split_role.
Qed.

Lemma input_data_role_round_trip_witness :
  exists res,
    input_data 200 only_poi gfp_uri = Ok res ∧ i_role res = Some "0000316".
Proof.
  destruct (input_data 200 only_poi gfp_uri) as [res|e] eqn:Hres;
    [|vm_compute in Hres; discriminate Hres].
  exists res. split; [done|].
  apply (input_data_role_round_trip 200
           (mk_bar "2348" "https://synbiohub.org/public/igem/BBa_E0040/1"
              "BBa_E0040" "http://identifiers.org/so/SO:0000316" (Some "GFP"))
           [] gfp_uri "0000316" res Hres); reflexivity.
Defined.

(** ** The ranked tables, row by row *)

(** Either builder returns the shared frame with a colour for each row. *)
Lemma builders_rows (bindings : list bar_row)
    (uri instance display_id title role : string) (count : Z)
    (t : list ranked_row) :
  most_used_bar bindings uri instance display_id title role count = Some t
  ∨ most_used_by_type_bar bindings uri instance display_id title role count
    = Some t ->
  exists bar_df colours,
    ranked_rows bindings uri instance display_id title role count = Some bar_df
    ∧ length colours = length bar_df
    ∧ t = add_color_and_title bar_df colours.
Proof.
  unfold most_used_bar, most_used_by_type_bar.
  destruct (ranked_rows _ _ _ _ _ _ _) as [bar_df|]; simpl.
  2:{ intros [?|?]; done. }
  intros [Ht|Ht]; injection Ht as <-; eexists bar_df, _;
    (split; [done|]); (split; [|done]).
  - apply colours_length.
  - apply length_join_replicate_singleton.
Qed.

Lemma add_color_and_title_lookup (bar_df : list bar_row)
    (colours : list string) (i : nat) (row : ranked_row) :
  add_color_and_title bar_df colours !! i = Some row ->
  exists r c,
    bar_df !! i = Some r ∧ colours !! i = Some c
    ∧ r_count row = b_count r ∧ r_deff row = b_deff r
    ∧ r_displayId row = b_displayId r ∧ r_roletog row = b_roletog r
    ∧ r_title row = default (b_displayId r) (b_title r)
    ∧ r_color row = c.
Proof.
  unfold add_color_and_title.
  intros (r & c & -> & Hr & Hc)%lookup_zip_with_Some.
  exists r, c. by repeat split.
Qed.

(** The rows of the table of either builder, one by one. *)
Lemma builders_table (bindings : list bar_row)
    (uri instance display_id title role : string) (count : Z)
    (t : list ranked_row) :
  most_used_bar bindings uri instance display_id title role count = Some t
  ∨ most_used_by_type_bar bindings uri instance display_id title role count
    = Some t ->
  let pool := candidate_pool bindings display_id in
  length t = (length pool `min` 11)%nat
  ∧ (forall (i : nat) (row : ranked_row),
       (i < length t - 1)%nat -> t !! i = Some row ->
       exists c,
         pool !! i = Some c
         ∧ r_displayId row = b_displayId c
         ∧ r_count row = b_count c
         ∧ r_roletog row = b_roletog c
         ∧ r_deff row = uri_to_url_str (b_deff c) instance (uri_instance uri)
         ∧ r_title row = default (b_displayId c) (b_title c))
  ∧ exists row,
      t !! (length t - 1)%nat = Some row
      ∧ r_displayId row = display_id
      ∧ r_title row = title
      ∧ r_count row = CountInt count
      ∧ r_roletog row = "http://identifiers.org/so/SO:" +:+ role
      ∧ r_deff row = uri_to_url_str uri instance (uri_instance uri).
Proof.
  intros Ht pool.
  destruct (builders_rows _ _ _ _ _ _ _ t Ht) as (df & cs & Hdf & Hcs & ->).
  rewrite ranked_rows_spec in Hdf. cbv zeta in Hdf. fold pool in Hdf.
  destruct (has_tt b_title bindings); [|done].
  destruct pool as [|r0 pool'] eqn:Hpool; [done|]. rewrite <- Hpool in *.
  assert (1 <= length pool)%nat as Hk by (rewrite Hpool; simpl; lia).
  clear Hpool. injection Hdf as <-.
  set (m := (length pool `min` 11 - 1)%nat) in *.
  set (resolved := fun r : bar_row => _) in *.
  set (poi := poi_row _ _ _ _ _) in *.
  assert (length (add_color_and_title ((resolved <$> take m pool) ++ [poi]) cs)
          = S m) as Hlen.
  { rewrite add_color_and_title_length by done.
    rewrite length_app, length_fmap, length_take. simpl. lia. }
  rewrite Hlen. split; [lia|]. replace (S m - 1)%nat with m by lia. split.
  - intros i row Hi Hrow.
    apply add_color_and_title_lookup in Hrow
      as (r & c & Hr & _ & Hc1 & Hc2 & Hc3 & Hc4 & Hc5 & _).
    rewrite lookup_app_l in Hr by (rewrite length_fmap, length_take; lia).
    rewrite list_lookup_fmap, lookup_take_lt in Hr by done.
    destruct (pool !! i) as [c0|]; [|done]. simpl in Hr. injection Hr as <-.
    exists c0. subst resolved. simpl in *. by repeat split.
  - destruct (lookup_lt_is_Some_2
                (add_color_and_title ((resolved <$> take m pool) ++ [poi]) cs) m)
      as [row Hrow]; [lia|].
    exists row. split; [done|].
    apply add_color_and_title_lookup in Hrow
      as (r & c & Hr & _ & Hc1 & Hc2 & Hc3 & Hc4 & Hc5 & _).
    rewrite lookup_app_r in Hr by (rewrite length_fmap, length_take; lia).
    rewrite length_fmap, length_take in Hr.
    replace (m - m `min` length pool)%nat with 0%nat in Hr by lia.
    injection Hr as <-. subst poi. simpl in *. by repeat split.
Qed.

(** X9.  In the table either builder returns, with [n] rows: row [i] for
    [i < n - 1] is candidate [i] of the query result (the rows of the part
    of interest left out), with its count, display id and role, its url
    resolved, and its display id for title when it has none; the last row
    holds the display id, title, count and resolved url of the part of
    interest, with the role [http://identifiers.org/so/SO:] followed by its
    role number. *)
Theorem ranked_table_rows (bindings : list bar_row)
    (uri instance display_id title role : string) (count : Z)
    (t : list ranked_row) :
  most_used_bar bindings uri instance display_id title role count = Some t
  ∨ most_used_by_type_bar bindings uri instance display_id title role count
    = Some t ->
  let pool := candidate_pool bindings display_id in
  length t = (length pool `min` 11)%nat
  ∧ (forall (i : nat) (row : ranked_row),
       (i < length t - 1)%nat -> t !! i = Some row ->
       exists c,
         pool !! i = Some c
         ∧ r_displayId row = b_displayId c
         ∧ r_count row = b_count c
         ∧ r_roletog row = b_roletog c
         ∧ r_deff row = uri_to_url_str (b_deff c) instance (uri_instance uri)
         ∧ r_title row = default (b_displayId c) (b_title c))
  ∧ exists row,
      t !! (length t - 1)%nat = Some row
      ∧ r_displayId row = display_id
      ∧ r_title row = title
      ∧ r_count row = CountInt count
      ∧ r_roletog row = "http://identifiers.org/so/SO:" +:+ role
      ∧ r_deff row = uri_to_url_str uri instance (uri_instance uri).
Proof. exact (builders_table bindings uri instance display_id title role count t). Qed.

Lemma ranked_table_rows_witness :
  exists t row,
    most_used_bar three_candidates gfp_uri dev_instance "BBa_E0040" "GFP"
      "0000316" 2348 = Some t
    ∧ t !! 2%nat = Some row
    ∧ r_displayId row = "BBa_E0040"
    ∧ r_deff row = gfp_url.
Proof.
  destruct (most_used_bar three_candidates gfp_uri dev_instance "BBa_E0040"
              "GFP" "0000316" 2348) as [t|] eqn:Ht; [|vm_compute in Ht; done].
  destruct (ranked_table_rows three_candidates gfp_uri dev_instance
              "BBa_E0040" "GFP" "0000316" 2348 t (or_introl Ht))
    as (Hlen & _ & row & Hrow & Hid & _ & _ & _ & Hurl).
  assert (length t = 3%nat) as Hl by (rewrite Hlen; reflexivity).
  rewrite Hl in Hrow. exists t, row.
  split; [done|]. split; [exact Hrow|]. split; [exact Hid|].
  rewrite Hurl. reflexivity.
Defined.

(** X10.  [most_used_by_type_bar] gives every row of its table one colour,
    the colour of the role number it was called with (orange when that role
    is none of the four), whatever the roles of the rows are; it is the
    colour [most_used_bar] gives the row of the part of interest. *)
Theorem by_type_single_colour (bindings : list bar_row)
    (uri instance display_id title role : string) (count : Z)
    (t : list ranked_row) :
  most_used_by_type_bar bindings uri instance display_id title role count
  = Some t ->
  let colour :=
    default "rgba(255, 128,0,1)"
      (colormap !! ("http://identifiers.org/so/SO:" +:+ role)) in
  (forall (i : nat) (row : ranked_row), t !! i = Some row -> r_color row = colour)
  ∧ exists t' row',
      most_used_bar bindings uri instance display_id title role count = Some t'
      ∧ last t' = Some row'
      ∧ r_color row' = colour.
Proof.
  intros Ht colour.
  assert (PyStr.replace "http://identifiers.org/so/SO:0000167" "0000167" role
          = "http://identifiers.org/so/SO:" +:+ role) as Hrole.
  { rewrite <- (append_nil_r role) at 2. reflexivity. }
  split.
  - intros i row Hrow. unfold most_used_by_type_bar in Ht.
    rewrite Hrole in Ht.
    destruct (ranked_rows _ _ _ _ _ _ _) as [df|]; [|done].
    cbn [mbind option_bind] in Ht. cbv zeta in Ht.
    injection Ht as <-.
    apply add_color_and_title_lookup in Hrow
      as (r & c & _ & Hc & _ & _ & _ & _ & _ & ->).
    unfold orange in Hc. fold colour in Hc.
    apply list_elem_of_lookup_2 in Hc. clear -Hc.
    induction (length df) as [|n IH]; simpl in Hc.
    + by apply elem_of_nil in Hc.
    + apply elem_of_cons in Hc as [->|Hc]; [done|by apply IH].
  - destruct (builders_rows _ _ _ _ _ _ _ t (or_intror Ht))
      as (df & _ & Hdf & _ & _).
    destruct (builders_succeed _ _ _ _ _ _ _ _ Hdf) as (t' & _ & Ht' & _).
    destruct (builders_table _ _ _ _ _ _ _ t' (or_introl Ht'))
      as (_ & _ & row' & Hrow' & _ & _ & _ & Hrt & _).
    exists t', row'. split; [done|]. split.
    { rewrite last_lookup. rewrite <- Hrow'. f_equal. lia. }
    rewrite (most_used_bar_colour _ _ _ _ _ _ _ t' _ row' Ht' Hrow').
    by rewrite Hrt.
Qed.

Lemma by_type_single_colour_witness :
  exists t r0 r1,
    most_used_by_type_bar three_candidates gfp_uri dev_instance "BBa_E0040"
      "GFP" "0000316" 2348 = Some t
    ∧ t !! 0%nat = Some r0 ∧ r_color r0 = "rgba(119,157,205,1)"
    ∧ t !! 1%nat = Some r1 ∧ r_color r1 = "rgba(119,157,205,1)".
Proof.
  destruct (most_used_by_type_bar three_candidates gfp_uri dev_instance
              "BBa_E0040" "GFP" "0000316" 2348) as [t|] eqn:Ht;
    [|vm_compute in Ht; done].
  destruct (by_type_single_colour three_candidates gfp_uri dev_instance
              "BBa_E0040" "GFP" "0000316" 2348 t Ht) as [Hall _].
  assert (exists r0 r1, t !! 0%nat = Some r0 ∧ t !! 1%nat = Some r1)
    as (r0 & r1 & H0 & H1).
  { vm_compute in Ht. injection Ht as <-. by eexists _, _. }
  exists t, r0, r1. split; [done|]. split; [done|].
  split; [exact (Hall 0%nat r0 H0)|]. split; [done|exact (Hall 1%nat r1 H1)].
Defined.

(** X11.  The two builders differ in the colours only: called with the same
    arguments they return tables of the same height whose rows agree on
    count, url, display id, role and title. *)
Theorem builders_agree_but_colour (bindings : list bar_row)
    (uri instance display_id title role : string) (count : Z)
    (t1 t2 : list ranked_row) :
  most_used_bar bindings uri instance display_id title role count = Some t1 ->
  most_used_by_type_bar bindings uri instance display_id title role count
  = Some t2 ->
  length t1 = length t2
  ∧ forall (i : nat) (r1 r2 : ranked_row),
      t1 !! i = Some r1 -> t2 !! i = Some r2 ->
      r_count r1 = r_count r2 ∧ r_deff r1 = r_deff r2
      ∧ r_displayId r1 = r_displayId r2 ∧ r_roletog r1 = r_roletog r2
      ∧ r_title r1 = r_title r2.
Proof.
  intros H1 H2.
  destruct (builders_rows _ _ _ _ _ _ _ t1 (or_introl H1))
    as (df1 & cs1 & Hdf1 & Hcs1 & ->).
  destruct (builders_rows _ _ _ _ _ _ _ t2 (or_intror H2))
    as (df2 & cs2 & Hdf2 & Hcs2 & ->).
  rewrite Hdf1 in Hdf2. injection Hdf2 as <-.
  split; [by rewrite !add_color_and_title_length|].
  intros i r1 r2
    (a1 & c1 & Ha1 & _ & -> & -> & -> & -> & -> & _)%add_color_and_title_lookup
    (a2 & c2 & Ha2 & _ & -> & -> & -> & -> & -> & _)%add_color_and_title_lookup.
  rewrite Ha1 in Ha2. by injection Ha2 as <-.
Qed.

Lemma builders_agree_but_colour_witness :
  exists t1 t2,
    most_used_bar three_candidates gfp_uri dev_instance "BBa_E0040" "GFP"
      "0000316" 2348 = Some t1
    ∧ most_used_by_type_bar three_candidates gfp_uri dev_instance "BBa_E0040"
        "GFP" "0000316" 2348 = Some t2
    ∧ length t1 = length t2.
Proof.
  destruct (most_used_bar three_candidates gfp_uri dev_instance "BBa_E0040"
              "GFP" "0000316" 2348) as [t1|] eqn:H1; [|vm_compute in H1; done].
  destruct (most_used_by_type_bar three_candidates gfp_uri dev_instance
              "BBa_E0040" "GFP" "0000316" 2348) as [t2|] eqn:H2;
    [|vm_compute in H2; done].
  exists t1, t2. split; [done|]. split; [done|].
  apply (builders_agree_but_colour three_candidates gfp_uri dev_instance
           "BBa_E0040" "GFP" "0000316" 2348 t1 t2 H1 H2).
Defined.

(** X12.  The url in the row of the part of interest always begins with the
    instance the builders were called with. *)
Theorem focal_url_points_at_instance (bindings : list bar_row)
    (uri instance display_id title role : string) (count : Z)
    (t : list ranked_row) (row : ranked_row) :
  most_used_bar bindings uri instance display_id title role count = Some t
  ∨ most_used_by_type_bar bindings uri instance display_id title role count
    = Some t ->
  last t = Some row ->
  String.prefix instance (r_deff row) = true.
Proof.
  intros Ht Hlast.
  destruct (builders_table _ _ _ _ _ _ _ t Ht)
    as (_ & _ & row' & Hrow' & _ & _ & _ & _ & Hurl).
  rewrite last_lookup in Hlast.
  replace (Nat.pred (length t)) with (length t - 1)%nat in Hlast by lia.
  rewrite Hrow' in Hlast. injection Hlast as <-. rewrite Hurl.
  destruct (decide (uri_instance uri = instance)) as [<-|Hne].
  - rewrite uri_to_url_str_same. apply uri_instance_prefix.
  - rewrite uri_to_url_str_match by done.
    apply replace_begins, uri_instance_prefix.
Qed.

Lemma focal_url_points_at_instance_witness :
  exists t row,
    most_used_bar three_candidates gfp_uri dev_instance "BBa_E0040" "GFP"
      "0000316" 2348 = Some t
    ∧ last t = Some row
    ∧ String.prefix dev_instance (r_deff row) = true.
Proof.
  destruct (most_used_bar three_candidates gfp_uri dev_instance "BBa_E0040"
              "GFP" "0000316" 2348) as [t|] eqn:Ht; [|vm_compute in Ht; done].
  destruct (last t) as [row|] eqn:Hrow.
  2:{ vm_compute in Ht. injection Ht as <-. discriminate Hrow. }
  exists t, row. split; [done|]. split; [done|].
  apply (focal_url_points_at_instance three_candidates gfp_uri dev_instance
           "BBa_E0040" "GFP" "0000316" 2348 t row (or_introl Ht) Hrow).
Defined.

(** ** The flow graph, read from the query result *)

Lemma bucket_of_role_spec (role : string) :
  (role = role_prom <-> bucket_of_role role = 0%nat)
  ∧ (role = role_rbs <-> bucket_of_role role = 1%nat)
  ∧ (role = role_cds <-> bucket_of_role role = 2%nat)
  ∧ (role = role_term <-> bucket_of_role role = 3%nat)
  ∧ (role ≠ role_prom ∧ role ≠ role_rbs ∧ role ≠ role_cds ∧ role ≠ role_term
     <-> bucket_of_role role = 4%nat).
Proof.
  unfold bucket_of_role.
  destruct (String.eqb_spec role role_prom) as [->|Hp].
  { repeat split; try done; intros; try lia; try tauto. }
  destruct (String.eqb_spec role role_rbs) as [->|Hr].
  { repeat split; try done; intros; try lia; try tauto. }
  destruct (String.eqb_spec role role_cds) as [->|Hc].
  { repeat split; try done; intros; try lia; try tauto. }
  destruct (String.eqb_spec role role_term) as [->|Ht].
  { repeat split; try done; intros; try lia; try tauto. }
  repeat split; try done; intros; try lia; try tauto.
Qed.

Section sankey_extras.
Context {num : Type} `{PyNum num}.

Lemma filter_fmap {A B} (g : A -> B) (P : B -> Prop)
    `{!forall y, Decision (P y)} (l : list A) :
  filter P (g <$> l) = g <$> filter (fun x => P (g x)) l.
Proof.
  induction l as [|x l IH]; [done|].
  rewrite fmap_cons, !filter_cons.
  destruct (decide (P (g x))); simpl; by rewrite IH.
Qed.

Lemma take_bucket {A B} (g : A -> B) (P : B -> Prop) (Q : A -> Prop)
    `{!forall y, Decision (P y), !forall x, Decision (Q x)} (l : list A)
    (n : nat) :
  (forall x, P (g x) <-> Q x) ->
  take n (filter P (g <$> l)) = g <$> take n (filter Q l).
Proof.
  intros Hiff. rewrite filter_fmap, fmap_take. do 2 f_equal.
  by apply list_filter_iff.
Qed.

Lemma take_other {A B} (g : A -> B) (P1 P2 P3 P4 : B -> Prop) (Q : A -> Prop)
    `{!forall y, Decision (P1 y), !forall y, Decision (P2 y),
      !forall y, Decision (P3 y), !forall y, Decision (P4 y),
      !forall x, Decision (Q x)} (l : list A) (n : nat) :
  (forall x, (P1 (g x) ∧ P2 (g x) ∧ P3 (g x) ∧ P4 (g x)) <-> Q x) ->
  take n (filter P4 (filter P3 (filter P2 (filter P1 (g <$> l)))))
  = g <$> take n (filter Q l).
Proof.
  intros Hiff. rewrite !list_filter_filter, filter_fmap, fmap_take.
  do 2 f_equal. apply list_filter_iff. intros x. rewrite <- Hiff. tauto.
Qed.

(** The rows the first loop visits are the prepared first ten rows of each
    bucket. *)
Lemma kept_rows_first_ten (order_df : list (@order_row num))
    (uri instance : string) :
  kept_rows order_df uri instance
  = (fun p => (p.1, prepared instance (uri_instance uri) p.2))
      <$> first_ten_by_role order_df.
Proof.
  unfold kept_rows, split_by_role, first_ten_by_role. cbv zeta.
  rewrite kept_five, prepare_fmap.
  cbn [fmap list_fmap mjoin list_join]. rewrite app_nil_r.
  rewrite !fmap_app, <- !list_fmap_compose.
  rewrite (take_bucket _ (fun r => roletog r = role_prom)
             (fun raw => bucket_of_role (o_roletog raw) = 0%nat))
    by (intros x; apply bucket_of_role_spec).
  rewrite (take_bucket _ (fun r => roletog r = role_rbs)
             (fun raw => bucket_of_role (o_roletog raw) = 1%nat))
    by (intros x; apply bucket_of_role_spec).
  rewrite (take_bucket _ (fun r => roletog r = role_cds)
             (fun raw => bucket_of_role (o_roletog raw) = 2%nat))
    by (intros x; apply bucket_of_role_spec).
  rewrite (take_bucket _ (fun r => roletog r = role_term)
             (fun raw => bucket_of_role (o_roletog raw) = 3%nat))
    by (intros x; apply bucket_of_role_spec).
  rewrite (take_other _ (fun r => roletog r ≠ role_prom)
             (fun r => roletog r ≠ role_rbs) (fun r => roletog r ≠ role_cds)
             (fun r => roletog r ≠ role_term)
             (fun raw => bucket_of_role (o_roletog raw) = 4%nat))
    by (intros x; apply bucket_of_role_spec).
  rewrite <- !list_fmap_compose. reflexivity.
Qed.

(** A result that passes the [drop] has a row, and that row is kept or ten
    rows of its bucket are. *)
Lemma has_tt_preceding_kept (order_df : list (@order_row num)) :
  has_tt o_title order_df = true -> (1 <= preceding_kept order_df)%nat.
Proof.
  intros Htt. destruct order_df as [|r l]; [done|]. clear Htt.
  rewrite <- (kept_rows_length (r :: l) "" ""), kept_rows_first_ten.
  rewrite length_fmap. unfold first_ten_by_role.
  cbn [fmap list_fmap mjoin list_join].
  rewrite !length_app, !length_fmap, !length_take.
  assert (bucket_of_role (o_roletog r) = 0 ∨ bucket_of_role (o_roletog r) = 1
          ∨ bucket_of_role (o_roletog r) = 2 ∨ bucket_of_role (o_roletog r) = 3
          ∨ bucket_of_role (o_roletog r) = 4)%nat as Hb.
  { unfold bucket_of_role. repeat case_match; tauto. }
  destruct Hb as [Hb|[Hb|[Hb|[Hb|Hb]]]].
  - rewrite (filter_cons_True
               (fun raw => bucket_of_role (o_roletog raw) = 0%nat)) by done.
    cbn [length]. lia.
  - rewrite (filter_cons_True
               (fun raw => bucket_of_role (o_roletog raw) = 1%nat)) by done.
    cbn [length]. lia.
  - rewrite (filter_cons_True
               (fun raw => bucket_of_role (o_roletog raw) = 2%nat)) by done.
    cbn [length]. lia.
  - rewrite (filter_cons_True
               (fun raw => bucket_of_role (o_roletog raw) = 3%nat)) by done.
    cbn [length]. lia.
  - rewrite (filter_cons_True
               (fun raw => bucket_of_role (o_roletog raw) = 4%nat)) by done.
    cbn [length]. lia.
Qed.

(** X13.  For a query result in which some row has a title (the [drop]
    raises [KeyError] otherwise), the preceding part nodes of the flow graph
    are, bucket by bucket
    (promoters, RBS, CDS, terminators, others), the first ten rows of the
    query result with a role of that bucket, in the order of the result: the
    node at row [5 + i] has the title of the [i]-th such row (its display id
    when the title is null), its resolved url and the colour of its bucket,
    and link [i] leaves the header of that bucket. *)
Theorem flow_graph_preceding_nodes (order_df : list (@order_row num))
    (url uri poi_title instance : string) :
  has_tt o_title order_df = true ->
  exists skey,
    sankey order_df url uri poi_title instance = Some skey
    ∧ length (first_ten_by_role order_df) = preceding_kept order_df
    ∧ forall (i b : nat) (raw : @order_row num),
        first_ten_by_role order_df !! i = Some (b, raw) ->
        raw ∈ order_df
        ∧ b = bucket_of_role (o_roletog raw)
        ∧ skey !! (5 + i)%nat ≫= Node_Label
          = Some (default (o_displayId raw) (o_title raw))
        ∧ skey !! (5 + i)%nat ≫= Link
          = Some (uri_to_url_str (o_deff raw) instance (uri_instance uri))
        ∧ skey !! (5 + i)%nat ≫= Color = node_colours !! b
        ∧ skey !! i ≫= Source = Some (Z.of_nat b)
        ∧ skey !! i ≫= Target = Some (5 + Z.of_nat i).
Proof.
  intros Htt. eexists. split; [by apply sankey_spec|].
  pose proof (kept_rows_first_ten order_df uri instance) as HK.
  split.
  { rewrite <- (kept_rows_length order_df uri instance), HK.
    by rewrite length_fmap. }
  intros i b raw Hi.
  assert (kept_rows order_df uri instance !! i
          = Some (b, prepared instance (uri_instance uri) raw)) as Hk.
  { by rewrite HK, list_lookup_fmap, Hi. }
  destruct (kept_rows_origin _ _ _ _ _ _ Hk) as [Hb _].
  assert (raw ∈ order_df ∧ b = bucket_of_role (o_roletog raw)) as [Hraw Hbr].
  { apply list_elem_of_lookup_2 in Hi. unfold first_ten_by_role in Hi.
    apply list_elem_of_join in Hi as (l & Hin & Hl).
    apply list_elem_of_fmap in Hl as (b' & -> & _).
    apply list_elem_of_fmap in Hin as (raw' & [= -> ->] & Hin).
    apply elem_of_take in Hin as (k & Hin & _).
    apply list_elem_of_lookup_2, list_elem_of_filter in Hin as [? ?]. done. }
  split; [done|]. split; [done|].
  set (K := kept_rows order_df uri instance) in *.
  set (c := flow_columns K url poi_title).
  destruct (data_frame_T_cells c (5 + i)) as (_ & _ & _ & -> & -> & -> & _).
  destruct (data_frame_T_cells c i) as (-> & -> & _).
  subst c. unfold flow_columns. cbv zeta.
  cbn [col_source col_target col_color col_label col_link].
  assert (i < length K)%nat as HiK by (by apply lookup_lt_Some in Hk).
  assert (forall {B} (five : list B) (f : nat * @part_row num -> B)
                 (rest : list B),
            length five = 5%nat ->
            (five ++ (f <$> K) ++ rest) !! (5 + i)%nat
            = Some (f (b, prepared instance (uri_instance uri) raw)))
    as Hnode.
  { intros B five f rest H5. rewrite lookup_app_r by lia.
    rewrite lookup_app_l by (rewrite length_fmap; lia).
    rewrite H5. replace (5 + i - 5)%nat with i by lia.
    by rewrite list_lookup_fmap, Hk. }
  rewrite !Hnode by done. cbn [fst snd title deff prepared].
  destruct (bucket_colours_lookup b [] Hb) as [_ Hnc].
  rewrite app_nil_r in Hnc. rewrite Hnc.
  rewrite lookup_app_l by (rewrite length_fmap; lia).
  rewrite lookup_app_l by (rewrite length_py_range; lia).
  rewrite list_lookup_fmap, Hk. unfold py_range.
  rewrite lookup_seqZ_lt by lia. done.
Qed.

(** X14.  For a query result in which some row has a title (the [drop]
    raises [KeyError] otherwise), at least one row is kept ([P >= 1]) and the
    table [sankey] returns has [max(11 + 2*P, 4*P)] rows.  The node cells
    (label, colour, link) are filled in on the rows before [11 + 2*P] and
    null from there on, and the link cells (source, target, value, link
    colour) are filled in on the rows before [4*P] and null from there on:
    from six kept rows on, the rows past the last node hold links only. *)
Theorem flow_graph_table_height (order_df : list (@order_row num))
    (url uri poi_title instance : string) :
  let P := preceding_kept order_df in
  has_tt o_title order_df = true ->
  exists skey,
    sankey order_df url uri poi_title instance = Some skey
    ∧ (1 <= P)%nat
    ∧ length skey = ((11 + 2 * P) `max` (4 * P))%nat
    ∧ forall (i : nat) (row : @skey_row num),
        skey !! i = Some row ->
        (is_Some (Node_Label row) <-> (i < 11 + 2 * P)%nat)
        ∧ (is_Some (Color row) <-> (i < 11 + 2 * P)%nat)
        ∧ (is_Some (Link row) <-> (i < 11 + 2 * P)%nat)
        ∧ (is_Some (Source row) <-> (i < 4 * P)%nat)
        ∧ (is_Some (Target row) <-> (i < 4 * P)%nat)
        ∧ (is_Some (Value row) <-> (i < 4 * P)%nat)
        ∧ (is_Some (Link_Color row) <-> (i < 4 * P)%nat).
Proof.
  intros P Htt. eexists. split; [by apply sankey_spec|].
  split; [by apply has_tt_preceding_kept|].
  subst P. rewrite <- (kept_rows_length order_df uri instance).
  set (K := kept_rows order_df uri instance).
  set (c := flow_columns K url poi_title).
  assert (length (col_source c) = (4 * length K)%nat
          ∧ length (col_target c) = (4 * length K)%nat
          ∧ length (col_value c) = (4 * length K)%nat
          ∧ length (col_color c) = (11 + 2 * length K)%nat
          ∧ length (col_label c) = (11 + 2 * length K)%nat
          ∧ length (col_link c) = (11 + 2 * length K)%nat
          ∧ length (col_link_color c) = (4 * length K)%nat)
    as (Hl1 & Hl2 & Hl3 & Hl4 & Hl5 & Hl6 & Hl7).
  { subst c. unfold flow_columns. cbv zeta.
    cbn [col_source col_target col_value col_color col_label col_link
         col_link_color].
    rewrite !length_app, !length_fmap, !length_replicate, !length_py_range.
    unfold node_colours. cbn [length]. repeat split; lia. }
  split.
  { unfold data_frame_T. cbv zeta. rewrite length_fmap, length_seq.
    rewrite Hl1, Hl2, Hl3, Hl4, Hl5, Hl6, Hl7.
    cbn [max_list max_list_with id]. lia. }
  intros i row Hrow.
  destruct (data_frame_T_cells c i) as (H1 & H2 & H3 & H4 & H5 & H6 & H7).
  rewrite Hrow in H1, H2, H3, H4, H5, H6, H7.
  cbn [mbind option_bind] in H1, H2, H3, H4, H5, H6, H7.
  rewrite H1, H2, H3, H4, H5, H6, H7, !lookup_lt_is_Some.
  rewrite Hl1, Hl2, Hl3, Hl4, Hl5, Hl6, Hl7. done.
Qed.

End sankey_extras.

Lemma flow_graph_preceding_nodes_witness :
  exists skey,
    sankey six_preceding gfp_url gfp_uri "GFP" dev_instance = Some skey
    ∧ skey !! 6%nat ≫= Node_Label = Some "P2"
    ∧ skey !! 9%nat ≫= Node_Label = Some "o2".
Proof.
  destruct (flow_graph_preceding_nodes six_preceding gfp_url gfp_uri "GFP"
              dev_instance) as (skey & Hs & _ & Hnodes); [reflexivity|].
  exists skey. split; [exact Hs|]. split.
  - destruct (Hnodes 1%nat 0%nat
                (mk_order 0 4 "https://synbiohub.org/p2" "p2" role_prom
                   (Some "P2")))
      as (_ & _ & Hl & _); [vm_compute; reflexivity|exact Hl].
  - destruct (Hnodes 4%nat 4%nat
                (mk_order 1 2 "https://synbiohub.org/o2" "o2"
                   "http://identifiers.org/so/SO:0000804" None))
      as (_ & _ & Hl & _); [vm_compute; reflexivity|exact Hl].
Defined.

Lemma flow_graph_table_height_witness :
  exists skey,
    sankey six_preceding gfp_url gfp_uri "GFP" dev_instance = Some skey
    ∧ length skey = 24%nat
    ∧ forall row : @skey_row Q,
        skey !! 23%nat = Some row ->
        ¬ is_Some (Node_Label row) ∧ is_Some (Source row).
Proof.
  destruct (flow_graph_table_height six_preceding gfp_url gfp_uri "GFP"
              dev_instance) as (skey & Hs & _ & Hlen & Hrows); [reflexivity|].
  exists skey. split; [exact Hs|]. split; [exact Hlen|].
  intros row Hrow.
  destruct (Hrows 23%nat row Hrow) as (Hn & _ & _ & Hsrc & _).
  split.
  - intros Hsome. apply Hn in Hsome. vm_compute in Hsome. lia.
  - apply Hsrc. vm_compute. lia.
Defined.

(** ** What plotly receives *)

(** A column whose non-null cells are the entries of [col], row by row,
    drops to [col] under the labels 0, 1, ... *)
Lemma dropna_column {A B} (F : A -> option B) (df : list A) (col : list B)
    (k : nat) :
  (forall i : nat, df !! i ≫= F = col !! i) ->
  omap (fun p : nat * A => (fun v => (p.1, v)) <$> F p.2)
       (imap (fun i x => ((k + i)%nat, x)) df)
  = imap (fun i v => ((k + i)%nat, v)) col.
Proof.
  revert col k. induction df as [|x df IH]; intros col k Hc.
  - destruct col as [|b col]; [done|]. by specialize (Hc 0%nat).
  - pose proof (Hc 0%nat) as H0. simpl in H0.
    rewrite imap_cons. cbn [omap list_omap fst snd].
    rewrite (imap_ext _ (fun i x => ((S k + i)%nat, x)))
      by (intros; simpl; f_equal; lia).
    destruct (F x) as [b|] eqn:HF.
    + destruct col as [|b' col]; [done|]. injection H0 as <-.
      rewrite imap_cons. cbn [fmap option_fmap option_map]. f_equal.
      rewrite (IH col (S k)) by (intros i; apply (Hc (S i))).
      apply imap_ext. intros; simpl; f_equal; lia.
    + destruct col as [|b' col]; [|done]. cbn [fmap option_fmap option_map].
      apply (IH [] (S k)). intros i. apply (Hc (S i)).
Qed.

Lemma dropna_spec {A B} (F : A -> option B) (df : list A) (col : list B) :
  (forall i : nat, df !! i ≫= F = col !! i) ->
  dropna F df = imap pair col.
Proof. intros Hc. exact (dropna_column F df col 0 Hc). Qed.

Lemma dropna_total {A B} (f : A -> B) (df : list A) :
  dropna (fun r => Some (f r)) df = imap pair (f <$> df).
Proof.
  apply dropna_spec. intros i. rewrite list_lookup_fmap.
  by destruct (df !! i).
Qed.

Lemma lookup_imap_pair {B} (col : list B) (i : nat) :
  imap pair col !! i = (fun v => (i, v)) <$> col !! i.
Proof. by rewrite list_lookup_imap. Qed.

Lemma imap_S {A B} (k : nat) (g : A -> B) (l : list A) :
  imap ((fun i v => ((k + i)%nat, g v)) ∘ S) l
  = imap (fun i v => ((S k + i)%nat, g v)) l.
Proof. apply imap_ext. intros; simpl; f_equal; lia. Qed.

(** Two Series without nulls under the same labels add up entry by entry. *)
Lemma series_add_same_labels (l1 l2 : list string) (k : nat) :
  length l1 = length l2 ->
  series_add (imap (fun i v => ((k + i)%nat, Some v)) l1)
             (imap (fun i v => ((k + i)%nat, Some v)) l2)
  = imap (fun i v => ((k + i)%nat, Some v))
         (zip_with (fun a b => a +:+ b) l1 l2).
Proof.
  revert l2 k. induction l1 as [|a l1 IH]; intros [|b l2] k Hl; try done.
  rewrite !imap_cons. cbn [zip_with series_add].
  rewrite Nat.ltb_irrefl. rewrite imap_cons. f_equal.
  rewrite !(imap_S k Some).
  rewrite IH by (simpl in Hl; lia). done.
Qed.

Lemma some_values_imap (col : list string) :
  some_values (imap pair col) = imap (fun i v => ((0 + i)%nat, Some v)) col.
Proof. unfold some_values. by rewrite fmap_imap. Qed.

Lemma str_add_series_imap (s : string) (col : list string) (k : nat) :
  str_add_series s (imap (fun i v => ((k + i)%nat, Some v)) col)
  = imap (fun i v => ((k + i)%nat, Some v)) ((fun v => s +:+ v) <$> col).
Proof. unfold str_add_series. by rewrite fmap_imap, imap_fmap. Qed.

Lemma series_add_str_imap (s : string) (col : list string) (k : nat) :
  series_add_str (imap (fun i v => ((k + i)%nat, Some v)) col) s
  = imap (fun i v => ((k + i)%nat, Some v)) ((fun v => v +:+ s) <$> col).
Proof. unfold series_add_str. by rewrite fmap_imap, imap_fmap. Qed.

(** The labels [bar_plot] and [sankey_graph] build from a column of links
    and a column of names that have no null cell. *)
Lemma anchors_of_columns (open middle : string) (links names : list string) :
  length links = length names ->
  series_add_str
    (series_add
       (series_add_str
          (str_add_series open (some_values (imap pair links))) middle)
       (some_values (imap pair names)))
    "</a>"
  = some_values
      (imap pair
         (zip_with (fun l n => ((open +:+ l) +:+ middle) +:+ n +:+ "</a>")
                   links names)).
Proof.
  intros Hl. rewrite !some_values_imap.
  rewrite str_add_series_imap, series_add_str_imap.
  rewrite series_add_same_labels by (by rewrite !length_fmap).
  rewrite series_add_str_imap. f_equal.
  rewrite zip_with_fmap_l, zip_with_fmap_l. clear Hl.
  revert names. induction links as [|l links IH]; intros [|n names];
    simpl; try done.
  f_equal; [|apply IH]. by rewrite !append_assoc.
Qed.

Section sankey_graph_proofs.
Context {num : Type} `{PyNum num}.

Lemma flow_columns_ends (K : list (nat * @part_row num))
    (url poi_title : string) :
  Forall (fun p => (p.1 < 5)%nat) K ->
  Forall (fun s => 0 <= s < 11 + 2 * Z.of_nat (length K))
    (col_source (flow_columns K url poi_title)
     ++ col_target (flow_columns K url poi_title)).
Proof.
  intros HK. unfold flow_columns. cbv zeta. cbn [col_source col_target].
  unfold py_range.
  rewrite !Forall_app, !Forall_fmap, !Forall_seqZ.
  repeat split; try (apply Forall_replicate); try (intros; lia);
    (eapply Forall_impl; [exact HK|]); intros [b r]; simpl; lia.
Qed.

(** X15.  For a query result in which some row has a title (the [drop] of
    [sankey] raises [KeyError] otherwise), the figure [sankey_graph] hands to
    plotly when it is given the table of [sankey] the way [app.py] does
    ([url_not_name=False]): the node
    labels are the [11 + 2*P] node labels of the table in row order, none of
    them null, with as many node colours; sources, targets, values and link
    colours are [4*P] each; and every source and target is a position of the
    label list. *)
Theorem sankey_graph_of_sankey (order_df : list (@order_row num))
    (url uri poi_title instance filename graph_title : string) :
  has_tt o_title order_df = true ->
  exists skey,
    sankey order_df url uri poi_title instance = Some skey
    ∧ let fig :=
        sankey_graph filename skey Node_Label Link Color Source Target Value
          Link_Color graph_title false in
      let P := preceding_kept order_df in
      length (sf_label fig) = (11 + 2 * P)%nat
      ∧ length (sf_node_color fig) = (11 + 2 * P)%nat
      ∧ length (sf_source fig) = (4 * P)%nat
      ∧ length (sf_target fig) = (4 * P)%nat
      ∧ length (sf_value fig) = (4 * P)%nat
      ∧ length (sf_link_color fig) = (4 * P)%nat
      ∧ (forall i : nat,
           sf_label fig !! i
           = (fun name => (i, Some name)) <$> (skey !! i ≫= Node_Label))
      ∧ (forall i : nat,
           sf_source fig !! i = (fun s => (i, s)) <$> (skey !! i ≫= Source))
      ∧ (forall i : nat,
           sf_target fig !! i = (fun s => (i, s)) <$> (skey !! i ≫= Target))
      ∧ forall (i l : nat) (s : Z),
          sf_source fig !! i = Some (l, s) ∨ sf_target fig !! i = Some (l, s) ->
          0 <= s < Z.of_nat (length (sf_label fig)).
Proof.
  intros Htt. eexists. split; [by apply sankey_spec|].
  set (K := kept_rows order_df uri instance).
  set (c := flow_columns K url poi_title).
  pose proof (data_frame_T_cells c) as Hc.
  cbv zeta. unfold sankey_graph. cbv zeta.
  cbn [sf_label sf_node_color sf_source sf_target sf_value sf_link_color].
  rewrite (dropna_spec Node_Label _ (col_label c)) by apply Hc.
  rewrite (dropna_spec Color _ (col_color c)) by apply Hc.
  rewrite (dropna_spec Source _ (col_source c)) by apply Hc.
  rewrite (dropna_spec Target _ (col_target c)) by apply Hc.
  rewrite (dropna_spec Value _ (col_value c)) by apply Hc.
  rewrite (dropna_spec Link_Color _ (col_link_color c)) by apply Hc.
  unfold some_values. rewrite length_fmap, !length_imap.
  assert (length (col_label c) = (11 + 2 * length K)%nat
          ∧ length (col_color c) = (11 + 2 * length K)%nat
          ∧ length (col_source c) = (4 * length K)%nat
          ∧ length (col_target c) = (4 * length K)%nat
          ∧ length (col_value c) = (4 * length K)%nat
          ∧ length (col_link_color c) = (4 * length K)%nat)
    as (Hl1 & Hl2 & Hl3 & Hl4 & Hl5 & Hl6).
  { subst c. unfold flow_columns. cbv zeta.
    cbn [col_source col_target col_value col_color col_label col_link_color].
    rewrite !length_app, !length_fmap, !length_replicate, !length_py_range.
    unfold node_colours. cbn [length]. repeat split; lia. }
  rewrite <- (kept_rows_length order_df uri instance). fold K.
  do 6 (split; [done|]).
  destruct (Forall_app (fun s => 0 <= s < 11 + 2 * Z.of_nat (length K))
              (col_source c) (col_target c)) as [Hends _].
  destruct Hends as [Hsrc Htgt].
  { apply flow_columns_ends, Forall_lookup. intros j [b r] Hj.
    by destruct (kept_rows_origin _ _ _ _ _ _ Hj). }
  split.
  { intros i. destruct (Hc i) as (_ & _ & _ & _ & -> & _).
    rewrite list_lookup_fmap, lookup_imap_pair.
    by destruct (col_label c !! i). }
  split.
  { intros i. destruct (Hc i) as (-> & _). apply lookup_imap_pair. }
  split.
  { intros i. destruct (Hc i) as (_ & -> & _). apply lookup_imap_pair. }
  intros i l s Hs. rewrite Hl1.
  rewrite !lookup_imap_pair in Hs.
  destruct Hs as [Hs|Hs].
  - destruct (col_source c !! i) as [s'|] eqn:Hi; [|done].
    injection Hs as <- <-.
    pose proof (Forall_lookup_1 _ _ _ _ Hsrc Hi) as Hr. simpl in Hr. lia.
  - destruct (col_target c !! i) as [s'|] eqn:Hi; [|done].
    injection Hs as <- <-.
    pose proof (Forall_lookup_1 _ _ _ _ Htgt Hi) as Hr. simpl in Hr. lia.
Qed.

(** X16.  For a query result in which some row has a title (the [drop] of
    [sankey] raises [KeyError] otherwise), with [url_not_name=True] on the
    table of [sankey] there are [11 + 2*P] node labels, and each of them is
    the anchor written from the link and the label of its row, both of which
    are there; so no label is null. *)
Theorem sankey_graph_anchors (order_df : list (@order_row num))
    (url uri poi_title instance filename graph_title : string) :
  has_tt o_title order_df = true ->
  exists skey,
    sankey order_df url uri poi_title instance = Some skey
    ∧ let fig :=
        sankey_graph filename skey Node_Label Link Color Source Target Value
          Link_Color graph_title true in
      length (sf_label fig) = (11 + 2 * preceding_kept order_df)%nat
      ∧ forall i : nat,
          (i < 11 + 2 * preceding_kept order_df)%nat ->
          exists name link : string,
            skey !! i ≫= Node_Label = Some name
            ∧ skey !! i ≫= Link = Some link
            ∧ sf_label fig !! i = Some (i, Some (node_anchor link name)).
Proof.
  intros Htt. eexists. split; [by apply sankey_spec|].
  set (K := kept_rows order_df uri instance).
  set (c := flow_columns K url poi_title).
  pose proof (data_frame_T_cells c) as Hc.
  cbv zeta. unfold sankey_graph. cbv zeta. cbn [sf_label].
  rewrite (dropna_spec Node_Label _ (col_label c)) by apply Hc.
  rewrite (dropna_spec Link _ (col_link c)) by apply Hc.
  assert (length (col_label c) = (11 + 2 * length K)%nat
          ∧ length (col_link c) = (11 + 2 * length K)%nat) as [Hl1 Hl2].
  { subst c. unfold flow_columns. cbv zeta. cbn [col_label col_link].
    rewrite !length_app, !length_fmap. cbn [length]. split; lia. }
  rewrite anchors_of_columns by lia.
  unfold some_values.
  rewrite length_fmap, length_imap, length_zip_with, Hl1, Hl2.
  rewrite <- (kept_rows_length order_df uri instance). fold K.
  split; [lia|].
  intros i Hi.
  destruct (Hc i) as (_ & _ & _ & _ & Hn & Hk & _).
  destruct (lookup_lt_is_Some_2 (col_label c) i) as [name Hname]; [lia|].
  destruct (lookup_lt_is_Some_2 (col_link c) i) as [link Hlink]; [lia|].
  exists name, link. rewrite Hn, Hk. split; [done|]. split; [done|].
  rewrite list_lookup_fmap, lookup_imap_pair, lookup_zip_with, Hlink, Hname.
  cbn -[String.append dquote]. unfold node_anchor. by rewrite !append_assoc.
Qed.

End sankey_graph_proofs.

Lemma sankey_graph_anchors_witness :
  exists skey,
    sankey six_preceding gfp_url gfp_uri "GFP" dev_instance = Some skey
    ∧ sf_label
        (sankey_graph "Sankey.html" skey Node_Label Link Color Source Target
           Value Link_Color "Parts" true) !! 11%nat
      = Some (11%nat, Some (node_anchor gfp_url "GFP")).
Proof.
  destruct (sankey_graph_anchors six_preceding gfp_url gfp_uri "GFP"
              dev_instance "Sankey.html" "Parts") as (skey & Hs & _ & Hall);
    [reflexivity|].
  exists skey. split; [exact Hs|].
  destruct (Hall 11%nat) as (name & link & Hn & Hl & Hlabel);
    [vm_compute; lia|].
  assert (skey !! 11%nat ≫= Node_Label = Some "GFP"
          ∧ skey !! 11%nat ≫= Link = Some gfp_url) as [Hn' Hl'].
  { vm_compute in Hs. injection Hs as <-. split; reflexivity. }
  rewrite Hn' in Hn. rewrite Hl' in Hl.
  injection Hn as <-. injection Hl as <-. exact Hlabel.
Defined.

Lemma sankey_graph_of_sankey_witness :
  exists skey,
    sankey six_preceding gfp_url gfp_uri "GFP" dev_instance = Some skey
    ∧ length (sf_label
                (sankey_graph "Sankey.html" skey Node_Label Link Color Source
                   Target Value Link_Color "Parts" false)) = 23%nat
    ∧ length (sf_source
                (sankey_graph "Sankey.html" skey Node_Label Link Color Source
                   Target Value Link_Color "Parts" false)) = 24%nat.
Proof.
  destruct (sankey_graph_of_sankey six_preceding gfp_url gfp_uri "GFP"
              dev_instance "Sankey.html" "Parts")
    as (skey & Hs & Hl & _ & Hsrc & _); [reflexivity|].
  exists skey. split; [exact Hs|]. split; [exact Hl|exact Hsrc].
Defined.

(** X17.  The figure [bar_plot] hands to plotly when it is given the table
    of a ranked-table builder the way [app.py] does: one bar for each row of
    the table, in row order, labelled with the anchor that shows the title of
    the row and links to its url, with the count of the row for height and
    the colour of the row; no label is null, and the last bar is the one of
    the part of interest. *)
Theorem bar_plot_of_ranked_table (bindings : list bar_row)
    (uri instance display_id title role : string) (count : Z)
    (t : list ranked_row) (graph_title filename : string) :
  most_used_bar bindings uri instance display_id title role count = Some t
  ∨ most_used_by_type_bar bindings uri instance display_id title role count
    = Some t ->
  let fig :=
    bar_plot (fun r => Some (r_title r)) (fun r => Some (r_count r))
      (fun r => Some (r_color r)) t graph_title filename
      (fun r => Some (r_deff r)) in
  length (bf_x fig) = length t
  ∧ length (bf_y fig) = length t
  ∧ length (bf_marker_color fig) = length t
  ∧ (forall (i : nat) (row : ranked_row),
       t !! i = Some row ->
       bf_x fig !! i = Some (i, Some (bar_anchor (r_deff row) (r_title row)))
       ∧ bf_y fig !! i = Some (i, r_count row)
       ∧ bf_marker_color fig !! i = Some (i, r_color row))
  ∧ bf_x fig !! (length t - 1)%nat
    = Some ((length t - 1)%nat,
            Some (bar_anchor (uri_to_url_str uri instance (uri_instance uri))
                    title)).
Proof.
  intros Ht. cbv zeta. unfold bar_plot. cbv zeta.
  cbn [bf_x bf_y bf_marker_color].
  rewrite !dropna_total.
  rewrite anchors_of_columns by (by rewrite !length_fmap).
  unfold some_values.
  rewrite length_fmap, !length_imap, length_zip_with, !length_fmap.
  assert (forall (i : nat) (row : ranked_row),
            t !! i = Some row ->
            ((fun q : nat * string => (q.1, Some q.2))
               <$> imap pair
                     (zip_with
                        (fun l n =>
                           ((("<a href=" +:+ dquote) +:+ l)
                            +:+ (dquote +:+ " target=" +:+ dquote +:+ "_blank"
                                 +:+ dquote +:+ ">"))
                           +:+ n +:+ "</a>")
                        (r_deff <$> t) (r_title <$> t))) !! i
            = Some (i, Some (bar_anchor (r_deff row) (r_title row)))) as Hx.
  { intros i row Hrow.
    rewrite list_lookup_fmap, lookup_imap_pair, lookup_zip_with.
    rewrite !list_lookup_fmap, Hrow. cbn -[String.append dquote].
    unfold bar_anchor. by rewrite !append_assoc. }
  split; [lia|]. split; [done|]. split; [done|]. split.
  - intros i row Hrow. split; [by apply Hx|].
    by rewrite !lookup_imap_pair, !list_lookup_fmap, Hrow.
  - destruct (builders_table _ _ _ _ _ _ _ t Ht)
      as (_ & _ & row & Hrow & _ & Htitle & _ & _ & Hurl).
    rewrite (Hx _ row Hrow). by rewrite Htitle, Hurl.
Qed.

Lemma bar_plot_of_ranked_table_witness :
  exists t,
    most_used_bar three_candidates gfp_uri dev_instance "BBa_E0040" "GFP"
      "0000316" 2348 = Some t
    ∧ bf_x (bar_plot (fun r => Some (r_title r)) (fun r => Some (r_count r))
              (fun r => Some (r_color r)) t "Top Ten" "Most_Used.html"
              (fun r => Some (r_deff r))) !! 2%nat
      = Some (2%nat, Some (bar_anchor gfp_url "GFP")).
Proof.
  destruct (most_used_bar three_candidates gfp_uri dev_instance "BBa_E0040"
              "GFP" "0000316" 2348) as [t|] eqn:Ht; [|vm_compute in Ht; done].
  exists t. split; [done|].
  destruct (bar_plot_of_ranked_table three_candidates gfp_uri dev_instance
              "BBa_E0040" "GFP" "0000316" 2348 t "Top Ten" "Most_Used.html"
              (or_introl Ht)) as (Hlen & _ & _ & _ & Hlast).
  assert (length t = 3%nat) as Hl.
  { vm_compute in Ht. by injection Ht as <-. }
  rewrite Hl in Hlast. exact Hlast.
Defined.

(** ** toggle_bars *)

(** Text in which [old] matches at no position is copied. *)
Lemma replace_from_within (old new a b : string) :
  starts_within old a b = false ->
  PyStr.replace_from old new 0 (a +:+ b)
  = a +:+ PyStr.replace_from old new 0 b.
Proof.
  induction a as [|x a IH]; [done|].
  cbn [starts_within]. intros [Hp Hw]%orb_false_elim.
  change (String x a +:+ b) with (String x (a +:+ b)) in *.
  cbn [PyStr.replace_from]. rewrite Hp, IH by done. done.
Qed.

Lemma replace_from_empty (old new : string) :
  PyStr.replace_from old new 0 "" = "".
Proof. done. Qed.

(** X18.  The loop of [toggle_bars] turns a document made of the plotly
    header, a body and the plotly footer into the body, provided the footer
    matches nowhere before its place at the end and the header does not match
    inside the body. *)
Theorem strip_wrapper_body (body : string) :
  starts_within html_footer (html_header +:+ body) html_footer = false ->
  PyStr.occurs html_header body = false ->
  strip_wrapper (html_header +:+ body +:+ html_footer) = body.
Proof.
  intros Hfoot Hhead. unfold strip_wrapper. cbv zeta.
  assert (PyStr.replace (html_header +:+ body +:+ html_footer) html_footer ""
          = html_header +:+ body) as ->.
  { change (PyStr.replace ?s html_footer "")
      with (PyStr.replace_from html_footer "" 0 s).
    rewrite <- append_assoc, replace_from_within by done.
    rewrite <- (append_nil_r html_footer) at 2.
    rewrite replace_from_prefix by done.
    by rewrite replace_from_empty, !append_nil_r. }
  change (PyStr.replace ?s html_header "")
    with (PyStr.replace_from html_header "" 0 s).
  rewrite replace_from_prefix by done.
  by rewrite replace_from_absent.
Qed.

Lemma strip_wrapper_body_witness :
  strip_wrapper (html_header +:+ "<div id=1></div>" +:+ html_footer)
  = "<div id=1></div>".
Proof. apply strip_wrapper_body; vm_compute; reflexivity. Defined.

(** X19.  For a template that holds the two placeholders once each, in
    order, [toggle_bars] returns the template with the first placeholder
    replaced by the stripped first document and the second by the stripped
    second one, and writes no file when [save_html] is false; this needs that
    the second placeholder does not match inside what precedes it once the
    first document is in place. *)
Theorem toggle_bars_display (bar1 bar2 pre mid post : string) :
  starts_within "<h2>Frequency</h2>" pre
    ("<h2>Frequency</h2>" +:+ mid +:+ "<h2>By type</h2>" +:+ post) = false ->
  PyStr.occurs "<h2>Frequency</h2>" (mid +:+ "<h2>By type</h2>" +:+ post)
  = false ->
  starts_within "<h2>By type</h2>" (pre +:+ strip_wrapper bar1 +:+ mid)
    ("<h2>By type</h2>" +:+ post) = false ->
  PyStr.occurs "<h2>By type</h2>" post = false ->
  toggle_bars bar1 bar2 false None
    (pre +:+ "<h2>Frequency</h2>" +:+ mid +:+ "<h2>By type</h2>" +:+ post)
  = Ok (pre +:+ strip_wrapper bar1 +:+ mid +:+ strip_wrapper bar2 +:+ post, []).
Proof.
  intros H1 H2 H3 H4. unfold toggle_bars. cbv zeta.
  change (foldl _ [bar1; bar2] (imap pair [bar1; bar2]))
    with [strip_wrapper bar1; strip_wrapper bar2].
  cbn [lookup list_lookup].
  change (PyStr.replace ?s "<h2>Frequency</h2>" ?n)
    with (PyStr.replace_from "<h2>Frequency</h2>" n 0 s).
  rewrite replace_from_within by done.
  rewrite replace_from_prefix by done.
  rewrite replace_from_absent by done.
  change (PyStr.replace ?s "<h2>By type</h2>" ?n)
    with (PyStr.replace_from "<h2>By type</h2>" n 0 s).
  rewrite <- (append_assoc (strip_wrapper bar1) mid).
  rewrite <- (append_assoc pre (strip_wrapper bar1 +:+ mid)).
  rewrite replace_from_within by done.
  rewrite replace_from_prefix by done.
  rewrite replace_from_absent by done.
  by rewrite !append_assoc.
Qed.

Lemma toggle_bars_display_witness :
  toggle_bars (html_header +:+ "<div id=1></div>" +:+ html_footer)
    "<div id=2></div>" false None
    ("<body>" +:+ "<h2>Frequency</h2>" +:+ "<hr>" +:+ "<h2>By type</h2>"
     +:+ "</body>")
  = Ok ("<body>"
        +:+ strip_wrapper (html_header +:+ "<div id=1></div>" +:+ html_footer)
        +:+ "<hr>" +:+ strip_wrapper "<div id=2></div>" +:+ "</body>", []).
Proof. apply toggle_bars_display; vm_compute; reflexivity. Defined.
